(** * excel_writer: reconciling indicator records into worksheets

    A shallow embedding of [financial-indicators/excel_writer.py]: the
    worksheet writers (Selic, CDI, IPCA, TR), the metadata writer and the
    part of [IndicatorsWorkbook] that reads and writes through them,
    together with the properties of the specification checked against it.

    The worksheet is openpyxl's: a dictionary from (row, column) to cells,
    where asking for a cell creates it.  Python values, exceptions and the
    [decimal] arithmetic of the default context are modelled as far as the
    code uses them. *)

From stdpp Require Import gmap strings list fin_maps numbers sorting.
From Stdlib Require Import ZArith Lia Ascii.

Local Open Scope Z_scope.

(** ** Exceptions and results *)

Inductive exn :=
  | AttributeError
  | TypeError
  | ValueError
  | KeyError
  | IndexError
  | NameError
  | InvalidOperation
  | DivisionByZero
  | OverflowError.

Inductive result (A : Type) :=
  | Ok (a : A)
  | Raise (e : exn).
Arguments Ok {A} a.
Arguments Raise {A} e.

Global Instance exn_eq_dec : EqDecision exn.
Proof. solve_decision. Defined.

Global Instance result_ret : MRet result := λ A a, Ok a.
Global Instance result_bind : MBind result := λ A B k m,
  match m with
  | Ok a => k a
  | Raise e => Raise e
  end.
Global Instance result_fmap : FMap result := λ A B f m,
  match m with
  | Ok a => Ok (f a)
  | Raise e => Raise e
  end.

(** ** Calendar dates: [datetime.date] and [datetime.datetime] *)

Record date := Date { year : Z; month : Z; day : Z }.

Record time := Time { hour : Z; minute : Z; second : Z; microsecond : Z }.

Definition midnight : time := Time 0 0 0 0.

Global Instance date_eq_dec : EqDecision date.
Proof. solve_decision. Defined.

Global Instance time_eq_dec : EqDecision time.
Proof. solve_decision. Defined.

(** [date.__eq__] and [date.__lt__] compare (year, month, day). *)
Definition date_eqb (a b : date) : bool :=
  (year a =? year b) && (month a =? month b) && (day a =? day b).

Definition date_ltb (a b : date) : bool :=
  (year a <? year b)
  || ((year a =? year b)
      && ((month a <? month b)
          || ((month a =? month b) && (day a <? day b)))).

Definition date_lt (a b : date) : Prop := date_ltb a b = true.

(** [datetime.date(year, month, 1)].  The arguments are converted to C
    [int]s first, which is an [OverflowError] for one that does not fit;
    then the year and the month are checked.  The first day exists in
    every month. *)
Definition fits_c_int (n : Z) : bool :=
  (- 2 ^ 31 <=? n) && (n <? 2 ^ 31).

Definition first_of_month (y m : Z) : result date :=
  if negb (fits_c_int y && fits_c_int m) then Raise OverflowError
  else if (1 <=? y) && (y <=? 9999) && (1 <=? m) && (m <=? 12)
  then Ok (Date y m 1)
  else Raise ValueError.

(** ** [decimal.Decimal] under the default context

    A finite decimal is a signed coefficient and an exponent; the default
    context has 28 digits of precision and rounds half to even.  The sign
    of a zero, the special values and the exponent limits of the context
    (beyond 10^999999) are not represented. *)

Record decimal := Dec { coeff : Z; expo : Z }.

Global Instance decimal_eq_dec : EqDecision decimal.
Proof. solve_decision. Defined.

Definition prec : Z := 28.

Fixpoint ndigits_aux (fuel : nat) (n : Z) : Z :=
  match fuel with
  | O => 1
  | S fuel' => if n <? 10 then 1 else 1 + ndigits_aux fuel' (n / 10)
  end.

(** [len(str(abs(n)))] *)
Definition ndigits (n : Z) : Z :=
  ndigits_aux (Z.to_nat (Z.log2 (Z.abs n))) (Z.abs n).

(** Quotient of a non-negative [n] by [10^k], rounded half to even. *)
Definition div_half_even (n : Z) (k : Z) : Z :=
  let p := 10 ^ k in
  let q := n / p in
  let r := n mod p in
  if (p <? 2 * r) || ((2 * r =? p) && Z.odd q) then q + 1 else q.

(** [Decimal._rescale(exp, ROUND_HALF_EVEN)] *)
Definition dec_rescale (x : decimal) (e : Z) : decimal :=
  if coeff x =? 0 then Dec 0 e
  else if e <=? expo x then Dec (coeff x * 10 ^ (expo x - e)) e
  else Dec (Z.sgn (coeff x) * div_half_even (Z.abs (coeff x)) (e - expo x)) e.

(** [Decimal._fix(context)]: round to the precision of the context. *)
Definition dec_fix (x : decimal) : decimal :=
  if ndigits (coeff x) <=? prec then x
  else
    let e := expo x + (ndigits (coeff x) - prec) in
    let y := dec_rescale x e in
    if ndigits (coeff y) <=? prec then y
    else Dec (coeff y / 10) (e + 1).

(** [Decimal.__mul__] *)
Definition dec_mul (x y : decimal) : decimal :=
  dec_fix (Dec (coeff x * coeff y) (expo x + expo y)).

Fixpoint strip_zeros (fuel : nat) (c e : Z) : Z * Z :=
  match fuel with
  | O => (c, e)
  | S fuel' =>
      if c mod 10 =? 0 then strip_zeros fuel' (c / 10) (e + 1) else (c, e)
  end.

(** [Decimal.__truediv__] *)
Definition dec_div (x y : decimal) : result decimal :=
  if coeff y =? 0 then
    Raise (if coeff x =? 0 then InvalidOperation else DivisionByZero)
  else if coeff x =? 0 then Ok (dec_fix (Dec 0 (expo x - expo y)))
  else
    let sign := Z.sgn (coeff x) * Z.sgn (coeff y) in
    let a := Z.abs (coeff x) in
    let b := Z.abs (coeff y) in
    let shift := ndigits b - ndigits a + prec + 1 in
    let e := expo x - expo y - shift in
    let num := if 0 <=? shift then a * 10 ^ shift else a in
    let den := if 0 <=? shift then b else b * 10 ^ (- shift) in
    let q := num / den in
    let r := num mod den in
    if r =? 0 then
      let '(q', e') := strip_zeros (Z.to_nat (expo x - expo y - e)) q e in
      Ok (dec_fix (Dec (sign * q') e'))
    else
      let q' := if q mod 5 =? 0 then q + 1 else q in
      Ok (dec_fix (Dec (sign * q') e)).

(** [Decimal.quantize(Decimal((0, (1,), e)))], which is what
    [Decimal.__round__(n)] calls with [e = -n]. *)
Definition dec_quantize (x : decimal) (e : Z) : result decimal :=
  if coeff x =? 0 then Ok (Dec 0 e)
  else if prec <? ndigits (coeff x) + expo x - e then Raise InvalidOperation
  else
    let y := dec_rescale x e in
    if prec <? ndigits (coeff y) then Raise InvalidOperation else Ok y.

Definition dec_round (x : decimal) (n : Z) : result decimal :=
  dec_quantize x (- n).

(** [Decimal._normalize] as used by [__add__]: align the exponents, with
    an operand too small to matter replaced by a unit at a safe place. *)
Definition dec_normalize (x y : decimal) : decimal * decimal :=
  let '(tmp, other, swapped) :=
    if expo x <? expo y then (y, x, true) else (x, y, false) in
  let e := expo tmp + Z.min (-1) (ndigits (coeff tmp) - prec - 2) in
  let other' :=
    if ndigits (coeff other) + expo other - 1 <? e
    then Dec (Z.sgn (coeff other)) e else other in
  let tmp' := Dec (coeff tmp * 10 ^ (expo tmp - expo other')) (expo other') in
  if swapped then (other', tmp') else (tmp', other').

(** [Decimal.__add__] *)
Definition dec_add (x y : decimal) : decimal :=
  let e := Z.min (expo x) (expo y) in
  if (coeff x =? 0) && (coeff y =? 0) then dec_fix (Dec 0 e)
  else if coeff x =? 0 then
    dec_fix (dec_rescale y (Z.max e (expo y - prec - 1)))
  else if coeff y =? 0 then
    dec_fix (dec_rescale x (Z.max e (expo x - prec - 1)))
  else
    let '(x', y') := dec_normalize x y in
    if coeff x' + coeff y' =? 0 then dec_fix (Dec 0 e)
    else dec_fix (Dec (coeff x' + coeff y') (expo x')).

(** An [int] operand of a [Decimal] operator is converted first. *)
Definition dec_of_int (n : Z) : decimal := Dec n 0.

(** ** Cell values *)

Inductive value :=
  | VNone
  | VInt (n : Z)
  | VDec (x : decimal)
  | VStr (s : string)
  | VDate (d : date)
  | VDatetime (d : date) (t : time)
  | VTime (t : time).

Global Instance value_eq_dec : EqDecision value.
Proof. solve_decision. Defined.

(** [v.date()]: only a [datetime.datetime] has the method; a
    [datetime.date], a [datetime.time], a number, a string and [None] do
    not. *)
Definition value_date (v : value) : result date :=
  match v with
  | VDatetime d _ => Ok d
  | _ => Raise AttributeError
  end.

(** [int(s)] for a string, in base 10: surrounding whitespace, a sign,
    then digits in which single underscores may separate two digits.  Only
    ASCII whitespace and digits are covered. *)
Definition is_space (a : ascii) : bool :=
  bool_decide (a ∈ [" "; "009"; "010"; "011"; "012"; "013"]%char).

Definition digit_of (a : ascii) : option Z :=
  let n := Z.of_nat (nat_of_ascii a) in
  if (48 <=? n) && (n <=? 57) then Some (n - 48) else None.

Fixpoint parse_digits (acc : Z) (after_digit : bool) (l : list ascii)
  : option Z :=
  match l with
  | [] => if after_digit then Some acc else None
  | a :: l' =>
      match digit_of a with
      | Some d => parse_digits (10 * acc + d) true l'
      | None =>
          if bool_decide (a = "_"%char) && after_digit
          then parse_digits acc false l'
          else None
      end
  end.

Fixpoint lstrip (l : list ascii) : list ascii :=
  match l with
  | a :: l' => if is_space a then lstrip l' else l
  | [] => []
  end.

Definition strip (l : list ascii) : list ascii :=
  reverse (lstrip (reverse (lstrip l))).

Definition int_of_string (s : string) : result Z :=
  let parsed :=
    match strip (String.list_ascii_of_string s) with
    | "-"%char :: l => Z.opp <$> parse_digits 0 false l
    | "+"%char :: l => parse_digits 0 false l
    | l => parse_digits 0 false l
    end in
  match parsed with
  | Some n => Ok n
  | None => Raise ValueError
  end.

(** [int(v)]: a number truncates towards zero, a string is parsed, and
    anything else ([None], a date, a time) is a [TypeError]. *)
Definition py_int (v : value) : result Z :=
  match v with
  | VInt n => Ok n
  | VDec x =>
      Ok (if 0 <=? expo x then coeff x * 10 ^ expo x
          else Z.quot (coeff x) (10 ^ (- expo x)))
  | VStr s => int_of_string s
  | VNone | VDate _ | VDatetime _ _ | VTime _ => Raise TypeError
  end.

(** ** The worksheet

    openpyxl keeps the cells of a worksheet in a dictionary keyed by
    (row, column), both counted from 1.  [ws.cell(row, column)] returns
    the cell there and creates it, empty, when there is none; the
    dimensions are read off the keys. *)

Abbreviation worksheet := (gmap (nat * nat) value).

Definition max_row (ws : worksheet) : nat :=
  if decide (ws = ∅) then 1%nat else max_list ((map_to_list ws).*1.*1).

Definition max_column (ws : worksheet) : nat :=
  if decide (ws = ∅) then 1%nat else max_list ((map_to_list ws).*1.*2).

(** Operations on the worksheet: state passing with exceptions. *)
Definition sheet_op (A : Type) : Type := worksheet → result (A * worksheet).

Global Instance sheet_ret : MRet sheet_op := λ A a ws, Ok (a, ws).
Global Instance sheet_bind : MBind sheet_op := λ A B k m ws,
  match m ws with
  | Ok (a, ws') => k a ws'
  | Raise e => Raise e
  end.

Definition throw {A} (e : exn) : sheet_op A := λ _, Raise e.

Definition lift {A} (r : result A) : sheet_op A := λ ws,
  match r with
  | Ok a => Ok (a, ws)
  | Raise e => Raise e
  end.

Definition read {A} (f : worksheet → A) : sheet_op A := λ ws, Ok (f ws, ws).

(** [ws.cell(row, column).value] *)
Definition cell_value (row column : nat) : sheet_op value := λ ws,
  if ((row <? 1) || (column <? 1))%nat then Raise ValueError
  else match ws !! (row, column) with
       | Some v => Ok (v, ws)
       | None => Ok (VNone, <[(row, column) := VNone]> ws)
       end.

(** [ws.cell(row, column).value = v] *)
Definition set_cell_value (row column : nat) (v : value) : sheet_op () :=
  λ ws,
  if ((row <? 1) || (column <? 1))%nat then Raise ValueError
  else Ok ((), <[(row, column) := v]> ws).

(** [range(a, b)] and [range(a, b, -1)] *)
Definition py_range (a b : nat) : list nat := seq a (b - a).
Definition py_range_down (a b : nat) : list nat := reverse (seq (S b) (a - b)).

(** [for x in l: body], and the same loop with a [return] in its body and
    an [else] clause: the body answers [Some r] to return [r]. *)
Fixpoint for_each {A} (l : list A) (body : A → sheet_op ()) : sheet_op () :=
  match l with
  | [] => mret ()
  | x :: l' => body x ≫= λ _, for_each l' body
  end.

Fixpoint for_else {A R} (l : list A) (body : A → sheet_op (option R))
    (orelse : sheet_op R) : sheet_op R :=
  match l with
  | [] => orelse
  | x :: l' =>
      r ← body x;
      match r with
      | Some a => mret a
      | None => for_else l' body orelse
      end
  end.

(** [for column, x in enumerate(xs, column): ws.cell(row, column).value = x] *)
Fixpoint write_cells (row column : nat) (xs : list value) : sheet_op () :=
  match xs with
  | [] => mret ()
  | x :: xs' =>
      set_cell_value row column x ≫= λ _, write_cells row (S column) xs'
  end.

(** ** Indicator records

    [bcb_api.IndicatorRecord] as the writers read it: [record.date],
    [record.value] and, for the TR, [record.end_date]. *)

Record IndicatorRecord := {
  rec_date : date;
  rec_value : decimal;
  rec_end_date : option date;
}.

Definition opt_date_value (d : option date) : value :=
  match d with
  | Some d => VDate d
  | None => VNone
  end.

(** ** The worksheet writers

    A writer class is its three overridable methods; [self] in the base
    class is the table of the subclass at hand. *)

Record writer := Writer {
  get_headers : list string;
  format_record : IndicatorRecord → result (list value);
  get_first_row : date → sheet_op nat;
}.

Module WorksheetWriter.

Definition _get_headers : list string := ["date"; "value"]%string.

Definition _write_headers (self : writer) : sheet_op () :=
  write_cells 1 1 (VStr <$> get_headers self).

Definition _get_first_row (first_date : date) : sheet_op nat :=
  let column := 1%nat in
  top ← read max_row;
  for_else (py_range_down top 1)
    (λ row,
       v ← cell_value row column;
       date_on_cell ← lift (value_date v);
       if date_eqb date_on_cell first_date then mret (Some row)
       else if date_ltb date_on_cell first_date then mret (Some (row + 1)%nat)
       else mret None)
    (mret 1%nat).

Definition _erase_extra_records (row : nat) : sheet_op () :=
  top ← read max_row;
  for_each (py_range row (top + 1))
    (λ row,
       width ← read max_column;
       for_each (py_range 1 (width + 1))
         (λ column, set_cell_value row column VNone)).

(** The loop over [enumerate(records, first_row)]; [bound] is what the
    loop variable [row] is bound to so far, if anything. *)
Fixpoint write_rows (self : writer) (row : nat) (bound : option nat)
    (records : list IndicatorRecord) : sheet_op (option nat) :=
  match records with
  | [] => mret bound
  | record :: rest =>
      formatted_record ← lift (format_record self record);
      write_cells row 1 formatted_record ≫= λ _,
      write_rows self (S row) (Some row) rest
  end.

(** [empty_exn] is what [records[0]] raises on an empty [RECORDS]; the
    class of that container is in [bcb_api]. *)
Definition _write_records (empty_exn : exn) (self : writer)
    (records : list IndicatorRecord) : sheet_op () :=
  first_row ←
    match records with
    | record :: _ => get_first_row self (rec_date record)
    | [] => if decide (empty_exn = KeyError) then mret 1%nat
            else throw empty_exn
    end;
  first_row ←
    (if (first_row =? 1)%nat
     then _write_headers self ≫= λ _, mret 2%nat
     else mret first_row);
  row ← write_rows self first_row None records;
  match row with
  | Some row => _erase_extra_records (row + 1)
  | None => _erase_extra_records first_row
  end.

End WorksheetWriter.

(** [1 + round(record.value * 1 / 100, 8)] *)
Definition daily_value (v : decimal) : result decimal :=
  q ← dec_div (dec_mul v (dec_of_int 1)) (dec_of_int 100);
  r ← dec_round q 8;
  mret (dec_add (dec_of_int 1) r).

Module SelicWriter.

Definition _get_headers : list string :=
  WorksheetWriter._get_headers ++ ["daily_value"]%string.

Definition _format_record (record : IndicatorRecord)
  : result (list value) :=
  daily_value ← daily_value (rec_value record);
  mret [VDate (rec_date record); VDec (rec_value record); VDec daily_value].

End SelicWriter.

Module CdiWriter.

Definition _get_headers : list string :=
  WorksheetWriter._get_headers ++ ["daily_value"]%string.

Definition _format_record (record : IndicatorRecord)
  : result (list value) :=
  daily_value ← daily_value (rec_value record);
  mret [VDate (rec_date record); VDec (rec_value record); VDec daily_value].

End CdiWriter.

Module IpcaWriter.

Definition _get_headers : list string := ["ano"; "mes"; "valor"]%string.

Definition _format_record (record : IndicatorRecord)
  : result (list value) :=
  mret [VInt (year (rec_date record)); VInt (month (rec_date record));
        VDec (rec_value record)].

(** [datetime.date(year, month, 1)] on two cell values: both must be
    integers. *)
Definition date_on_cell (year month : value) : result date :=
  match year, month with
  | VInt y, VInt m => first_of_month y m
  | _, _ => Raise TypeError
  end.

Definition _get_first_row (first_date : date) : sheet_op nat :=
  top ← read max_row;
  for_else (py_range_down top 1)
    (λ row,
       year ← cell_value row 1;
       month ← cell_value row 2;
       date_on_cell ← lift (date_on_cell year month);
       if date_eqb date_on_cell first_date then mret (Some row)
       else if date_ltb date_on_cell first_date then mret (Some (row + 1)%nat)
       else mret None)
    (mret 1%nat).

End IpcaWriter.

Module TrWriter.

Definition _get_headers : list string :=
  ["data inicial"; "data final"; "valor"]%string.

Definition _format_record (record : IndicatorRecord)
  : result (list value) :=
  mret [VDate (rec_date record); opt_date_value (rec_end_date record);
        VDec (rec_value record)].

End TrWriter.

Definition Selic : writer :=
  Writer SelicWriter._get_headers SelicWriter._format_record
         WorksheetWriter._get_first_row.

Definition Cdi : writer :=
  Writer CdiWriter._get_headers CdiWriter._format_record
         WorksheetWriter._get_first_row.

Definition Ipca : writer :=
  Writer IpcaWriter._get_headers IpcaWriter._format_record
         IpcaWriter._get_first_row.

Definition Tr : writer :=
  Writer TrWriter._get_headers TrWriter._format_record
         WorksheetWriter._get_first_row.

(** ** The metadata writer *)

Module MetadataWriter.

Definition _write_headers : sheet_op () :=
  write_cells 1 1 [VStr "indicator"; VStr "last date"].

(** One turn of the loop of [_get_indicator_last_date]. *)
Definition load_row (row : nat) (indicador_date : gmap Z (option date))
  : sheet_op (gmap Z (option date)) :=
  v ← cell_value row 1;
  match py_int v with
  | Raise TypeError => mret indicador_date
  | Raise e => throw e
  | Ok cod =>
      v ← cell_value row 2;
      match value_date v with
      | Ok date => mret (<[cod := Some date]> indicador_date)
      | Raise AttributeError => mret (<[cod := None]> indicador_date)
      | Raise e => throw e
      end
  end.

Fixpoint load_rows (rows : list nat) (indicador_date : gmap Z (option date))
  : sheet_op (gmap Z (option date)) :=
  match rows with
  | [] => mret indicador_date
  | row :: rest => load_row row indicador_date ≫= load_rows rest
  end.

Definition _get_indicator_last_date : sheet_op (gmap Z (option date)) :=
  top ← read max_row;
  load_rows (py_range_down top 1) ∅.

(** The constructor: the headers, then [self.indicators_dates]. *)
Definition __init__ : sheet_op (gmap Z (option date)) :=
  _write_headers ≫= λ _, _get_indicator_last_date.

(** [sorted(self.indicators_dates.items())]: the keys of a dictionary
    are distinct, so the pairs are ordered by key alone. *)
Definition item_le (a b : Z * option date) : Prop := a.1 ≤ b.1.

Global Instance item_le_dec a b : Decision (item_le a b).
Proof. unfold item_le. apply _. Defined.

Definition sorted_items (indicators_dates : gmap Z (option date))
  : list (Z * option date) :=
  merge_sort item_le (map_to_list indicators_dates).

Fixpoint write_items (row : nat) (items : list (Z * option date))
  : sheet_op () :=
  match items with
  | [] => mret ()
  | (indicator, date) :: rest =>
      set_cell_value row 1 (VInt indicator) ≫= λ _,
      set_cell_value row 2 (opt_date_value date) ≫= λ _,
      write_items (S row) rest
  end.

Definition write_indicators_last_date
    (indicators_dates : gmap Z (option date)) : sheet_op () :=
  write_items 2 (sorted_items indicators_dates).

End MetadataWriter.

(** ** Saving and loading the workbook file *)

(** Modelled from the spec: the sheet "persists to/loads from a file"; the
    engine that does it, openpyxl's save and load, is not part of the
    repository.  What a saved worksheet comes back as is taken as
    follows, with a parameter wherever the outcome is left open.

    - An empty cell is stored only if it carries a style, as a cell does
      that held a date before it was emptied: [keeps_empty] tells for
      which cells that is so.
    - A number is written with 16 significant digits through a binary
      float.  An integer of magnitude up to 2^53 comes back as itself; a
      larger one comes back as another number, an integer or a float,
      for which [reint] stands.  A [Decimal] comes back as the nearest
      float, for which [renum] stands.
    - A date is written as its day number counted from 1899-12-30, and a
      day number below 1 is read as a time of day: the dates 1899-12-30
      and 1899-12-31 come back as [datetime.time]s.  A date from
      1900-01-01 on comes back as a [datetime.datetime] at midnight.  For
      an earlier date [early_date] tells which date the [datetime] has,
      if it is one.
    - Strings, and the [datetime]s and times that were loaded from the
      file, come back as they were. *)
Record persistence := Persistence {
  renum : decimal → decimal;
  reint : Z → Z + decimal;
  early_date : date → option date;
  keeps_empty : nat * nat → bool;
}.

Definition reload_int (file : persistence) (n : Z) : value :=
  if Z.abs n <=? 2 ^ 53 then VInt n
  else match reint file n with
       | inl n' => VInt n'
       | inr x => VDec x
       end.

Definition reload_date (file : persistence) (d : date) : value :=
  if date_ltb d (Date 1899 12 30)
  then match early_date file d with
       | Some d' => VDatetime d' midnight
       | None => VTime midnight
       end
  else if date_ltb d (Date 1900 1 1) then VTime midnight
  else VDatetime d midnight.

Definition reload_value (file : persistence) (k : nat * nat) (v : value)
  : option value :=
  match v with
  | VNone => if keeps_empty file k then Some VNone else None
  | VInt n => Some (reload_int file n)
  | VDec x => Some (VDec (renum file x))
  | VStr s => Some (VStr s)
  | VDate d => Some (reload_date file d)
  | VDatetime d t => Some (VDatetime d t)
  | VTime t => Some (VTime t)
  end.

Definition reload (file : persistence) (ws : worksheet) : worksheet :=
  map_imap (reload_value file) ws.

(** ** The workbook *)

Inductive writer_class :=
  | MetadataWriterClass
  | WorksheetWriterClass (w : writer).

Record properties := Properties {
  name : string;
  color : string;
  writer_of : writer_class;
  state : string;
}.

(** A worksheet of the workbook: its cells, tab colour and visibility. *)
Record sheet := Sheet {
  cells : worksheet;
  tabColor : option string;
  sheet_state : string;
}.

Module IndicatorsWorkbook.

Definition _worksheet_properties : gmap Z properties :=
  list_to_map
    [(-1, Properties "metadata" "000000" MetadataWriterClass "veryHidden");
     (11, Properties "selic" "0000FF" (WorksheetWriterClass Selic) "visible");
     (12, Properties "cdi" "00FF00" (WorksheetWriterClass Cdi) "visible");
     (433, Properties "ipca" "FFA500" (WorksheetWriterClass Ipca) "visible");
     (226, Properties "tr" "FF0000" (WorksheetWriterClass Tr) "visible")].

(** The sheets of [self._workbook] by name, and the dictionary
    [self._metadata_writer.indicators_dates]. *)
Record t := Workbook {
  _workbook : gmap string sheet;
  indicators_dates : gmap Z (option date);
}.

Definition _create_sheet (indicators_code : Z) (self : t)
  : result (sheet * t) :=
  match _worksheet_properties !! indicators_code with
  | None => Raise KeyError
  | Some p =>
      match _workbook self !! name p with
      | Some ws => Ok (ws, self)
      | None =>
          let ws := Sheet ∅ (Some (color p)) (state p) in
          Ok (ws, Workbook (<[name p := ws]> (_workbook self))
                           (indicators_dates self))
      end
  end.

Definition get_indicator_last_date (indicator_code : Z) (self : t)
  : result (option date) :=
  match indicators_dates self !! indicator_code with
  | Some lastest_date => Ok lastest_date
  | None => Ok None
  end.

(** [writer(ws, records)]: a worksheet writer writes the records in its
    constructor; [MetadataWriter] takes no records. *)
Definition call_writer (empty_exn : exn) (w : writer_class)
    (records : list IndicatorRecord) : sheet_op () :=
  match w with
  | WorksheetWriterClass w => WorksheetWriter._write_records empty_exn w records
  | MetadataWriterClass => throw TypeError
  end.

Definition write_records (empty_exn : exn) (indicator_code : Z)
    (records : list IndicatorRecord) (last_non_extended_date : option date)
    (self : t) : result t :=
  match _worksheet_properties !! indicator_code with
  | None => Raise KeyError
  | Some p =>
      '(ws, self) ← _create_sheet indicator_code self;
      '(_, written) ← call_writer empty_exn (writer_of p) records (cells ws);
      Ok (Workbook
            (<[name p := Sheet written (tabColor ws) (sheet_state ws)]>
               (_workbook self))
            (<[indicator_code := last_non_extended_date]>
               (indicators_dates self)))
  end.

(** [len(self)]: the number of worksheets, and
    [self._workbook.sheetnames]. *)
Definition __len__ (self : t) : nat := size (_workbook self).

Definition sheetnames (self : t) : list string :=
  (map_to_list (_workbook self)).*1.

(** [del self._workbook[sheet]] for each name of a list; deleting a sheet
    that is not there is a [KeyError]. *)
Fixpoint delete_sheets (names : list string) (wb : gmap string sheet)
  : result (gmap string sheet) :=
  match names with
  | [] => Ok wb
  | sheet :: rest =>
      match wb !! sheet with
      | Some _ => delete_sheets rest (delete sheet wb)
      | None => Raise KeyError
      end
  end.

Definition _delete_all_sheets (self : t) : result t :=
  wb ← delete_sheets (sheetnames self) (_workbook self);
  Ok (Workbook wb (indicators_dates self)).

(** The dictionary from sheet names to codes that
    [_get_existing_indicators_sheets] makes of the registry. *)
Definition name_to_code : gmap string Z :=
  foldl (λ acc item, <[name item.2 := item.1]> acc) ∅
        (map_to_list _worksheet_properties).

(** The loop of [_get_existing_indicators_sheets].  A worksheet of the
    workbook is known by its name: the sheet [_create_sheet code] returns
    is the one the registry names for [code]. *)
Fixpoint existing_sheets (names : list string) (found : gset string)
    (self : t) : result (gset string * t) :=
  match names with
  | [] => Ok (found, self)
  | sheet_name :: rest =>
      match name_to_code !! sheet_name with
      | None => existing_sheets rest found self
      | Some code =>
          '(_, self) ← _create_sheet code self;
          existing_sheets rest
            (found ∪ from_option (λ p, {[name p]}) ∅
                       (_worksheet_properties !! code))
            self
      end
  end.

Definition _get_existing_indicators_sheets (self : t)
  : result (gset string * t) :=
  existing_sheets (sheetnames self) ∅ self.

(** [_protect_all_sheets] assigns the attributes of
    [_worksheet_protection] to the protection of each of these sheets.
    The attributes are not part of a [sheet] here; the result is the set
    of the sheets that receive them. *)
Definition _protect_all_sheets (self : t) : result (gset string * t) :=
  _get_existing_indicators_sheets self.

(** The constructor.  [loaded] is what [load_workbook] gives when the
    file exists; without a file the workbook is a new one, which openpyxl
    makes with one sheet, [Sheet], and whose sheets are all deleted.  The
    metadata writer is made on the sheet of code -1 and writes through to
    it. *)
Definition __init__ (loaded : option (gmap string sheet)) : result t :=
  self ← match loaded with
         | Some sheets => Ok (Workbook sheets ∅)
         | None =>
             _delete_all_sheets
               (Workbook {["Sheet"%string := Sheet ∅ None "visible"]} ∅)
         end;
  '(worksheet_metadata, self) ← _create_sheet (-1) self;
  '(dates, written) ← MetadataWriter.__init__ (cells worksheet_metadata);
  Ok (Workbook
        (<["metadata"%string :=
             Sheet written (tabColor worksheet_metadata)
                   (sheet_state worksheet_metadata)]> (_workbook self))
        dates).

End IndicatorsWorkbook.

(** ** Notions used in the statements *)

(** What one turn of a row locator answers for the date [d] found on
    [row]. *)
Definition verdict (first_date d : date) (row : nat) : option nat :=
  if date_eqb d first_date then Some row
  else if date_ltb d first_date then Some (row + 1)%nat
  else None.

(** The key the date-keyed locator reads on a row, and the one the IPCA
    locator reads. *)
Definition date_key (ws : worksheet) (row : nat) (d : date) : Prop :=
  ∃ t, ws !! (row, 1%nat) = Some (VDatetime d t).

Definition month_key (ws : worksheet) (row : nat) (d : date) : Prop :=
  ws !! (row, 1%nat) = Some (VInt (year d))
  ∧ ws !! (row, 2%nat) = Some (VInt (month d))
  ∧ 1 ≤ year d ≤ 9999 ∧ 1 ≤ month d ≤ 12 ∧ day d = 1.

(** The sheet after [write_cells] and after the loop of [write_rows], as
    plain functions of the sheet before. *)
Fixpoint put_cells (row column : nat) (xs : list value) (ws : worksheet)
  : worksheet :=
  match xs with
  | [] => ws
  | x :: xs' => put_cells row (S column) xs' (<[(row, column) := x]> ws)
  end.

Fixpoint put_rows (row : nat) (rows : list (list value)) (ws : worksheet)
  : worksheet :=
  match rows with
  | [] => ws
  | xs :: rest => put_rows (S row) rest (put_cells row 1 xs ws)
  end.

(** [xs] is the row the writer makes of [record]. *)
Definition formats (self : writer) (record : IndicatorRecord)
    (xs : list value) : Prop :=
  format_record self record = Ok xs.

(** The date a data row stands for: the date in column 1, written in this
    session or loaded, or, on an IPCA sheet, the first day of the year and
    month in columns 1 and 2. *)
Definition sheet_date (ws : worksheet) (row : nat) : option date :=
  match ws !! (row, 1%nat) with
  | Some (VDate d) | Some (VDatetime d _) => Some d
  | Some (VInt y) =>
      match ws !! (row, 2%nat) with
      | Some (VInt m) => Some (Date y m 1)
      | _ => None
      end
  | _ => None
  end.

(** A date the file gives back as a [datetime] at that date, and an
    integer it gives back as itself. *)
Definition from_1900 (d : date) : Prop := date_ltb d (Date 1900 1 1) = false.

Definition exact_int (n : Z) : Prop := Z.abs n ≤ 2 ^ 53.

(** A dictionary the file gives back as it is: every identifier is an
    integer the file keeps and every date one it gives back as a
    [datetime] at that date. *)
Definition storable (indicators_dates : gmap Z (option date)) : Prop :=
  ∀ k v, indicators_dates !! k = Some v →
         exact_int k ∧ from_option from_1900 True v.

(** A file that gives numbers back as they were and keeps no empty
    cell. *)
Definition plain_file : persistence :=
  Persistence (λ x, x) (λ n, inl n) (λ d, Some d) (λ _, false).

(** Sample sheets, as a loaded workbook holds them: five Selic rows for
    2 to 6 January 2024, and IPCA rows for May, June and July 2023. *)
Definition selic_sheet : worksheet :=
  list_to_map
    [((1, 1), VStr "date"); ((1, 2), VStr "value"); ((1, 3), VStr "daily_value");
     ((2, 1), VDatetime (Date 2024 1 2) midnight); ((2, 2), VDec (Dec 5 (-2)));
     ((3, 1), VDatetime (Date 2024 1 3) midnight); ((3, 2), VDec (Dec 6 (-2)));
     ((4, 1), VDatetime (Date 2024 1 4) midnight); ((4, 2), VDec (Dec 6 (-2)));
     ((5, 1), VDatetime (Date 2024 1 5) midnight); ((5, 2), VDec (Dec 6 (-2)));
     ((6, 1), VDatetime (Date 2024 1 6) midnight); ((6, 2), VDec (Dec 6 (-2)))]%nat.

(** The same five Selic rows as the writer itself leaves them in the
    sheet it wrote: the dates are the [datetime.date]s of the records. *)
Definition selic_written_sheet : worksheet :=
  list_to_map
    [((1, 1), VStr "date"); ((1, 2), VStr "value"); ((1, 3), VStr "daily_value");
     ((2, 1), VDate (Date 2024 1 2)); ((2, 2), VDec (Dec 5 (-2)));
     ((3, 1), VDate (Date 2024 1 3)); ((3, 2), VDec (Dec 6 (-2)));
     ((4, 1), VDate (Date 2024 1 4)); ((4, 2), VDec (Dec 6 (-2)));
     ((5, 1), VDate (Date 2024 1 5)); ((5, 2), VDec (Dec 6 (-2)));
     ((6, 1), VDate (Date 2024 1 6)); ((6, 2), VDec (Dec 6 (-2)))]%nat.

(** Records for 4 to 7 January 2024 and the rows the Selic writer makes
    of them. *)
Definition selic_update : list IndicatorRecord :=
  [Build_IndicatorRecord (Date 2024 1 4) (Dec 65 (-3)) None;
   Build_IndicatorRecord (Date 2024 1 5) (Dec 65 (-3)) None;
   Build_IndicatorRecord (Date 2024 1 6) (Dec 7 (-2)) None;
   Build_IndicatorRecord (Date 2024 1 7) (Dec 7 (-2)) None].

Definition selic_update_rows : list (list value) :=
  [[VDate (Date 2024 1 4); VDec (Dec 65 (-3)); VDec (Dec 100065000 (-8))];
   [VDate (Date 2024 1 5); VDec (Dec 65 (-3)); VDec (Dec 100065000 (-8))];
   [VDate (Date 2024 1 6); VDec (Dec 7 (-2)); VDec (Dec 100070000 (-8))];
   [VDate (Date 2024 1 7); VDec (Dec 7 (-2)); VDec (Dec 100070000 (-8))]].


Definition ipca_sheet : worksheet :=
  list_to_map
    [((1, 1), VStr "ano"); ((1, 2), VStr "mes"); ((1, 3), VStr "valor");
     ((2, 1), VInt 2023); ((2, 2), VInt 5); ((2, 3), VDec (Dec 23 (-2)));
     ((3, 1), VInt 2023); ((3, 2), VInt 6); ((3, 3), VDec (Dec (-8) (-2)));
     ((4, 1), VInt 2023); ((4, 2), VInt 7); ((4, 3), VDec (Dec 12 (-2)))]%nat.

Definition ipca_months (row : nat) : date := Date 2023 (Z.of_nat row + 3) 1.





(** The two cells the flush writes for an entry of the dictionary. *)
Definition item_row (item : Z * option date) : list value :=
  [VInt item.1; opt_date_value item.2].

(** What reading a cell gives, whether the cell exists or not. *)
Definition cellv (ws : worksheet) (row column : nat) : value :=
  default VNone (ws !! (row, column)).

(** What a row of the metadata sheet contributes when it is loaded:
    nothing, or an identifier with its date. *)
Definition row_entry (ws : worksheet) (row : nat)
  : result (option (Z * option date)) :=
  match py_int (cellv ws row 1) with
  | Raise TypeError => Ok None
  | Raise e => Raise e
  | Ok cod =>
      Ok (Some (cod, match value_date (cellv ws row 2) with
                     | Ok d => Some d
                     | Raise _ => None
                     end))
  end.

Definition add_entry (e : option (Z * option date))
    (indicador_date : gmap Z (option date)) : gmap Z (option date) :=
  match e with
  | Some (cod, date) => <[cod := date]> indicador_date
  | None => indicador_date
  end.

Definition the_entry (ws : worksheet) (row : nat) : option (Z * option date) :=
  match row_entry ws row with
  | Ok e => e
  | Raise _ => None
  end.

(** [round(v / 100, 8)] in units of 10^-8, in exact arithmetic: the
    quotient is [coeff v * 10^(expo v - 2)], rounded half to even at the
    eighth fractional digit. *)
Definition exact_round8_hundredth (v : decimal) : Z :=
  let k := - (expo v + 6) in
  if k <=? 0 then coeff v * 10 ^ (- k)
  else Z.sgn (coeff v) * div_half_even (Z.abs (coeff v)) k.

(** [1 + round(v / 100, 8)] in exact decimal arithmetic. *)
Definition exact_daily_value (v : decimal) : decimal :=
  Dec (10 ^ 8 + exact_round8_hundredth v) (-8).

(** The sheet after [_erase_extra_records row]. *)
Definition erased (row : nat) (ws : worksheet) : worksheet :=
  put_rows row
    (replicate (max_row ws + 1 - row) (replicate (max_column ws) VNone)) ws.

(** What makes a row locator answer [r]: every row below the answered one
    and up to the last holds a date later than [first_date], and either
    no other data row is left ([r] is 1), or row [r] holds [first_date]
    itself, or row [r - 1] holds an earlier date. *)
Definition later_above (keyed : worksheet → nat → date → Prop)
    (first_date : date) (ws : worksheet) (r : nat) : Prop :=
  ∀ r', (r < r' ≤ max_row ws)%nat → ∃ d, keyed ws r' d ∧ date_lt first_date d.

Definition located (keyed : worksheet → nat → date → Prop)
    (first_date : date) (ws : worksheet) (r : nat) : Prop :=
  (r = 1%nat ∧ later_above keyed first_date ws 1)
  ∨ ((2 ≤ r ≤ max_row ws)%nat ∧ keyed ws r first_date
     ∧ later_above keyed first_date ws r)
  ∨ ((3 ≤ r ≤ max_row ws + 1)%nat
     ∧ (∃ d, keyed ws (r - 1)%nat d ∧ date_lt d first_date)
     ∧ later_above keyed first_date ws (r - 1)%nat).

(** What makes a row locator raise [e]: the scan meets a row whose key
    cannot be read, with only later dates below it. *)
Definition faulted (keyed : worksheet → nat → date → Prop)
    (fault : worksheet → nat → exn → Prop)
    (first_date : date) (ws : worksheet) (e : exn) : Prop :=
  ∃ r, (2 ≤ r ≤ max_row ws)%nat ∧ fault ws r e
       ∧ later_above keyed first_date ws r.

(** A row the date-keyed locator cannot read: its first cell is no
    [datetime]; and one the IPCA locator cannot read: one of the first two
    cells is no integer, or one of the two integers does not fit a C
    [int], or the two are no year and month. *)
Definition date_fault (ws : worksheet) (row : nat) (e : exn) : Prop :=
  e = AttributeError ∧ ∀ d t, ws !! (row, 1%nat) ≠ Some (VDatetime d t).

Definition month_fault (ws : worksheet) (row : nat) (e : exn) : Prop :=
  match cellv ws row 1, cellv ws row 2 with
  | VInt y, VInt m =>
      if fits_c_int y && fits_c_int m
      then e = ValueError ∧ ¬ (1 ≤ y ≤ 9999 ∧ 1 ≤ m ≤ 12)
      else e = OverflowError
  | _, _ => e = TypeError
  end.

(** The sheet [_write_records] leaves when the locator answered
    [first_row] and the records were formatted as [rows]: the headers if
    the answer was 1, the rows from the answered row (from row 2 after the
    headers), and the rows after the last written one erased. *)
Definition written (self : writer) (first_row : nat)
    (rows : list (list value)) (ws : worksheet) : worksheet :=
  let base :=
    if (first_row =? 1)%nat
    then put_cells 1 1 (VStr <$> get_headers self) ws else ws in
  let start := if (first_row =? 1)%nat then 2%nat else first_row in
  erased (start + length rows) (put_rows start rows base).

(** The date the topmost of the rows from 2 to [top] gives for the
    identifier [k], if one of them holds [k]. *)
Fixpoint topmost_entry (ws : worksheet) (k : Z) (top : nat)
  : option (option date) :=
  match top with
  | O => None
  | S n =>
      match topmost_entry ws k n with
      | Some v => Some v
      | None =>
          match the_entry ws (S n) with
          | Some (k', v) =>
              if decide (k' = k ∧ (2 ≤ S n)%nat) then Some v else None
          | None => None
          end
      end
  end.

(** The dictionary [_get_indicator_last_date] builds from a sheet. *)
Definition loaded (ws : worksheet) : gmap Z (option date) :=
  foldl (λ acc r, add_entry (the_entry ws r) acc) ∅
        (py_range_down (max_row ws) 1).

(** A cell value the file gives back with the same integer reading: no
    fractional number and no integer beyond 2^53. *)
Definition kept_identifier (v : value) : Prop :=
  match v with
  | VDec _ => False
  | VInt n => exact_int n
  | _ => True
  end.

(** A metadata sheet in step with the dictionary [m]: on the rows from 2
    on every identifier cell can be read and is kept by the file, and
    every identifier a row gives is a key of [m]. *)
Definition in_step (ws : worksheet) (m : gmap Z (option date)) : Prop :=
  (∀ r, (2 ≤ r)%nat → py_int (cellv ws r 1) ≠ Raise ValueError)
  ∧ (∀ r, (2 ≤ r)%nat → kept_identifier (cellv ws r 1))
  ∧ (∀ r k v, (2 ≤ r)%nat → the_entry ws r = Some (k, v) → is_Some (m !! k)).

(** * Properties *)

(** ** Dates *)

Lemma date_eqb_eq a b : date_eqb a b = true ↔ a = b.
Proof.
  destruct a, b; unfold date_eqb; simpl.
  rewrite !andb_true_iff, !Z.eqb_eq. split.
  - intros [[-> ->] ->]; reflexivity.
  - intros [= -> -> ->]; auto.
Qed.

Lemma date_eqb_refl a : date_eqb a a = true.
Proof. by apply date_eqb_eq. Qed.

Lemma date_ltb_irrefl a : date_ltb a a = false.
Proof. destruct a; unfold date_ltb; simpl. lia. Qed.

Lemma date_lt_asym a b : date_lt a b → date_ltb b a = false.
Proof. destruct a, b; unfold date_lt, date_ltb; simpl. lia. Qed.

Lemma date_lt_neq a b : date_lt a b → date_eqb b a = false.
Proof. destruct a, b; unfold date_lt, date_ltb, date_eqb; simpl. lia. Qed.


Lemma verdict_eq first_date row : verdict first_date first_date row = Some row.
Proof. unfold verdict. by rewrite date_eqb_refl. Qed.

Lemma verdict_earlier first_date d row :
  date_lt d first_date → verdict first_date d row = Some (row + 1)%nat.
Proof.
  intros H. unfold verdict.
  assert (date_eqb d first_date = false) as ->.
  { destruct (date_eqb d first_date) eqn:E; [|done].
    apply date_eqb_eq in E as ->. unfold date_lt in H.
    by rewrite date_ltb_irrefl in H. }
  by rewrite H.
Qed.

Lemma verdict_later first_date d row :
  date_lt first_date d → verdict first_date d row = None.
Proof.
  intros H. unfold verdict.
  by rewrite (date_lt_neq _ _ H), (date_lt_asym _ _ H).
Qed.

(** ** Loops *)

Lemma py_range_down_nil a b : (a ≤ b)%nat → py_range_down a b = [].
Proof. intros H. unfold py_range_down. by replace (a - b)%nat with 0%nat by lia. Qed.

Lemma py_range_down_split top r b :
  (b < r ≤ top)%nat →
  py_range_down top b = py_range_down top r ++ r :: py_range_down (r - 1) b.
Proof.
  intros H. unfold py_range_down.
  assert (seq (S b) (top - b)
          = seq (S b) (r - 1 - b) ++ r :: seq (S r) (top - r)) as ->.
  { replace (top - b)%nat with ((r - 1 - b) + S (top - r))%nat by lia.
    rewrite seq_app. f_equal.
    replace (S b + (r - 1 - b))%nat with r by lia. done. }
  rewrite reverse_app, reverse_cons, <- app_assoc. done.
Qed.

Lemma elem_of_py_range_down top b r :
  r ∈ py_range_down top b ↔ (b < r ≤ top)%nat.
Proof.
  unfold py_range_down. rewrite elem_of_reverse, elem_of_seq. lia.
Qed.

Lemma for_else_skip {A R} (l1 l2 : list A) (body : A → sheet_op (option R))
    orelse ws :
  (∀ x, x ∈ l1 → body x ws = Ok (None, ws)) →
  for_else (l1 ++ l2) body orelse ws = for_else l2 body orelse ws.
Proof.
  induction l1 as [|x l1 IH]; intros H; [done|].
  simpl. unfold mbind, sheet_bind. rewrite H by left.
  apply IH. intros y Hy. apply H. by right.
Qed.

Lemma for_else_return {A R} x (l : list A) (body : A → sheet_op (option R))
    orelse ws r ws' :
  body x ws = Ok (Some r, ws') →
  for_else (x :: l) body orelse ws = Ok (r, ws').
Proof. intros H. simpl. unfold mbind, sheet_bind. by rewrite H. Qed.

(** A row locator whose body reads a key on the row and answers with
    [verdict]: where it stops. *)
Section locator.
Context (keyed : worksheet → nat → date → Prop).
Context (body : date → nat → sheet_op (option nat)).
Context (body_keyed : ∀ first_date ws row d,
  (1 ≤ row)%nat → keyed ws row d →
  body first_date row ws = Ok (verdict first_date d row, ws)).

Let locate (first_date : date) : sheet_op nat :=
  top ← read max_row;
  for_else (py_range_down top 1) (body first_date) (mret 1%nat).

Lemma locate_above first_date ws r rest :
  (∀ r', (r < r' ≤ max_row ws)%nat →
         ∃ d, keyed ws r' d ∧ date_lt first_date d) →
  for_else (py_range_down (max_row ws) r ++ rest) (body first_date)
           (mret 1%nat) ws
  = for_else rest (body first_date) (mret 1%nat) ws.
Proof.
  intros H. apply for_else_skip. intros r' Hr'%elem_of_py_range_down.
  destruct (H r' Hr') as (d & Hk & Hd).
  rewrite (body_keyed _ _ _ d) by (done || lia). by rewrite verdict_later.
Qed.

Lemma locate_equal first_date ws r :
  (2 ≤ r ≤ max_row ws)%nat →
  keyed ws r first_date →
  (∀ r', (r < r' ≤ max_row ws)%nat →
         ∃ d, keyed ws r' d ∧ date_lt first_date d) →
  locate first_date ws = Ok (r, ws).
Proof.
  intros Hr Hk Habove. unfold locate, read, mbind, sheet_bind.
  rewrite (py_range_down_split _ r) by lia.
  rewrite locate_above by done.
  apply for_else_return.
  rewrite (body_keyed _ _ _ first_date) by (done || lia).
  by rewrite verdict_eq.
Qed.

Lemma locate_earlier first_date ws r d :
  (2 ≤ r ≤ max_row ws)%nat →
  keyed ws r d → date_lt d first_date →
  (∀ r', (r < r' ≤ max_row ws)%nat →
         ∃ d, keyed ws r' d ∧ date_lt first_date d) →
  locate first_date ws = Ok ((r + 1)%nat, ws).
Proof.
  intros Hr Hk Hd Habove. unfold locate, read, mbind, sheet_bind.
  rewrite (py_range_down_split _ r) by lia.
  rewrite locate_above by done.
  apply for_else_return.
  rewrite (body_keyed _ _ _ d) by (done || lia).
  by rewrite verdict_earlier.
Qed.

Lemma locate_none first_date ws :
  (∀ r', (1 < r' ≤ max_row ws)%nat →
         ∃ d, keyed ws r' d ∧ date_lt first_date d) →
  locate first_date ws = Ok (1%nat, ws).
Proof.
  intros Habove. unfold locate, read, mbind, sheet_bind.
  rewrite <- (app_nil_r (py_range_down _ _)).
  by rewrite locate_above.
Qed.
End locator.

(** ** The two row locators *)

Lemma date_body first_date ws row d :
  (1 ≤ row)%nat → date_key ws row d →
  (v ← cell_value row 1;
   date_on_cell ← lift (value_date v);
   if date_eqb date_on_cell first_date then mret (Some row)
   else if date_ltb date_on_cell first_date then mret (Some (row + 1)%nat)
   else mret None) ws
  = Ok (verdict first_date d row, ws).
Proof.
  intros Hrow [t Ht]. unfold mbind, sheet_bind, cell_value.
  destruct row; [lia|]. simpl. rewrite Ht. simpl. unfold verdict.
  by repeat case_match.
Qed.

Lemma month_body first_date ws row d :
  (1 ≤ row)%nat → month_key ws row d →
  (year ← cell_value row 1;
   month ← cell_value row 2;
   date_on_cell ← lift (IpcaWriter.date_on_cell year month);
   if date_eqb date_on_cell first_date then mret (Some row)
   else if date_ltb date_on_cell first_date then mret (Some (row + 1)%nat)
   else mret None) ws
  = Ok (verdict first_date d row, ws).
Proof.
  intros Hrow (Hy & Hm & Hyr & Hmr & Hd). unfold mbind, sheet_bind, cell_value.
  destruct row; [lia|]. simpl. rewrite Hy, Hm. simpl.
  unfold first_of_month, fits_c_int.
  replace ((- 2 ^ 31 <=? year d) && (year d <? 2 ^ 31)
           && ((- 2 ^ 31 <=? month d) && (month d <? 2 ^ 31)))
    with true by lia.
  cbn [negb].
  replace ((1 <=? year d) && (year d <=? 9999) && (1 <=? month d)
           && (month d <=? 12)) with true by lia.
  simpl. replace (Date (year d) (month d) 1) with d
    by (destruct d; simpl in *; congruence).
  unfold verdict. by repeat case_match.
Qed.




Lemma ipca_first_row_equal first_date ws r :
  (2 ≤ r ≤ max_row ws)%nat →
  month_key ws r first_date →
  (∀ r', (r < r' ≤ max_row ws)%nat →
         ∃ d, month_key ws r' d ∧ date_lt first_date d) →
  IpcaWriter._get_first_row first_date ws = Ok (r, ws).
Proof. apply (locate_equal month_key _ month_body). Qed.

Lemma ipca_first_row_earlier first_date ws r d :
  (2 ≤ r ≤ max_row ws)%nat →
  month_key ws r d → date_lt d first_date →
  (∀ r', (r < r' ≤ max_row ws)%nat →
         ∃ d, month_key ws r' d ∧ date_lt first_date d) →
  IpcaWriter._get_first_row first_date ws = Ok ((r + 1)%nat, ws).
Proof. apply (locate_earlier month_key _ month_body). Qed.


(** C2, the claim as stated fails.  A sheet whose rows 2..6 hold the
    dates 2 to 6 January 2024 in column 1, ascending, as the
    [datetime.date]s the writer itself stores: the locator calls
    [.date()] on the cell of the last row and raises [AttributeError],
    for a target date that a row holds, for one later than all rows and
    for one earlier than all rows. *)
Lemma get_first_row_on_written_dates :
  sheet_date selic_written_sheet <$> [2; 3; 4; 5; 6]%nat
  = Some <$> [Date 2024 1 2; Date 2024 1 3; Date 2024 1 4; Date 2024 1 5;
              Date 2024 1 6]
  ∧ max_row selic_written_sheet = 6%nat
  ∧ WorksheetWriter._get_first_row (Date 2024 1 4) selic_written_sheet
    = Raise AttributeError
  ∧ WorksheetWriter._get_first_row (Date 2024 1 7) selic_written_sheet
    = Raise AttributeError
  ∧ WorksheetWriter._get_first_row (Date 2024 1 1) selic_written_sheet
    = Raise AttributeError.
Proof. split_and!; vm_compute; reflexivity. Qed.



(** C4, the claim as stated fails: with the IPCA rows of May, June and
    July 2023 on rows 2, 3 and 4, a first record dated 15 June 2023 is
    located on row 4, after the June row and not on it. *)
Lemma ipca_first_row_mid_month :
  month_key ipca_sheet 3 (Date 2023 6 1)
  ∧ IpcaWriter._get_first_row (Date 2023 6 15) ipca_sheet
    = Ok (4%nat, ipca_sheet)
  ∧ IpcaWriter._get_first_row (Date 2023 6 15) ipca_sheet
    ≠ Ok (3%nat, ipca_sheet).
Proof.
  split_and!.
  - unfold month_key. simpl. split_and!; (reflexivity || lia).
  - vm_compute. reflexivity.
  - vm_compute. discriminate.
Qed.

(** C4, amended.  On an IPCA sheet whose rows 2..max_row carry strictly
    ascending (year, month) pairs, with (2023, 6) on row [r], a first
    record dated in June 2023 is located on row [r] when its day is the
    first of the month, and on row [r + 1] for any later day. *)
Theorem ipca_first_row_june (ws : worksheet) (months : nat → date)
    (first_date : date) (r : nat) :
  (∀ r', (2 ≤ r' ≤ max_row ws)%nat → month_key ws r' (months r')) →
  (∀ r1 r2, (2 ≤ r1)%nat → (r1 < r2)%nat → (r2 ≤ max_row ws)%nat →
            date_lt (months r1) (months r2)) →
  (2 ≤ r ≤ max_row ws)%nat →
  months r = Date 2023 6 1 →
  year first_date = 2023 → month first_date = 6 → 1 ≤ day first_date →
  IpcaWriter._get_first_row first_date ws
  = Ok (if day first_date =? 1 then r else (r + 1)%nat, ws).
Proof.
  intros Hkey Hsorted Hr Hjune Hy Hm Hd.
  assert (∀ r', (r < r' ≤ max_row ws)%nat →
                ∃ d, month_key ws r' d ∧ date_lt first_date d) as Habove.
  { intros r' Hr'. exists (months r'). split; [apply Hkey; lia|].
    assert (date_lt (months r) (months r')) as Hlt by (apply Hsorted; lia).
    destruct (Hkey r') as (_ & _ & _ & _ & Hday); [lia|].
    rewrite Hjune in Hlt. revert Hlt Hday.
    destruct first_date, (months r'). unfold date_lt, date_ltb.
    cbn [year month day] in *. lia. }
  destruct (day first_date =? 1) eqn:Hday.
  - apply ipca_first_row_equal; [done| |done].
    replace first_date with (months r); [apply Hkey; lia|].
    rewrite Hjune. destruct first_date; cbn [year month day] in *.
    f_equal; lia.
  - apply (ipca_first_row_earlier _ _ _ (months r)); [done|apply Hkey; lia| |done].
    rewrite Hjune. destruct first_date. unfold date_lt, date_ltb.
    cbn [year month day] in *. lia.
Qed.

Lemma ipca_first_row_june_witness :
  IpcaWriter._get_first_row (Date 2023 6 1) ipca_sheet
  = Ok (3%nat, ipca_sheet).
Proof.
  assert (max_row ipca_sheet = 4%nat) as Htop by (vm_compute; reflexivity).
  refine (ipca_first_row_june ipca_sheet ipca_months (Date 2023 6 1) 3
            _ _ _ _ _ _ _).
  - rewrite Htop. intros r Hr.
    assert (r = 2 ∨ r = 3 ∨ r = 4)%nat as [-> | [-> | ->] ] by lia;
      unfold month_key; simpl; split_and!; (reflexivity || lia).
  - intros r1 r2 ? ? ?. unfold date_lt, date_ltb, ipca_months. simpl. lia.
  - rewrite Htop. lia.
  - reflexivity.
  - reflexivity.
  - reflexivity.
  - simpl. lia.
Defined.

(** ** Dimensions of a worksheet *)

Lemma max_row_ge (ws : worksheet) r c :
  is_Some (ws !! (r, c)) → (r ≤ max_row ws)%nat.
Proof.
  intros [v Hv]. unfold max_row. case_decide as He.
  - by rewrite He, lookup_empty in Hv.
  - apply max_list_elem_of_le.
    apply (list_elem_of_fmap_2 fst (map_to_list ws).*1 (r, c)).
    apply (list_elem_of_fmap_2 fst (map_to_list ws) ((r, c), v)).
    by apply elem_of_map_to_list.
Qed.

Lemma max_row_le (ws : worksheet) m :
  (1 ≤ m)%nat →
  (∀ r c, is_Some (ws !! (r, c)) → (r ≤ m)%nat) → (max_row ws ≤ m)%nat.
Proof.
  intros Hm H. unfold max_row. case_decide as He; [done|].
  assert ((map_to_list ws).*1.*1 ≠ []) as Hne.
  { intros Hnil. apply He, map_to_list_empty_iff.
    by repeat apply fmap_nil_inv in Hnil. }
  apply max_list_elem_of in Hne.
  apply list_elem_of_fmap in Hne as ([r c] & -> & Hin).
  apply list_elem_of_fmap in Hin as ([k v] & Hk & Hin). simpl in Hk. subst k.
  apply elem_of_map_to_list in Hin. apply (H r c). by eexists.
Qed.

Lemma max_row_eq (ws : worksheet) m c :
  is_Some (ws !! (m, c)) →
  (∀ r c, is_Some (ws !! (r, c)) → (r ≤ m)%nat) → max_row ws = m.
Proof.
  intros Hm H. apply Nat.le_antisymm.
  - destruct (decide (ws = ∅)) as [->|He].
    + rewrite lookup_empty in Hm. by destruct Hm.
    + unfold max_row. rewrite decide_False by done.
      assert ((map_to_list ws).*1.*1 ≠ []) as Hne.
      { intros Hnil. apply He, map_to_list_empty_iff.
        by repeat apply fmap_nil_inv in Hnil. }
      apply max_list_elem_of in Hne.
      apply list_elem_of_fmap in Hne as ([r c'] & -> & Hin).
      apply list_elem_of_fmap in Hin as ([k v] & Hk & Hin). simpl in Hk.
      subst k. apply elem_of_map_to_list in Hin. apply (H r c'). by eexists.
  - by apply (max_row_ge _ _ c).
Qed.

Lemma max_row_empty : max_row ∅ = 1%nat.
Proof. reflexivity. Qed.

(** ** Writing cells and rows *)

Lemma write_cells_ok row column xs ws :
  (1 ≤ row)%nat → (1 ≤ column)%nat →
  write_cells row column xs ws = Ok ((), put_cells row column xs ws).
Proof.
  intros Hrow. revert column ws.
  induction xs as [|x xs IH]; intros column ws Hcol; [done|].
  simpl. unfold mbind, sheet_bind, set_cell_value.
  destruct row; [lia|]. destruct column; [lia|]. simpl.
  apply IH. lia.
Qed.

Lemma lookup_put_cells (row column : nat) (xs : list value) (ws : worksheet)
    (r c : nat) :
  put_cells row column xs ws !! (r, c)
  = if decide (r = row ∧ column ≤ c < column + length xs)%nat
    then xs !! (c - column)%nat
    else ws !! (r, c).
Proof.
  revert column ws. induction xs as [|x xs IH]; intros column ws; simpl.
  - case_decide; [lia|done].
  - rewrite IH.
    destruct (decide (r = row ∧ S column ≤ c < S column + length xs)%nat)
      as [[Hr1 H1]|H1];
    destruct (decide (r = row ∧ column ≤ c < column + S (length xs))%nat)
      as [[Hr2 H2]|H2]; try lia.
    + by replace (c - column)%nat with (S (c - S column)) by lia.
    + subst r. assert (c = column) as -> by lia.
      by rewrite lookup_insert_eq, Nat.sub_diag.
    + rewrite lookup_insert_ne; [done|]. intros [= -> ->]. lia.
Qed.

Lemma lookup_put_rows (row : nat) (rows : list (list value)) (ws : worksheet)
    (r c : nat) :
  put_rows row rows ws !! (r, c)
  = match rows !! (r - row)%nat with
    | Some xs =>
        if decide (row ≤ r ∧ 1 ≤ c < 1 + length xs)%nat
        then xs !! (c - 1)%nat
        else ws !! (r, c)
    | None => ws !! (r, c)
    end.
Proof.
  revert row ws. induction rows as [|xs rows IH]; intros row ws; simpl.
  - done.
  - rewrite IH. destruct (decide (r < row)%nat) as [Hlt|Hge].
    + replace (r - S row)%nat with 0%nat by lia.
      replace (r - row)%nat with 0%nat by lia. simpl.
      rewrite lookup_put_cells.
      destruct rows as [|ys rows]; simpl; repeat case_decide; try lia; done.
    + destruct (decide (r = row)) as [->|Hne].
      * rewrite Nat.sub_diag. simpl.
        replace (row - S row)%nat with 0%nat by lia.
        rewrite lookup_put_cells.
        destruct rows as [|ys rows]; simpl; repeat case_decide; try lia; done.
      * replace (r - row)%nat with (S (r - S row)) by lia. simpl.
        destruct (rows !! (r - S row)%nat) as [ys|]; rewrite ?lookup_put_cells;
          repeat case_decide; try lia; done.
Qed.

Lemma write_rows_ok self row bound records rows ws :
  (1 ≤ row)%nat →
  Forall2 (formats self) records rows →
  WorksheetWriter.write_rows self row bound records ws
  = Ok (match length records with
        | O => bound
        | S n => Some (row + n)%nat
        end, put_rows row rows ws).
Proof.
  intros Hrow H. revert row bound ws Hrow.
  induction H as [|record xs records rows Hx _ IH]; intros row bound ws Hrow.
  - done.
  - simpl. unfold mbind at 1. unfold sheet_bind, lift. rewrite Hx.
    unfold mbind at 1. unfold sheet_bind.
    rewrite write_cells_ok by lia. rewrite IH by lia.
    destruct (length records) as [|n] eqn:E.
    + by rewrite Nat.add_0_r.
    + by rewrite Nat.add_succ_r.
Qed.

Lemma erase_nothing row ws :
  (max_row ws < row)%nat →
  WorksheetWriter._erase_extra_records row ws = Ok ((), ws).
Proof.
  intros H. unfold WorksheetWriter._erase_extra_records, mbind, sheet_bind, read.
  unfold py_range. by replace (max_row ws + 1 - row)%nat with 0%nat by lia.
Qed.

Lemma max_row_put_rows_le (row : nat) (rows : list (list value)) (ws : worksheet) (m : nat) :
  (1 ≤ m)%nat → (max_row ws ≤ m)%nat → (row + length rows ≤ S m)%nat →
  (max_row (put_rows row rows ws) ≤ m)%nat.
Proof.
  intros Hm Hws Hrows. apply max_row_le; [done|].
  intros r c. rewrite lookup_put_rows.
  destruct (rows !! (r - row)%nat) as [xs|] eqn:E.
  - apply lookup_lt_Some in E. case_decide.
    + lia.
    + intros H'%max_row_ge. lia.
  - intros H'%max_row_ge. lia.
Qed.


(** The writer when the locator answers a row after the headers and the
    records reach the end of the sheet: they are written from that row on
    and nothing is erased. *)
Lemma write_records_from empty_exn self record records rows ws first_row :
  get_first_row self (rec_date record) ws = Ok (first_row, ws) →
  (2 ≤ first_row)%nat →
  Forall2 (formats self) (record :: records) rows →
  (max_row ws ≤ first_row + length records)%nat →
  WorksheetWriter._write_records empty_exn self (record :: records) ws
  = Ok ((), put_rows first_row rows ws).
Proof.
  intros Hloc Hrow Hrows Htop. unfold WorksheetWriter._write_records.
  unfold mbind at 1. unfold sheet_bind. rewrite Hloc.
  unfold mbind at 1. unfold sheet_bind.
  rewrite (proj2 (Nat.eqb_neq first_row 1)) by lia.
  unfold mret at 1. unfold sheet_ret.
  unfold mbind at 1. unfold sheet_bind.
  rewrite (write_rows_ok _ _ _ _ rows) by (done || lia).
  change (length (record :: records)) with (S (length records)). cbv iota.
  apply erase_nothing.
  assert (length rows = S (length records)) as Hlen.
  { apply Forall2_length in Hrows. simpl in Hrows. lia. }
  pose proof (max_row_put_rows_le first_row rows ws (first_row + length records)).
  lia.
Qed.


(** ** The writer variants *)

Lemma date_keyed_first_row self :
  self ∈ [Selic; Cdi; Tr] →
  get_first_row self = WorksheetWriter._get_first_row.
Proof. intros H. set_unfold. by destruct H as [->|[->|[->|[]]]]. Qed.

Lemma date_keyed_formats self record xs :
  self ∈ [Selic; Cdi; Tr] →
  formats self record xs →
  ∃ a b, xs = [VDate (rec_date record); a; b].
Proof.
  unfold formats. intros H. set_unfold.
  destruct H as [->|[->|[->|[]]]]; simpl.
  - unfold SelicWriter._format_record, mbind, result_bind.
    destruct (daily_value _); [|done]. intros [= <-]. eauto.
  - unfold CdiWriter._format_record, mbind, result_bind.
    destruct (daily_value _); [|done]. intros [= <-]. eauto.
  - intros [= <-]. eauto.
Qed.

Lemma ipca_formats record xs :
  formats Ipca record xs →
  xs = [VInt (year (rec_date record)); VInt (month (rec_date record));
        VDec (rec_value record)].
Proof. by intros [= <-]. Qed.







(** C1, the claim as stated fails.  A Selic sheet whose rows 2..6 hold
    the dates 2 to 6 January 2024 as the [datetime.date]s the writer
    itself stores, and records dated 4 to 7 January 2024: the writer
    raises [AttributeError] and the records are not written. *)
Lemma overwrite_on_written_dates :
  sheet_date selic_written_sheet <$> [2; 3; 4; 5; 6]%nat
  = Some <$> [Date 2024 1 2; Date 2024 1 3; Date 2024 1 4; Date 2024 1 5;
              Date 2024 1 6]
  ∧ max_row selic_written_sheet = 6%nat
  ∧ rec_date <$> selic_update
    = [Date 2024 1 4; Date 2024 1 5; Date 2024 1 6; Date 2024 1 7]
  ∧ WorksheetWriter._write_records IndexError Selic selic_update
      selic_written_sheet
    = Raise AttributeError.
Proof. split_and!; vm_compute; reflexivity. Qed.



Lemma lookup_reload (file : persistence) (ws : worksheet) (k : nat * nat) :
  reload file ws !! k = ws !! k ≫= reload_value file k.
Proof. unfold reload. apply map_lookup_imap. Qed.



Lemma reload_date_from_1900 (file : persistence) (d : date) :
  from_1900 d → reload_date file d = VDatetime d midnight.
Proof.
  unfold from_1900, reload_date. intros H.
  replace (date_ltb d (Date 1899 12 30)) with false; [by rewrite H|].
  destruct d as [y m dd]. unfold date_ltb in *. cbn [year month day] in *. lia.
Qed.

Lemma reload_int_exact (file : persistence) (n : Z) :
  exact_int n → reload_int file n = VInt n.
Proof.
  unfold exact_int, reload_int. intros H.
  by rewrite (proj2 (Z.leb_le _ _) H).
Qed.

Section write_again.
Context (self : writer) (keyed : worksheet → nat → date → Prop).
Context (keyed_cell : ∀ ws r d, keyed ws r d → is_Some (ws !! (r, 1%nat))).
Context (locate_equal : ∀ first_date ws r,
  (2 ≤ r ≤ max_row ws)%nat →
  keyed ws r first_date →
  (∀ r', (r < r' ≤ max_row ws)%nat →
         ∃ d, keyed ws r' d ∧ date_lt first_date d) →
  get_first_row self first_date ws = Ok (r, ws)).
Context (locate_none : ∀ first_date ws,
  (∀ r', (1 < r' ≤ max_row ws)%nat →
         ∃ d, keyed ws r' d ∧ date_lt first_date d) →
  get_first_row self first_date ws = Ok (1%nat, ws)).

End write_again.





(** ** Selic and CDI *)

(** C10.  The Selic and the CDI writers have the same headers, date,
    value and daily_value, and make the same row of every record: its
    date, its value and [1 + round(value / 100, 8)].  So they write the
    same cells from the same records on the same sheet; in the registry
    they differ by code, sheet name and tab colour. *)
Theorem selic_cdi_same_cells :
  get_headers Selic = ["date"; "value"; "daily_value"]%string
  ∧ get_headers Cdi = ["date"; "value"; "daily_value"]%string
  ∧ (∀ record,
       format_record Selic record
       = (daily_value ← daily_value (rec_value record);
          mret [VDate (rec_date record); VDec (rec_value record);
                VDec daily_value])
       ∧ format_record Cdi record = format_record Selic record)
  ∧ (∀ empty_exn records ws,
       WorksheetWriter._write_records empty_exn Cdi records ws
       = WorksheetWriter._write_records empty_exn Selic records ws)
  ∧ IndicatorsWorkbook._worksheet_properties !! 11
    = Some (Properties "selic" "0000FF" (WorksheetWriterClass Selic) "visible")
  ∧ IndicatorsWorkbook._worksheet_properties !! 12
    = Some (Properties "cdi" "00FF00" (WorksheetWriterClass Cdi) "visible").
Proof. split_and!; try done. Qed.

(** ** Unknown indicators *)

(** C9, the claim as stated fails: 999 is not in the registry, and asking
    a workbook for its last date returns [None] instead of raising. *)
Lemma unknown_indicator_last_date :
  IndicatorsWorkbook._worksheet_properties !! 999 = None
  ∧ IndicatorsWorkbook.get_indicator_last_date 999
      (IndicatorsWorkbook.Workbook ∅ ∅) = Ok None.
Proof. split; reflexivity. Qed.

(** C9, amended.  For a code that is not in the registry, [write_records]
    raises [KeyError], whatever the workbook and the records, and no sheet
    is made; [get_indicator_last_date] does not raise: it returns what the
    metadata dictionary holds for the code and [None] when it holds
    nothing. *)
Theorem unknown_indicator (indicator_code : Z) :
  IndicatorsWorkbook._worksheet_properties !! indicator_code = None →
  (∀ empty_exn records last_non_extended_date self,
     IndicatorsWorkbook.write_records empty_exn indicator_code records
       last_non_extended_date self = Raise KeyError)
  ∧ (∀ self,
       IndicatorsWorkbook._create_sheet indicator_code self = Raise KeyError)
  ∧ (∀ self,
       IndicatorsWorkbook.get_indicator_last_date indicator_code self
       = Ok (from_option id None
               (IndicatorsWorkbook.indicators_dates self !! indicator_code))).
Proof.
  intros H. split_and!.
  - intros. unfold IndicatorsWorkbook.write_records. by rewrite H.
  - intros. unfold IndicatorsWorkbook._create_sheet. by rewrite H.
  - intros self. unfold IndicatorsWorkbook.get_indicator_last_date.
    by destruct (IndicatorsWorkbook.indicators_dates self !! indicator_code).
Qed.

Lemma unknown_indicator_witness :
  IndicatorsWorkbook.write_records IndexError 999 selic_update None
    (IndicatorsWorkbook.Workbook ∅ ∅) = Raise KeyError
  ∧ IndicatorsWorkbook.get_indicator_last_date 999
      (IndicatorsWorkbook.Workbook ∅ ∅) = Ok None.
Proof.
  destruct (unknown_indicator 999) as (W & _ & G).
  - reflexivity.
  - split; [apply W|apply G].
Defined.

(** ** Loading the metadata *)

(** C7, on the code.  A row whose identifier cell is empty, or holds a
    date, is skipped; identifier 11 with an empty date cell, or with a
    date cell that is not a [datetime], loads as 11 with no date; a
    string of digits is an identifier.  But a string that is not a number
    makes [int] raise [ValueError], which the loop does not catch: the
    constructor raises instead of skipping the row. *)
Theorem metadata_load_rows :
  fst <$> MetadataWriter.__init__ (list_to_map [((2, 2), VDatetime (Date 2024 1 3) midnight)]%nat)
  = Ok ∅
  ∧ fst <$> MetadataWriter.__init__
      (list_to_map [((2, 1), VDatetime (Date 2024 1 3) midnight);
                    ((2, 2), VDatetime (Date 2024 1 3) midnight)]%nat)
    = Ok ∅
  ∧ fst <$> MetadataWriter.__init__ (list_to_map [((2, 1), VInt 11)]%nat)
    = Ok {[11 := None]}
  ∧ fst <$> MetadataWriter.__init__
      (list_to_map [((2, 1), VInt 11); ((2, 2), VStr "soon")]%nat)
    = Ok {[11 := None]}
  ∧ fst <$> MetadataWriter.__init__
      (list_to_map [((2, 1), VStr "12");
                    ((2, 2), VDatetime (Date 2024 1 3) midnight)]%nat)
    = Ok {[12 := Some (Date 2024 1 3)]}
  ∧ MetadataWriter.__init__
      (list_to_map [((2, 1), VStr "abc");
                    ((2, 2), VDatetime (Date 2024 1 3) midnight)]%nat)
    = Raise ValueError.
Proof. split_and!; vm_compute; reflexivity. Qed.

(** ** Flushing the metadata *)

Global Instance item_le_total : Total MetadataWriter.item_le.
Proof. intros a b. unfold MetadataWriter.item_le. lia. Qed.

Global Instance item_le_trans : Transitive MetadataWriter.item_le.
Proof. intros a b c. unfold MetadataWriter.item_le. lia. Qed.

Lemma sorted_items_perm (dates : gmap Z (option date)) :
  MetadataWriter.sorted_items dates ≡ₚ map_to_list dates.
Proof. apply merge_sort_Permutation. Qed.

Lemma sorted_items_nodup (dates : gmap Z (option date)) :
  NoDup (MetadataWriter.sorted_items dates).*1.
Proof. rewrite sorted_items_perm. apply NoDup_fst_map_to_list. Qed.

Lemma sorted_items_ascending (dates : gmap Z (option date)) :
  StronglySorted (λ a b, a.1 < b.1) (MetadataWriter.sorted_items dates).
Proof.
  pose proof (sorted_items_nodup dates) as Hnd.
  pose proof (StronglySorted_merge_sort MetadataWriter.item_le
                (map_to_list dates)) as Hs.
  fold (MetadataWriter.sorted_items dates) in Hs.
  induction Hs as [|a l Hs IH Hall]; [constructor|].
  rewrite fmap_cons in Hnd. apply NoDup_cons in Hnd as [Hnotin Hnd].
  constructor; [by apply IH|].
  rewrite Forall_forall in Hall |- *. intros b Hb.
  assert (a.1 ≠ b.1).
  { intros Heq. apply Hnotin. rewrite Heq. by apply list_elem_of_fmap_2. }
  specialize (Hall b Hb). unfold MetadataWriter.item_le in Hall. lia.
Qed.

Lemma write_items_ok row items ws :
  (1 ≤ row)%nat →
  MetadataWriter.write_items row items ws
  = Ok ((), put_rows row (item_row <$> items) ws).
Proof.
  intros Hrow. revert row ws Hrow.
  induction items as [|[k d] items IH]; intros row ws Hrow; [done|].
  simpl. unfold mbind, sheet_bind, set_cell_value.
  destruct row; [lia|]. simpl. apply IH. lia.
Qed.

(** C8, the claim as stated fails.  A metadata sheet with two rows for
    identifier 11 loads as one entry; the flush writes that entry on row 2
    and the former row 3 is still there after it. *)
Lemma flush_leaves_rows :
  let ws0 : worksheet :=
    list_to_map
      [((2, 1), VInt 11); ((2, 2), VDatetime (Date 2024 1 3) midnight);
       ((3, 1), VInt 11); ((3, 2), VDatetime (Date 2024 1 2) midnight)]%nat in
  ∃ ws1 ws2 : worksheet,
    MetadataWriter.__init__ ws0 = Ok ({[11 := Some (Date 2024 1 3)]}, ws1)
    ∧ MetadataWriter.write_indicators_last_date
        {[11 := Some (Date 2024 1 3)]} ws1 = Ok ((), ws2)
    ∧ length (MetadataWriter.sorted_items {[11 := Some (Date 2024 1 3)]}) = 1%nat
    ∧ ws2 !! (3, 1)%nat = Some (VInt 11)
    ∧ ws2 !! (3, 2)%nat = Some (VDatetime (Date 2024 1 2) midnight).
Proof.
  eexists _, _. split_and!.
  - vm_compute. reflexivity.
  - vm_compute. reflexivity.
  - reflexivity.
  - reflexivity.
  - reflexivity.
Qed.

(** C8, amended.  The flush returns; it writes the entries of the
    dictionary, each once, in strictly ascending order of identifier, one a
    row from row 2 on, the identifier in column 1 and the date in
    column 2; every other cell of the sheet, the rows after the last
    written one among them, is as it was. *)
Theorem flush_writes_sorted_rows (indicators_dates : gmap Z (option date))
    (ws : worksheet) :
  let items := MetadataWriter.sorted_items indicators_dates in
  ∃ ws' : worksheet,
    MetadataWriter.write_indicators_last_date indicators_dates ws
    = Ok ((), ws')
    ∧ items ≡ₚ map_to_list indicators_dates
    ∧ StronglySorted (λ a b, a.1 < b.1) items
    ∧ (∀ (i : nat) indicator date, items !! i = Some (indicator, date) →
         ws' !! ((2 + i)%nat, 1%nat) = Some (VInt indicator)
         ∧ ws' !! ((2 + i)%nat, 2%nat) = Some (opt_date_value date))
    ∧ (∀ r c : nat,
         ¬ ((2 ≤ r < 2 + length items)%nat ∧ (1 ≤ c ≤ 2)%nat) →
         ws' !! (r, c) = ws !! (r, c)).
Proof.
  intros items. exists (put_rows 2 (item_row <$> items) ws). split_and!.
  - unfold MetadataWriter.write_indicators_last_date.
    by rewrite write_items_ok by lia.
  - apply sorted_items_perm.
  - apply sorted_items_ascending.
  - intros i indicator date Hi.
    rewrite !lookup_put_rows. replace (2 + i - 2)%nat with i by lia.
    rewrite list_lookup_fmap, Hi. done.
  - intros r c Hrc. rewrite lookup_put_rows.
    destruct ((item_row <$> items) !! (r - 2)%nat) as [xs|] eqn:E; [|done].
    apply list_lookup_fmap_Some in E as (item & -> & Hitem).
    apply lookup_lt_Some in Hitem. simpl. case_decide; [lia|done].
Qed.

(** ** Loading the metadata sheet *)

Lemma cell_value_cellv (ws : worksheet) (row column : nat) :
  (1 ≤ row)%nat → (1 ≤ column)%nat →
  ∃ ws' : worksheet,
    cell_value row column ws = Ok (cellv ws row column, ws')
    ∧ ∀ r c, cellv ws' r c = cellv ws r c.
Proof.
  intros Hr Hc. unfold cell_value, cellv.
  destruct row; [lia|]. destruct column; [lia|]. simpl.
  destruct (ws !! (S row, S column)) as [v|] eqn:E; simpl.
  - by exists ws.
  - eexists. split; [done|]. intros r c.
    destruct (decide ((S row, S column) = (r, c))) as [[= <- <-]|Hne].
    + by rewrite lookup_insert_eq, E.
    + by rewrite lookup_insert_ne.
Qed.

Lemma value_date_raises v e : value_date v = Raise e → e = AttributeError.
Proof. destruct v; simpl; congruence. Qed.

Lemma load_row_cases (ws : worksheet) (row : nat) acc :
  (1 ≤ row)%nat →
  match row_entry ws row with
  | Ok e =>
      ∃ ws' : worksheet,
        MetadataWriter.load_row row acc ws = Ok (add_entry e acc, ws')
        ∧ ∀ r c, cellv ws' r c = cellv ws r c
  | Raise e => MetadataWriter.load_row row acc ws = Raise e
  end.
Proof.
  intros Hrow. unfold row_entry, MetadataWriter.load_row.
  destruct (cell_value_cellv ws row 1) as (ws1 & H1 & Hv1); [lia..|].
  destruct (py_int (cellv ws row 1)) as [cod|e] eqn:Hp.
  - destruct (cell_value_cellv ws1 row 2) as (ws2 & H2 & Hv2); [lia..|].
    rewrite Hv1 in H2.
    destruct (value_date (cellv ws row 2)) as [d|e] eqn:E.
    + exists ws2. split; [|intros r c; by rewrite Hv2].
      unfold mbind at 1. unfold sheet_bind. rewrite H1, Hp.
      unfold mbind at 1. unfold sheet_bind. by rewrite H2, E.
    + apply value_date_raises in E as E'. subst e.
      exists ws2. split; [|intros r c; by rewrite Hv2].
      unfold mbind at 1. unfold sheet_bind. rewrite H1, Hp.
      unfold mbind at 1. unfold sheet_bind. by rewrite H2, E.
  - destruct e; try (unfold mbind, sheet_bind; by rewrite H1, Hp).
    exists ws1. split; [|done].
    unfold mbind, sheet_bind. by rewrite H1, Hp.
Qed.

Lemma row_entry_same (ws ws' : worksheet) (row : nat) :
  (∀ r c, cellv ws' r c = cellv ws r c) → row_entry ws' row = row_entry ws row.
Proof. intros H. unfold row_entry. by rewrite !H. Qed.

Lemma load_rows_ok (rows : list nat) (ws : worksheet) acc
    (entries : nat → option (Z * option date)) :
  (∀ r, r ∈ rows → (1 ≤ r)%nat ∧ row_entry ws r = Ok (entries r)) →
  ∃ ws' : worksheet,
    MetadataWriter.load_rows rows acc ws
    = Ok (foldl (λ acc r, add_entry (entries r) acc) acc rows, ws')
    ∧ ∀ r c, cellv ws' r c = cellv ws r c.
Proof.
  revert ws acc. induction rows as [|row rows IH]; intros ws acc H.
  - by exists ws.
  - destruct (H row) as [Hrow He]; [left|].
    pose proof (load_row_cases ws row acc Hrow) as Hc. rewrite He in Hc.
    destruct Hc as (ws1 & Hl & Hv1).
    destruct (IH ws1 (add_entry (entries row) acc)) as (ws2 & Hl2 & Hv2).
    { intros r Hr. destruct (H r) as [? He']; [by right|].
      split; [done|]. by rewrite (row_entry_same ws). }
    exists ws2. split.
    + simpl. unfold mbind, sheet_bind. by rewrite Hl, Hl2.
    + intros r c. by rewrite Hv2.
Qed.

Lemma load_rows_inv (rows : list nat) (ws ws' : worksheet) acc acc' :
  (∀ r, r ∈ rows → (1 ≤ r)%nat) →
  MetadataWriter.load_rows rows acc ws = Ok (acc', ws') →
  (∀ r, r ∈ rows → ∃ e, row_entry ws r = Ok e)
  ∧ ∀ r c, cellv ws' r c = cellv ws r c.
Proof.
  revert ws acc. induction rows as [|row rows IH]; intros ws acc H Hl.
  - injection Hl as <- <-. split; [|done]. intros r Hr. inversion Hr.
  - pose proof (load_row_cases ws row acc (H row ltac:(left))) as Hc.
    simpl in Hl. unfold mbind, sheet_bind in Hl.
    destruct (row_entry ws row) as [e|e] eqn:He.
    + destruct Hc as (ws1 & Hl1 & Hv1). rewrite Hl1 in Hl.
      apply IH in Hl as [He' Hv']; [|intros r Hr; apply H; by right].
      split.
      * intros r [->|Hr]%elem_of_cons; [by exists e|].
        destruct (He' r Hr) as [e' He'']. exists e'.
        by rewrite <- (row_entry_same ws ws1).
      * intros r c. by rewrite Hv'.
    + by rewrite Hc in Hl.
Qed.

Lemma py_int_raises v e : py_int v = Raise e → e = TypeError ∨ e = ValueError.
Proof.
  destruct v; simpl; try (intros [= <-]; auto); try done.
  unfold int_of_string. destruct (match strip _ with [] => _ | _ => _ end);
    [done|]. intros [= <-]. auto.
Qed.

Lemma row_entry_ok (ws : worksheet) (row : nat) :
  py_int (cellv ws row 1) ≠ Raise ValueError ↔ ∃ e, row_entry ws row = Ok e.
Proof.
  unfold row_entry. destruct (py_int (cellv ws row 1)) as [cod|e] eqn:E.
  - split; [eauto|done].
  - apply py_int_raises in E as [-> | ->].
    + split; [eauto|done].
    + split; [done|]. by intros [e [=]].
Qed.

Lemma cellv_beyond (ws : worksheet) (r c : nat) :
  (max_row ws < r)%nat → cellv ws r c = VNone.
Proof.
  intros H. unfold cellv. destruct (ws !! (r, c)) as [v|] eqn:E; [|done].
  assert (r ≤ max_row ws)%nat by (apply (max_row_ge _ _ c); by eexists). lia.
Qed.

Lemma cellv_reload (file : persistence) (ws : worksheet) (r c : nat) :
  cellv (reload file ws) r c
  = default VNone (reload_value file (r, c) (cellv ws r c)).
Proof.
  unfold cellv. rewrite lookup_reload.
  destruct (ws !! (r, c)) as [v|]; simpl; [done|].
  by destruct (keeps_empty file (r, c)).
Qed.


Lemma cellv_put_cells_below (row column : nat) (xs : list value)
    (ws : worksheet) (r c : nat) :
  r ≠ row → cellv (put_cells row column xs ws) r c = cellv ws r c.
Proof.
  intros H. unfold cellv. rewrite lookup_put_cells. by rewrite decide_False by lia.
Qed.





(** ** Decimal arithmetic *)

Lemma ndigits_aux_bounds (fuel : nat) (n : Z) :
  0 ≤ n < 2 ^ (Z.of_nat fuel + 1) →
  1 ≤ ndigits_aux fuel n
  ∧ n < 10 ^ ndigits_aux fuel n
  ∧ (1 ≤ n → 10 ^ (ndigits_aux fuel n - 1) ≤ n).
Proof.
  revert n. induction fuel as [|fuel IH]; intros n Hn.
  - simpl in *. lia.
  - cbn [ndigits_aux]. destruct (Z.ltb_spec n 10) as [Hlt|Hge].
    + simpl. lia.
    + destruct (IH (n / 10)) as (H1 & H2 & H3).
      { split; [apply Z.div_pos; lia|].
        apply Z.div_lt_upper_bound; [lia|].
        replace (Z.of_nat (S fuel) + 1) with (Z.succ (Z.of_nat fuel + 1)) in Hn
          by lia.
        rewrite Z.pow_succ_r in Hn by lia. lia. }
      set (d := ndigits_aux fuel (n / 10)) in *.
      assert (1 ≤ n / 10) by (apply Z.div_le_lower_bound; lia).
      split_and!.
      * lia.
      * replace (1 + d) with (Z.succ d) by lia. rewrite Z.pow_succ_r by lia.
        pose proof (Z.div_mod n 10 ltac:(lia)).
        pose proof (Z.mod_pos_bound n 10 ltac:(lia)). lia.
      * intros _. replace (1 + d - 1) with (Z.succ (d - 1)) by lia.
        rewrite Z.pow_succ_r by lia.
        pose proof (Z.div_mod n 10 ltac:(lia)).
        pose proof (Z.mod_pos_bound n 10 ltac:(lia)). lia.
Qed.

Lemma ndigits_bounds (n : Z) :
  1 ≤ ndigits n
  ∧ Z.abs n < 10 ^ ndigits n
  ∧ (n ≠ 0 → 10 ^ (ndigits n - 1) ≤ Z.abs n).
Proof.
  unfold ndigits.
  destruct (ndigits_aux_bounds (Z.to_nat (Z.log2 (Z.abs n))) (Z.abs n))
    as (H1 & H2 & H3).
  - split; [lia|]. rewrite Z2Nat.id by apply Z.log2_nonneg.
    destruct (decide (Z.abs n = 0)) as [->|Hne]; [done|].
    replace (Z.log2 (Z.abs n) + 1) with (Z.succ (Z.log2 (Z.abs n))) by lia.
    apply Z.log2_spec. lia.
  - split_and!; [done..|]. intros. apply H3. lia.
Qed.

Lemma ndigits_le (n k : Z) : 1 ≤ k → Z.abs n < 10 ^ k → ndigits n ≤ k.
Proof.
  intros Hk H. destruct (ndigits_bounds n) as (H1 & _ & H3).
  destruct (decide (n = 0)) as [->|Hne]; [vm_compute ndigits; lia|].
  specialize (H3 Hne).
  destruct (Z.leb_spec (ndigits n) k) as [|Hgt]; [done|].
  assert (10 ^ k ≤ 10 ^ (ndigits n - 1)); [|lia].
  apply Z.pow_le_mono_r; lia.
Qed.

Lemma dec_fix_small (x : decimal) : ndigits (coeff x) ≤ prec → dec_fix x = x.
Proof. intros H. unfold dec_fix. by rewrite (proj2 (Z.leb_le _ _) H). Qed.

Lemma strip_zeros_pow (j fuel : nat) (a e : Z) :
  strip_zeros (j + fuel) (a * 10 ^ Z.of_nat j) e
  = strip_zeros fuel a (e + Z.of_nat j).
Proof.
  revert e. induction j as [|j IH]; intros e.
  - simpl. by rewrite Z.mul_1_r, Z.add_0_r.
  - replace (Z.of_nat (S j)) with (Z.succ (Z.of_nat j)) by lia.
    rewrite Z.pow_succ_r by lia. cbn [Nat.add strip_zeros].
    replace (a * (10 * 10 ^ Z.of_nat j)) with (a * 10 ^ Z.of_nat j * 10) by lia.
    rewrite Z.mod_mul by lia. rewrite Z.div_mul by lia. simpl.
    rewrite IH. f_equal. lia.
Qed.

Lemma strip_zeros_spec (fuel : nat) (c e : Z) :
  0 < c →
  ∃ j : Z, 0 ≤ j ≤ Z.of_nat fuel
           ∧ strip_zeros fuel c e = (c / 10 ^ j, e + j)
           ∧ c = c / 10 ^ j * 10 ^ j ∧ 0 < c / 10 ^ j.
Proof.
  revert c e. induction fuel as [|fuel IH]; intros c e Hc.
  - exists 0. simpl. rewrite Z.div_1_r, Z.add_0_r. split_and!; (done || lia).
  - cbn [strip_zeros]. destruct (Z.eqb_spec (c mod 10) 0) as [Hz|Hnz].
    + assert (c = c / 10 * 10) as Hdiv.
      { pose proof (Z.div_mod c 10 ltac:(lia)). lia. }
      destruct (IH (c / 10) (e + 1)) as (j & Hj & Hs & Hm & Hp); [lia|].
      exists (j + 1). rewrite Z.pow_add_r by lia. rewrite Z.pow_1_r.
      replace (10 ^ j * 10) with (10 * 10 ^ j) by lia.
      rewrite <- Z.div_div by (try apply Z.pow_pos_nonneg; lia).
      split; [lia|]. split; [|split; [|done] ].
      * rewrite Hs. f_equal. lia.
      * rewrite Hdiv at 1. rewrite Hm at 1. ring.
    + exists 0. simpl. rewrite Z.div_1_r, Z.add_0_r. split_and!; (done || lia).
Qed.

Lemma div_half_even_scale (n j k : Z) :
  0 ≤ j ≤ k → div_half_even (n * 10 ^ j) k = div_half_even n (k - j).
Proof.
  intros H. unfold div_half_even.
  replace (10 ^ k) with (10 ^ (k - j) * 10 ^ j)
    by (rewrite <- Z.pow_add_r by lia; f_equal; lia).
  assert (0 < 10 ^ j) by (apply Z.pow_pos_nonneg; lia).
  assert (0 < 10 ^ (k - j)) by (apply Z.pow_pos_nonneg; lia).
  rewrite Z.div_mul_cancel_r by lia.
  rewrite Z.mul_mod_distr_r by lia.
  set (r := n mod 10 ^ (k - j)). set (p := 10 ^ (k - j)).
  set (s := 10 ^ j) in *.
  replace (p * s <? 2 * (r * s)) with (p <? 2 * r)
    by (destruct (Z.ltb_spec p (2 * r)), (Z.ltb_spec (p * s) (2 * (r * s)));
        try done; nia).
  replace (2 * (r * s) =? p * s) with (2 * r =? p)
    by (destruct (Z.eqb_spec (2 * r) p), (Z.eqb_spec (2 * (r * s)) (p * s));
        try done; nia).
  done.
Qed.

Lemma div_half_even_0 (n : Z) : div_half_even n 0 = n.
Proof.
  unfold div_half_even. simpl. rewrite Z.div_1_r, Z.mod_1_r. done.
Qed.

Lemma div_half_even_bounds (n k : Z) :
  0 ≤ n → 0 ≤ k → 0 ≤ div_half_even n k ≤ n / 10 ^ k + 1.
Proof.
  intros Hn Hk. unfold div_half_even.
  assert (0 ≤ n / 10 ^ k)
    by (apply Z.div_pos; [lia|apply Z.pow_pos_nonneg; lia]).
  case_match; lia.
Qed.

Lemma pow10_pos (k : Z) : 0 ≤ k → 0 < 10 ^ k.
Proof. intros. apply Z.pow_pos_nonneg; lia. Qed.

Lemma ndigits_abs (n : Z) : ndigits (Z.abs n) = ndigits n.
Proof. unfold ndigits. by rewrite Z.abs_idemp. Qed.

Lemma dec_mul_one (c e : Z) :
  ndigits c ≤ prec → dec_mul (Dec c e) (dec_of_int 1) = Dec c e.
Proof.
  intros H. unfold dec_mul, dec_of_int. cbn [coeff expo].
  rewrite Z.mul_1_r, Z.add_0_r. by apply dec_fix_small.
Qed.

Lemma dec_div_hundred_zero (e : Z) :
  dec_div (Dec 0 e) (dec_of_int 100) = Ok (Dec 0 e).
Proof.
  unfold dec_div, dec_of_int. cbn [coeff expo]. simpl Z.eqb. cbv iota.
  rewrite Z.sub_0_r. by rewrite dec_fix_small.
Qed.

Lemma dec_div_hundred (c e : Z) :
  c ≠ 0 → ndigits c ≤ prec →
  ∃ j : Z,
    0 ≤ j ≤ 2
    ∧ dec_div (Dec c e) (dec_of_int 100)
      = Ok (Dec (Z.sgn c * (Z.abs c / 10 ^ j)) (e - 2 + j))
    ∧ Z.abs c = Z.abs c / 10 ^ j * 10 ^ j
    ∧ 0 < Z.abs c / 10 ^ j.
Proof.
  intros Hc Hnd. unfold dec_div, dec_of_int. cbn [coeff expo].
  change (100 =? 0) with false. cbv iota.
  rewrite (proj2 (Z.eqb_neq c 0) Hc).
  change (Z.sgn 100) with 1. change (Z.abs 100) with 100.
  change (ndigits 100) with 3. rewrite Z.mul_1_r, !Z.sub_0_r, ndigits_abs.
  destruct (ndigits_bounds c) as (Hd1 & Hd2 & _).
  set (a := Z.abs c) in *. set (shift := 3 - ndigits c + prec + 1).
  assert (4 ≤ shift) as Hshift by (unfold shift, prec in *; lia).
  rewrite (proj2 (Z.leb_le 0 shift)) by lia.
  assert (a * 10 ^ shift = a * 10 ^ (shift - 2) * 100) as Hnum.
  { replace shift with ((shift - 2) + 2) at 1 by lia.
    rewrite Z.pow_add_r by lia. change (10 ^ 2) with 100. ring. }
  rewrite Hnum, Z.mod_mul, Z.div_mul by lia.
  change (0 =? 0) with true. cbv iota.
  replace (Z.to_nat (e - (e - shift))) with (Z.to_nat (shift - 2) + 2)%nat
    by lia.
  set (n := Z.to_nat (shift - 2)).
  replace (shift - 2) with (Z.of_nat n) by lia.
  rewrite strip_zeros_pow.
  destruct (strip_zeros_spec 2 a (e - shift + Z.of_nat n))
    as (j & Hj & Hs & Hm & Hp); [lia|].
  rewrite Hs. exists j. split_and!; [lia..| |done|done].
  rewrite dec_fix_small.
  - do 2 f_equal. lia.
  - cbn [coeff]. apply ndigits_le; [unfold prec; lia|].
    assert (a / 10 ^ j ≤ a).
    { apply Z.div_le_upper_bound; [apply pow10_pos; lia|].
      pose proof (pow10_pos j ltac:(lia)). nia. }
    assert (10 ^ ndigits c ≤ 10 ^ prec) by (apply Z.pow_le_mono_r; lia).
    destruct (Z.sgn_spec c) as [[? ->]|[[? ->]|[? ->]]]; lia.
Qed.

Lemma dec_add_one (q : Z) :
  Z.abs q ≤ 10 ^ 27 →
  dec_add (dec_of_int 1) (Dec q (-8)) = Dec (10 ^ 8 + q) (-8).
Proof.
  intros Hq. unfold dec_add, dec_of_int. cbn [coeff expo].
  change (1 =? 0) with false. cbn [andb]. cbv iota.
  change (Z.min 0 (-8)) with (-8).
  destruct (Z.eqb_spec q 0) as [->|Hne].
  - vm_compute. reflexivity.
  - unfold dec_normalize. cbn [coeff expo].
    change (0 <? -8) with false. cbv beta iota zeta. cbn [coeff expo].
    change (ndigits 1) with 1.
    destruct (ndigits_bounds q) as (Hd1 & _ & _).
    destruct (Z.ltb_spec (ndigits q + -8 - 1)
                (0 + Z.min (-1) (1 - prec - 2))) as [Hlt|_];
      [unfold prec in Hlt; lia|].
    cbn [coeff expo]. change (1 * 10 ^ (0 - -8)) with (10 ^ 8).
    destruct (Z.eqb_spec (10 ^ 8 + q) 0) as [Hz|Hnz].
    + rewrite Hz. rewrite dec_fix_small; [done|]. vm_compute. discriminate.
    + apply dec_fix_small. cbn [coeff].
      apply ndigits_le; [unfold prec; lia|]. unfold prec.
      change (10 ^ 28) with 10000000000000000000000000000.
      change (10 ^ 27) with 1000000000000000000000000000 in Hq.
      change (10 ^ 8) with 100000000. lia.
Qed.

Lemma exact_round8_bound (c e : Z) :
  c ≠ 0 → ndigits c + e ≤ 21 →
  Z.abs (exact_round8_hundredth (Dec c e)) ≤ 10 ^ 27.
Proof.
  intros Hc Hmag. unfold exact_round8_hundredth. cbn [coeff expo].
  destruct (ndigits_bounds c) as (Hd1 & Hd2 & _).
  assert (10 ^ ndigits c ≤ 10 ^ (21 - e)) by (apply Z.pow_le_mono_r; lia).
  destruct (Z.leb_spec (- (e + 6)) 0) as [Hk|Hk].
  - rewrite Z.abs_mul, (Z.abs_eq (10 ^ _)) by (apply Z.pow_nonneg; lia).
    replace 27 with ((21 - e) + (- - (e + 6))) by lia.
    rewrite Z.pow_add_r by lia.
    pose proof (pow10_pos (- - (e + 6)) ltac:(lia)). nia.
  - set (k := - (e + 6)) in *.
    pose proof (div_half_even_bounds (Z.abs c) k ltac:(lia) ltac:(lia)) as Hb.
    assert (Z.abs c / 10 ^ k < 10 ^ 27).
    { apply Z.div_lt_upper_bound; [apply pow10_pos; lia|].
      rewrite <- Z.pow_add_r by lia. replace (k + 27) with (21 - e) by lia.
      lia. }
    destruct (Z.sgn_spec c) as [[? ->]|[[? ->]|[? ->] ] ]; lia.
Qed.

Lemma dec_round_hundredth (c e j : Z) :
  c ≠ 0 → ndigits c + e ≤ 21 →
  0 ≤ j ≤ 2 →
  Z.abs c = Z.abs c / 10 ^ j * 10 ^ j →
  0 < Z.abs c / 10 ^ j →
  dec_round (Dec (Z.sgn c * (Z.abs c / 10 ^ j)) (e - 2 + j)) 8
  = Ok (Dec (exact_round8_hundredth (Dec c e)) (-8)).
Proof.
  intros Hc Hmag Hj Hm Hp.
  pose proof (exact_round8_bound c e Hc Hmag) as Hbound.
  set (q := Z.abs c / 10 ^ j) in *.
  assert (Z.abs (Z.sgn c * q) = q ∧ Z.sgn (Z.sgn c * q) = Z.sgn c
          ∧ Z.sgn c * q ≠ 0) as (Habs & Hsgn & Hnz).
  { destruct (Z.sgn_spec c) as [[? ->]|[[? ->]|[? ->] ] ]; lia. }
  destruct (ndigits_bounds c) as (Hd1 & Hd2 & _).
  assert (10 ^ ndigits c ≤ 10 ^ (21 - e)) by (apply Z.pow_le_mono_r; lia).
  pose proof (pow10_pos j ltac:(lia)) as Hpj.
  assert (j < 21 - e) as Hje.
  { destruct (Z.ltb_spec j (21 - e)); [done|].
    assert (10 ^ (21 - e) ≤ 10 ^ j) by (apply Z.pow_le_mono_r; lia). nia. }
  assert (q < 10 ^ (21 - e - j)) as Hq.
  { assert (10 ^ (21 - e) = 10 ^ (21 - e - j) * 10 ^ j) as Hsplit
      by (rewrite <- Z.pow_add_r by lia; f_equal; lia).
    nia. }
  assert (ndigits (Z.sgn c * q) ≤ 21 - e - j) as Hndq.
  { apply ndigits_le; [lia|]. by rewrite Habs. }
  (* the coefficient the rescaling gives is the exact one *)
  assert (coeff (dec_rescale (Dec (Z.sgn c * q) (e - 2 + j)) (-8))
          = exact_round8_hundredth (Dec c e)
          ∧ expo (dec_rescale (Dec (Z.sgn c * q) (e - 2 + j)) (-8)) = -8)
    as [Hcoeff Hexpo].
  { unfold dec_rescale, exact_round8_hundredth. cbn [coeff expo].
    rewrite (proj2 (Z.eqb_neq _ 0) Hnz), Habs, Hsgn.
    set (k := - (e + 6)).
    assert (c = Z.sgn c * Z.abs c) as Hcs
      by (destruct (Z.sgn_spec c) as [[? ->]|[[? ->]|[? ->] ] ]; lia).
    destruct (Z.leb_spec (-8) (e - 2 + j)) as [Hpad|Hround]; cbn [coeff expo].
    - split; [|done]. replace (e - 2 + j - -8) with (j - k) by lia.
      destruct (Z.leb_spec k 0) as [Hk|Hk].
      + rewrite Hcs at 2. rewrite Hm.
        replace (j - k) with (j + - k) by lia. rewrite Z.pow_add_r by lia.
        ring.
      + rewrite <- Z.mul_assoc. f_equal. rewrite Hm.
        replace (q * 10 ^ j) with (q * 10 ^ (j - k) * 10 ^ k)
          by (rewrite <- Z.mul_assoc, <- Z.pow_add_r by lia;
              do 2 f_equal; lia).
        rewrite div_half_even_scale by lia.
        by rewrite Z.sub_diag, div_half_even_0.
    - split; [|done]. replace (-8 - (e - 2 + j)) with (k - j) by lia.
      rewrite (proj2 (Z.leb_gt k 0)) by lia.
      f_equal. rewrite Hm. by rewrite div_half_even_scale by lia. }
  unfold dec_round, dec_quantize. change (- (8)) with (-8). cbn [coeff expo].
  rewrite (proj2 (Z.eqb_neq _ 0) Hnz).
  rewrite (proj2 (Z.ltb_ge _ _)) by (unfold prec; lia).
  rewrite Hcoeff.
  rewrite (proj2 (Z.ltb_ge _ _)).
  - f_equal. destruct (dec_rescale _ _) as [c' e']. cbn [coeff expo] in *.
    by subst.
  - apply ndigits_le; [unfold prec; lia|]. unfold prec.
    change (10 ^ 28) with 10000000000000000000000000000.
    change (10 ^ 27) with 1000000000000000000000000000 in Hbound. lia.
Qed.

(** C3, amended.  For a value of at most 28 significant digits and of
    magnitude below 10^21, the daily value the Selic and CDI writers
    compute is [1 + round(value / 100, 8)] of exact decimal arithmetic,
    rounded half to even at the eighth fractional digit, and the formatted
    row is the date, the value and that daily value. *)
Theorem daily_value_exact (record : IndicatorRecord) :
  ndigits (coeff (rec_value record)) ≤ 28 →
  ndigits (coeff (rec_value record)) + expo (rec_value record) ≤ 21 →
  daily_value (rec_value record) = Ok (exact_daily_value (rec_value record))
  ∧ format_record Selic record
    = Ok [VDate (rec_date record); VDec (rec_value record);
          VDec (exact_daily_value (rec_value record))]
  ∧ format_record Cdi record
    = Ok [VDate (rec_date record); VDec (rec_value record);
          VDec (exact_daily_value (rec_value record))].
Proof.
  intros Hnd Hmag.
  assert (daily_value (rec_value record)
          = Ok (exact_daily_value (rec_value record))) as Hdv.
  { destruct (rec_value record) as [c e]. cbn [coeff expo] in *.
    unfold daily_value. rewrite dec_mul_one by done.
    destruct (decide (c = 0)) as [->|Hc].
    - rewrite dec_div_hundred_zero. cbn [mbind result_bind].
      unfold dec_round, dec_quantize. change (- (8)) with (-8).
      cbn [coeff]. cbn [Z.eqb].
      cbn [mbind result_bind mret result_ret].
      rewrite dec_add_one by (vm_compute; discriminate).
      unfold exact_daily_value, exact_round8_hundredth. cbn [coeff expo].
      do 2 f_equal. case_match; [|done]. by rewrite Z.mul_0_l.
    - destruct (dec_div_hundred c e Hc Hnd) as (j & Hj & Hdiv & Hm & Hp).
      rewrite Hdiv. cbn [mbind result_bind].
      rewrite dec_round_hundredth by done.
      cbn [mbind result_bind mret result_ret].
      rewrite dec_add_one by by apply exact_round8_bound. done. }
  split_and!; [done|..]; cbn [format_record Selic Cdi];
    unfold SelicWriter._format_record, CdiWriter._format_record;
    by rewrite Hdv.
Qed.

(** C3, the claim as stated fails.  A value of 29 significant digits is
    first rounded to 28 by the multiplication, which moves it onto a tie
    that then rounds to even: the daily value is 1.00000000 where exact
    arithmetic gives 1.00000001.  And for a value of 10^22 the rounding
    to 8 places needs more than 28 digits and raises, so there is no
    row. *)
Lemma daily_value_beyond_precision :
  daily_value (Dec 50000000000000000000000000001 (-35))
  = Ok (Dec 100000000 (-8))
  ∧ exact_daily_value (Dec 50000000000000000000000000001 (-35))
    = Dec 100000001 (-8)
  ∧ daily_value (Dec 1 22) = Raise InvalidOperation
  ∧ format_record Selic (Build_IndicatorRecord (Date 2024 1 2) (Dec 1 22) None)
    = Raise InvalidOperation
  ∧ format_record Cdi (Build_IndicatorRecord (Date 2024 1 2) (Dec 1 22) None)
    = Raise InvalidOperation.
Proof. split_and!; vm_compute; reflexivity. Qed.

Lemma daily_value_exact_witness :
  daily_value (Dec 65 (-3)) = Ok (Dec 100065000 (-8))
  ∧ format_record Selic (Build_IndicatorRecord (Date 2024 1 2) (Dec 65 (-3)) None)
    = Ok [VDate (Date 2024 1 2); VDec (Dec 65 (-3)); VDec (Dec 100065000 (-8))]
  ∧ format_record Cdi (Build_IndicatorRecord (Date 2024 1 2) (Dec 65 (-3)) None)
    = Ok [VDate (Date 2024 1 2); VDec (Dec 65 (-3)); VDec (Dec 100065000 (-8))].
Proof.
  apply (daily_value_exact
           (Build_IndicatorRecord (Date 2024 1 2) (Dec 65 (-3)) None)).
  - vm_compute. discriminate.
  - vm_compute. discriminate.
Defined.

(** * Further properties of the writers *)

(** ** Dimensions, continued *)

Lemma max_column_ge (ws : worksheet) (r c : nat) :
  is_Some (ws !! (r, c)) → (c ≤ max_column ws)%nat.
Proof.
  intros [v Hv]. unfold max_column. case_decide as He.
  - by rewrite He, lookup_empty in Hv.
  - apply max_list_elem_of_le.
    apply (list_elem_of_fmap_2 snd (map_to_list ws).*1 (r, c)).
    apply (list_elem_of_fmap_2 fst (map_to_list ws) ((r, c), v)).
    by apply elem_of_map_to_list.
Qed.

Lemma max_row_attained (ws : worksheet) :
  ws ≠ ∅ → ∃ c, is_Some (ws !! (max_row ws, c)).
Proof.
  intros He. unfold max_row. rewrite decide_False by done.
  assert ((map_to_list ws).*1.*1 ≠ []) as Hne.
  { intros Hnil. apply He, map_to_list_empty_iff.
    by repeat apply fmap_nil_inv in Hnil. }
  apply max_list_elem_of in Hne.
  apply list_elem_of_fmap in Hne as ([r c] & Hr & Hin).
  apply list_elem_of_fmap in Hin as ([k v] & Hk & Hin). simpl in Hk, Hr.
  subst k. apply elem_of_map_to_list in Hin. exists c. rewrite Hr. by eexists.
Qed.

Lemma max_column_attained (ws : worksheet) :
  ws ≠ ∅ → ∃ r, is_Some (ws !! (r, max_column ws)).
Proof.
  intros He. unfold max_column. rewrite decide_False by done.
  assert ((map_to_list ws).*1.*2 ≠ []) as Hne.
  { intros Hnil. apply He, map_to_list_empty_iff.
    by repeat apply fmap_nil_inv in Hnil. }
  apply max_list_elem_of in Hne.
  apply list_elem_of_fmap in Hne as ([r c] & Hc & Hin).
  apply list_elem_of_fmap in Hin as ([k v] & Hk & Hin). simpl in Hk, Hc.
  subst k. apply elem_of_map_to_list in Hin. exists r. rewrite Hc. by eexists.
Qed.

Lemma max_column_eq (ws : worksheet) (m r : nat) :
  is_Some (ws !! (r, m)) →
  (∀ r c, is_Some (ws !! (r, c)) → (c ≤ m)%nat) → max_column ws = m.
Proof.
  intros Hm H. apply Nat.le_antisymm.
  - destruct (decide (ws = ∅)) as [->|He].
    + rewrite lookup_empty in Hm. by destruct Hm.
    + destruct (max_column_attained ws He) as [r' Hr']. by apply (H r').
  - by apply (max_column_ge _ r).
Qed.

(** Cells set inside the dimensions of a sheet leave the dimensions as
    they are. *)
Lemma dimensions_put_cells (row : nat) (xs : list value) (ws : worksheet) :
  (1 ≤ row ≤ max_row ws)%nat → (length xs ≤ max_column ws)%nat →
  max_row (put_cells row 1 xs ws) = max_row ws
  ∧ max_column (put_cells row 1 xs ws) = max_column ws.
Proof.
  intros Hrow Hlen. destruct xs as [|x xs]; [done|].
  assert (∀ r c, is_Some (put_cells row 1 (x :: xs) ws !! (r, c)) →
            (r ≤ max_row ws ∧ c ≤ max_column ws)%nat) as Hin.
  { intros r c. rewrite lookup_put_cells. case_decide.
    - intros _. lia.
    - intros H'. split; [by apply (max_row_ge _ _ c)|by apply (max_column_ge _ r)]. }
  destruct (decide (ws = ∅)) as [->|He].
  - rewrite max_row_empty in *. change (max_column ∅) with 1%nat in *.
    assert (row = 1%nat) as -> by lia.
    destruct xs; [|simpl in Hlen; lia].
    assert (is_Some (put_cells 1 1 [x] (∅ : worksheet) !! (1%nat, 1%nat)))
      as Hx by (rewrite lookup_put_cells; by rewrite decide_True by (simpl; lia)).
    split; [apply (max_row_eq _ _ 1%nat)|apply (max_column_eq _ 1%nat 1%nat)];
      try done.
    + intros r c Hrc. apply Hin in Hrc. lia.
    + intros r c Hrc. apply Hin in Hrc. lia.
  - destruct (max_row_attained ws He) as [c Hc].
    destruct (max_column_attained ws He) as [r Hr].
    assert (∀ k, is_Some (ws !! k) →
              is_Some (put_cells row 1 (x :: xs) ws !! k)) as Hkeep.
    { intros [r' c'] H'. rewrite lookup_put_cells. case_decide; [|done].
      apply lookup_lt_is_Some. lia. }
    split.
    + apply (max_row_eq _ _ c); [by apply Hkeep|]. intros r' c' H'.
      by apply Hin in H' as [? ?].
    + apply (max_column_eq _ _ r); [by apply Hkeep|]. intros r' c' H'.
      by apply Hin in H' as [? ?].
Qed.

(** ** Erasing *)

Lemma for_each_erase_row (row column n : nat) (ws : worksheet) :
  (1 ≤ row)%nat → (1 ≤ column)%nat →
  for_each (seq column n) (λ column, set_cell_value row column VNone) ws
  = Ok ((), put_cells row column (replicate n VNone) ws).
Proof.
  intros Hrow. revert column ws. induction n as [|n IH]; intros column ws Hc.
  - done.
  - simpl. unfold mbind, sheet_bind, set_cell_value.
    destruct row; [lia|]. destruct column; [lia|]. simpl. apply IH. lia.
Qed.

Lemma for_each_erase_rows (row n : nat) (ws : worksheet) :
  (1 ≤ row)%nat → (row + n ≤ max_row ws + 1)%nat →
  for_each (seq row n)
    (λ row, width ← read max_column;
            for_each (py_range 1 (width + 1))
              (λ column, set_cell_value row column VNone)) ws
  = Ok ((), put_rows row (replicate n (replicate (max_column ws) VNone)) ws).
Proof.
  revert row ws. induction n as [|n IH]; intros row ws Hrow Hn; [done|].
  cbn [seq for_each replicate put_rows].
  unfold mbind at 1. unfold sheet_bind.
  unfold mbind at 1. unfold sheet_bind, read.
  unfold py_range. replace (max_column ws + 1 - 1)%nat with (max_column ws) by lia.
  rewrite for_each_erase_row by lia.
  destruct (dimensions_put_cells row (replicate (max_column ws) VNone) ws)
    as [Hr Hc]; [lia|by rewrite length_replicate|].
  rewrite IH by lia. by rewrite Hc.
Qed.

Lemma erase_extra_records_ok (row : nat) (ws : worksheet) :
  (1 ≤ row)%nat →
  WorksheetWriter._erase_extra_records row ws = Ok ((), erased row ws).
Proof.
  intros Hrow.
  unfold WorksheetWriter._erase_extra_records, erased, mbind, sheet_bind, read.
  unfold py_range.
  destruct (decide (max_row ws + 1 - row = 0)%nat) as [->|Hn]; [done|].
  apply for_each_erase_rows; lia.
Qed.

Lemma lookup_erased (row : nat) (ws : worksheet) (r c : nat) :
  erased row ws !! (r, c)
  = if decide ((row ≤ r ≤ max_row ws)%nat ∧ (1 ≤ c ≤ max_column ws)%nat)
    then Some VNone else ws !! (r, c).
Proof.
  unfold erased. rewrite lookup_put_rows.
  destruct (replicate _ _ !! (r - row)%nat) as [xs|] eqn:E.
  - apply lookup_replicate in E as [-> Hlt]. rewrite length_replicate.
    repeat case_decide; try lia; [|done].
    apply lookup_replicate_2. lia.
  - apply lookup_replicate_None in E. by rewrite decide_False by lia.
Qed.

Lemma erased_only_cell (row : nat) (r c : nat) :
  (1 ≤ row)%nat → is_Some (erased row ∅ !! (r, c)) → r = 1%nat ∧ c = 1%nat.
Proof.
  intros Hrow. rewrite lookup_erased, max_row_empty.
  change (max_column ∅) with 1%nat. case_decide; [lia|].
  rewrite lookup_empty. by intros [].
Qed.

Lemma max_row_erased (row : nat) (ws : worksheet) :
  (1 ≤ row)%nat → max_row (erased row ws) = max_row ws.
Proof.
  intros Hrow. destruct (decide (ws = ∅)) as [->|He].
  - destruct (decide (erased row ∅ = ∅)) as [->|Hne]; [done|].
    destruct (max_row_attained _ Hne) as [c Hc].
    by apply erased_only_cell in Hc as [-> _].
  - destruct (max_row_attained ws He) as [c Hc].
    apply (max_row_eq _ _ c).
    + rewrite lookup_erased. by case_decide.
    + intros r c'. rewrite lookup_erased. case_decide; [lia|apply max_row_ge].
Qed.

Lemma max_column_erased (row : nat) (ws : worksheet) :
  (1 ≤ row)%nat → max_column (erased row ws) = max_column ws.
Proof.
  intros Hrow. destruct (decide (ws = ∅)) as [->|He].
  - destruct (decide (erased row ∅ = ∅)) as [->|Hne]; [done|].
    destruct (max_column_attained _ Hne) as [r Hr].
    by apply erased_only_cell in Hr as [_ ->].
  - destruct (max_column_attained ws He) as [r Hr].
    apply (max_column_eq _ _ r).
    + rewrite lookup_erased. by case_decide.
    + intros r' c. rewrite lookup_erased. case_decide; [lia|apply max_column_ge].
Qed.

(** X1.  [_erase_extra_records row], for a row from 1 on, returns, and
    afterwards every cell on the rows from [row] to the last one, in the
    columns from 1 to the last one, holds [None]; every other cell is as
    it was, and so are [max_row] and [max_column]. *)
Theorem erase_extra_records_spec (row : nat) (ws : worksheet) :
  (1 ≤ row)%nat →
  ∃ ws' : worksheet,
    WorksheetWriter._erase_extra_records row ws = Ok ((), ws')
    ∧ (∀ r c : nat,
         ws' !! (r, c)
         = if decide ((row ≤ r ≤ max_row ws)%nat ∧ (1 ≤ c ≤ max_column ws)%nat)
           then Some VNone else ws !! (r, c))
    ∧ max_row ws' = max_row ws
    ∧ max_column ws' = max_column ws.
Proof.
  intros Hrow. exists (erased row ws). split_and!.
  - by apply erase_extra_records_ok.
  - apply lookup_erased.
  - by apply max_row_erased.
  - by apply max_column_erased.
Qed.

Lemma erase_extra_records_spec_witness :
  ∃ ws' : worksheet,
    WorksheetWriter._erase_extra_records 4 selic_sheet = Ok ((), ws')
    ∧ (∀ r c : nat,
         ws' !! (r, c)
         = if decide ((4 ≤ r ≤ max_row selic_sheet)%nat
                      ∧ (1 ≤ c ≤ max_column selic_sheet)%nat)
           then Some VNone else selic_sheet !! (r, c))
    ∧ max_row ws' = max_row selic_sheet
    ∧ max_column ws' = max_column selic_sheet.
Proof. apply (erase_extra_records_spec 4 selic_sheet). lia. Defined.

(** ** The answers of the row locators *)

Lemma date_trichotomy (a b : date) : a = b ∨ date_lt a b ∨ date_lt b a.
Proof.
  destruct (date_eqb a b) eqn:E; [left; by apply date_eqb_eq|right].
  destruct a as [y m dd], b as [y' m' dd'].
  unfold date_lt, date_ltb, date_eqb in *. cbn [year month day] in *. lia.
Qed.

Lemma py_range_down_cons (top : nat) :
  (1 ≤ top)%nat → py_range_down (S top) 1 = S top :: py_range_down top 1.
Proof.
  intros H. rewrite (py_range_down_split (S top) (S top) 1) by lia.
  rewrite py_range_down_nil by lia. simpl. by rewrite Nat.sub_0_r.
Qed.

Section locator_cases.
Context (keyed : worksheet → nat → date → Prop).
Context (fault : worksheet → nat → exn → Prop).
Context (body : date → nat → sheet_op (option nat)).
Context (body_keyed : ∀ first_date ws row d,
  (1 ≤ row)%nat → keyed ws row d →
  body first_date row ws = Ok (verdict first_date d row, ws)).
Context (body_fault : ∀ first_date ws row e,
  (1 ≤ row)%nat → fault ws row e → body first_date row ws = Raise e).
Context (keyed_or_fault : ∀ ws row,
  (∃ d, keyed ws row d) ∨ (∃ e, fault ws row e)).

Let locate (first_date : date) : sheet_op nat :=
  top ← read max_row;
  for_else (py_range_down top 1) (body first_date) (mret 1%nat).

Lemma locate_fault first_date ws e :
  faulted keyed fault first_date ws e → locate first_date ws = Raise e.
Proof.
  intros (r & Hr & Hf & Habove).
  unfold locate, mbind, sheet_bind, read.
  rewrite (py_range_down_split (max_row ws) r 1) by lia.
  rewrite (locate_above keyed body body_keyed) by done.
  simpl. unfold mbind, sheet_bind. by rewrite (body_fault _ _ _ e) by (done || lia).
Qed.

Lemma locate_located first_date ws r :
  located keyed first_date ws r → locate first_date ws = Ok (r, ws).
Proof.
  intros [[-> H]|[(Hr & Hk & H)|(Hr & (d & Hk & Hlt) & H)]].
  - by apply (locate_none keyed body body_keyed).
  - by apply (locate_equal keyed body body_keyed).
  - replace r with (r - 1 + 1)%nat at 1 by lia.
    apply (locate_earlier keyed body body_keyed _ _ _ d); (done || lia).
Qed.

Lemma locate_cases_from first_date ws top :
  (top ≤ max_row ws)%nat →
  later_above keyed first_date ws top →
  (∃ r, located keyed first_date ws r)
  ∨ (∃ e, faulted keyed fault first_date ws e).
Proof.
  induction top as [|top IH]; intros Htop Habove.
  - left. exists 1%nat. left. split; [done|].
    intros r' Hr'. apply Habove. lia.
  - destruct (decide (top = 0)%nat) as [->|Hpos].
    { left. exists 1%nat. left. split; [done|]. done. }
    destruct (keyed_or_fault ws (S top)) as [[d Hk]|[e Hf]].
    + destruct (date_trichotomy d first_date) as [->|[Hlt|Hlt]].
      * left. exists (S top). right; left. split_and!; (done || lia).
      * left. exists (S (S top)). right; right. split; [lia|].
        replace (S (S top) - 1)%nat with (S top) by lia. split; [by exists d|done].
      * apply IH; [lia|]. intros r' Hr'.
        destruct (decide (r' = S top)) as [->|Hne]; [by exists d|].
        apply Habove. lia.
    + right. exists e, (S top). split_and!; (done || lia).
Qed.

Lemma locate_cases first_date ws :
  (∃ r, located keyed first_date ws r)
  ∨ (∃ e, faulted keyed fault first_date ws e).
Proof.
  apply (locate_cases_from first_date ws (max_row ws)); [done|].
  intros r' Hr'. lia.
Qed.

Lemma locate_ok_iff first_date ws r ws' :
  locate first_date ws = Ok (r, ws')
  ↔ ws' = ws ∧ located keyed first_date ws r.
Proof.
  split.
  - intros H. destruct (locate_cases first_date ws) as [[r0 H0]|[e H0]].
    + rewrite (locate_located _ _ _ H0) in H. by injection H as <- <-.
    + by rewrite (locate_fault _ _ _ H0) in H.
  - intros [-> H]. by apply locate_located.
Qed.

Lemma locate_raise_iff first_date ws e :
  locate first_date ws = Raise e ↔ faulted keyed fault first_date ws e.
Proof.
  split; [|apply locate_fault].
  intros H. destruct (locate_cases first_date ws) as [[r0 H0]|[e0 H0]].
  - by rewrite (locate_located _ _ _ H0) in H.
  - rewrite (locate_fault _ _ _ H0) in H. by injection H as <-.
Qed.

End locator_cases.

Lemma date_body_fault first_date ws row e :
  (1 ≤ row)%nat → date_fault ws row e →
  (v ← cell_value row 1;
   date_on_cell ← lift (value_date v);
   if date_eqb date_on_cell first_date then mret (Some row)
   else if date_ltb date_on_cell first_date then mret (Some (row + 1)%nat)
   else mret None) ws
  = Raise e.
Proof.
  intros Hrow [-> Hno]. unfold mbind, sheet_bind, cell_value.
  rewrite (proj2 (Nat.ltb_ge _ _)) by lia. simpl.
  destruct (ws !! (row, 1%nat)) as [[]|] eqn:E; try done.
  by destruct (Hno d t).
Qed.

Lemma date_keyed_or_fault (ws : worksheet) (row : nat) :
  (∃ d, date_key ws row d) ∨ (∃ e, date_fault ws row e).
Proof.
  destruct (ws !! (row, 1%nat)) as [v|] eqn:E.
  - destruct v as [| | | | |d t|];
      try (right; exists AttributeError; split; [done|]; intros ??; congruence).
    left. exists d, t. done.
  - right. exists AttributeError. split; [done|]. intros ??. congruence.
Qed.

Lemma month_body_fault first_date ws row e :
  (1 ≤ row)%nat → month_fault ws row e →
  (year ← cell_value row 1;
   month ← cell_value row 2;
   date_on_cell ← lift (IpcaWriter.date_on_cell year month);
   if date_eqb date_on_cell first_date then mret (Some row)
   else if date_ltb date_on_cell first_date then mret (Some (row + 1)%nat)
   else mret None) ws
  = Raise e.
Proof.
  intros Hrow. unfold month_fault, cellv, mbind, sheet_bind, cell_value.
  rewrite (proj2 (Nat.ltb_ge _ _)) by lia. simpl.
  destruct (ws !! (row, 1%nat)) as [v1|] eqn:E1.
  - destruct (ws !! (row, 2%nat)) as [v2|] eqn:E2; simpl.
    + destruct v1 as [|y| | | | |]; try (intros ->; done).
      destruct v2 as [|m| | | | |]; try (intros ->; done).
      unfold lift, IpcaWriter.date_on_cell, first_of_month.
      destruct (fits_c_int y && fits_c_int m); cbn [negb]; [|by intros ->].
      intros [-> Hno].
      destruct (_ && _) eqn:Eb; [|done]. exfalso. apply Hno. lia.
    + destruct v1 as [|y| | | | |]; try (intros ->; done).
  - rewrite lookup_insert_ne by congruence.
    simpl. intros ->. by destruct (ws !! (row, 2%nat)).
Qed.

Lemma month_keyed_or_fault (ws : worksheet) (row : nat) :
  (∃ d, month_key ws row d) ∨ (∃ e, month_fault ws row e).
Proof.
  unfold month_fault, month_key, cellv.
  destruct (ws !! (row, 1%nat)) as [v1|] eqn:E1;
    [|right; by exists TypeError].
  destruct (ws !! (row, 2%nat)) as [v2|] eqn:E2; simpl.
  - destruct v1 as [|y| | | | |]; try (right; by exists TypeError).
    destruct v2 as [|m| | | | |]; try (right; by exists TypeError).
    destruct (decide (1 ≤ y ≤ 9999 ∧ 1 ≤ m ≤ 12)) as [Hin|Hout].
    + left. exists (Date y m 1). cbn [year month day]. split_and!; (done || lia).
    + right. destruct (fits_c_int y && fits_c_int m);
        [by exists ValueError|by exists OverflowError].
  - right. exists TypeError. by destruct v1.
Qed.

(** X2.  The date-keyed locator returns row [r] exactly when the sheet
    is laid out for that answer: the rows after the answered one hold
    later dates in column 1, and [r] is 1 with no other data row, or the
    row holding [first_date], or the row after one holding an earlier
    date.  It leaves the sheet as it was. *)
Theorem get_first_row_answer (first_date : date) (ws ws' : worksheet)
    (r : nat) :
  WorksheetWriter._get_first_row first_date ws = Ok (r, ws')
  ↔ ws' = ws ∧ located date_key first_date ws r.
Proof.
  apply (locate_ok_iff date_key date_fault _ date_body date_body_fault
           date_keyed_or_fault).
Qed.

(** X3.  The date-keyed locator raises exactly when the downward scan
    meets, after rows with later dates only, a data row whose first cell
    holds no [datetime]; the exception is then [AttributeError]. *)
Theorem get_first_row_raises (first_date : date) (ws : worksheet) (e : exn) :
  WorksheetWriter._get_first_row first_date ws = Raise e
  ↔ e = AttributeError
    ∧ ∃ r, (2 ≤ r ≤ max_row ws)%nat
           ∧ (∀ d t, ws !! (r, 1%nat) ≠ Some (VDatetime d t))
           ∧ later_above date_key first_date ws r.
Proof.
  rewrite (locate_raise_iff date_key date_fault _ date_body date_body_fault
             date_keyed_or_fault).
  unfold faulted, date_fault. split.
  - intros (r & Hr & [-> Hno] & H). split; [done|]. by exists r.
  - intros [-> (r & Hr & Hno & H)]. by exists r.
Qed.

(** X4.  The IPCA locator returns row [r] exactly when the sheet is laid
    out for that answer, the date of a row being the first day of the
    year and month in its columns 1 and 2; it leaves the sheet as it
    was. *)
Theorem ipca_first_row_answer (first_date : date) (ws ws' : worksheet)
    (r : nat) :
  IpcaWriter._get_first_row first_date ws = Ok (r, ws')
  ↔ ws' = ws ∧ located month_key first_date ws r.
Proof.
  apply (locate_ok_iff month_key month_fault _ month_body month_body_fault
           month_keyed_or_fault).
Qed.

(** X5.  The IPCA locator raises exactly when the downward scan meets,
    after rows with later months only, a data row it cannot read:
    [TypeError] when one of the first two cells is no integer,
    [ValueError] when the two integers are no year and month. *)
Theorem ipca_first_row_raises (first_date : date) (ws : worksheet) (e : exn) :
  IpcaWriter._get_first_row first_date ws = Raise e
  ↔ ∃ r, (2 ≤ r ≤ max_row ws)%nat
         ∧ month_fault ws r e
         ∧ later_above month_key first_date ws r.
Proof.
  apply (locate_raise_iff month_key month_fault _ month_body month_body_fault
           month_keyed_or_fault).
Qed.

(** ** Writing the records, in general *)

Lemma lookup_beyond (ws : worksheet) (r c : nat) :
  (max_row ws < r)%nat ∨ (max_column ws < c)%nat → ws !! (r, c) = None.
Proof.
  intros H. destruct (ws !! (r, c)) as [v|] eqn:E; [|done].
  assert (is_Some (ws !! (r, c))) as Hs by (by eexists).
  pose proof (max_row_ge _ _ _ Hs). pose proof (max_column_ge _ _ _ Hs). lia.
Qed.

Lemma cellv_erased (row : nat) (ws : worksheet) (r c : nat) :
  (row ≤ r)%nat → (1 ≤ c)%nat → cellv (erased row ws) r c = VNone.
Proof.
  intros Hr Hc. unfold cellv. rewrite lookup_erased. case_decide as H; [done|].
  rewrite lookup_beyond; [done|]. lia.
Qed.

Lemma lookup_erased_above (row : nat) (ws : worksheet) (r c : nat) :
  (r < row)%nat → erased row ws !! (r, c) = ws !! (r, c).
Proof. intros H. rewrite lookup_erased. by rewrite decide_False by lia. Qed.

Lemma lookup_put_rows_above (row : nat) (rows : list (list value))
    (ws : worksheet) (r c : nat) :
  (r < row)%nat → put_rows row rows ws !! (r, c) = ws !! (r, c).
Proof.
  intros H. rewrite lookup_put_rows.
  destruct (rows !! (r - row)%nat); [|done]. by rewrite decide_False by lia.
Qed.

Lemma lookup_put_rows_at (row : nat) (rows : list (list value))
    (ws : worksheet) (i j : nat) (xs : list value) (x : value) :
  rows !! i = Some xs → xs !! j = Some x →
  put_rows row rows ws !! ((row + i)%nat, (1 + j)%nat) = Some x.
Proof.
  intros Hi Hj. rewrite lookup_put_rows.
  replace (row + i - row)%nat with i by lia. rewrite Hi.
  apply lookup_lt_Some in Hj as Hlt. rewrite decide_True by lia.
  by replace (1 + j - 1)%nat with j by lia.
Qed.

Lemma lookup_put_rows_first (row : nat) (rows : list (list value))
    (ws : worksheet) (i : nat) (x : value) (xs : list value) :
  rows !! i = Some (x :: xs) →
  put_rows row rows ws !! ((row + i)%nat, 1%nat) = Some x.
Proof.
  intros Hi. by apply (lookup_put_rows_at row rows ws i 0 (x :: xs) x).
Qed.

(** The writer on a non-empty record list, whatever the locator answers. *)
Lemma write_records_written empty_exn self record records rows ws first_row :
  get_first_row self (rec_date record) ws = Ok (first_row, ws) →
  (1 ≤ first_row)%nat →
  Forall2 (formats self) (record :: records) rows →
  WorksheetWriter._write_records empty_exn self (record :: records) ws
  = Ok ((), written self first_row rows ws).
Proof.
  intros Hloc Hrow Hrows. unfold WorksheetWriter._write_records, written.
  assert (length rows = S (length records)) as Hlen.
  { apply Forall2_length in Hrows. simpl in Hrows. lia. }
  unfold mbind at 1. unfold sheet_bind. rewrite Hloc.
  unfold mbind at 1. unfold sheet_bind.
  destruct (first_row =? 1)%nat eqn:E.
  - unfold mbind at 1. unfold sheet_bind. unfold WorksheetWriter._write_headers.
    rewrite write_cells_ok by lia.
    unfold mret at 1. unfold sheet_ret.
    unfold mbind at 1. unfold sheet_bind.
    rewrite (write_rows_ok _ _ _ _ rows) by (done || lia).
    change (length (record :: records)) with (S (length records)). cbv iota.
    rewrite erase_extra_records_ok by lia.
    by replace (2 + length records + 1)%nat with (2 + length rows)%nat by lia.
  - apply Nat.eqb_neq in E.
    unfold mret at 1. unfold sheet_ret.
    unfold mbind at 1. unfold sheet_bind.
    rewrite (write_rows_ok _ _ _ _ rows) by (done || lia).
    change (length (record :: records)) with (S (length records)). cbv iota.
    rewrite erase_extra_records_ok by lia.
    by replace (first_row + length records + 1)%nat
      with (first_row + length rows)%nat by lia.
Qed.

Lemma write_rows_formats self row bound records ws o ws' :
  WorksheetWriter.write_rows self row bound records ws = Ok (o, ws') →
  ∃ rows, Forall2 (formats self) records rows.
Proof.
  revert row bound ws. induction records as [|record records IH];
    intros row bound ws H.
  - exists []. constructor.
  - simpl in H. unfold mbind at 1 in H. unfold sheet_bind, lift in H.
    destruct (format_record self record) as [xs|] eqn:Ex; [|done].
    unfold mbind at 1 in H. unfold sheet_bind in H.
    destruct (write_cells row 1 xs ws) as [[[] ws1]|]; [|done].
    apply IH in H as [rows Hrows]. exists (xs :: rows). by constructor.
Qed.

(** What a successful write of a non-empty record list went through, for
    a writer whose locator leaves the sheet as it is. *)
Lemma write_records_inv empty_exn self record records ws ws' :
  (∀ first_date ws r ws',
     get_first_row self first_date ws = Ok (r, ws') →
     ws' = ws ∧ (1 ≤ r)%nat) →
  WorksheetWriter._write_records empty_exn self (record :: records) ws
  = Ok ((), ws') →
  ∃ first_row rows,
    get_first_row self (rec_date record) ws = Ok (first_row, ws)
    ∧ (1 ≤ first_row)%nat
    ∧ Forall2 (formats self) (record :: records) rows
    ∧ ws' = written self first_row rows ws.
Proof.
  intros Hself H.
  destruct (get_first_row self (rec_date record) ws) as [[r ws1]|e] eqn:Hloc.
  2:{ unfold WorksheetWriter._write_records in H.
      unfold mbind at 1 in H. unfold sheet_bind in H. by rewrite Hloc in H. }
  destruct (Hself _ _ _ _ Hloc) as [-> Hr].
  assert (∃ rows, Forall2 (formats self) (record :: records) rows)
    as [rows Hrows].
  { unfold WorksheetWriter._write_records in H.
    unfold mbind at 1 in H. unfold sheet_bind in H. rewrite Hloc in H.
    unfold mbind at 1 in H. unfold sheet_bind in H.
    match type of H with
    | match ?m with _ => _ end = _ => destruct m as [[r2 ws2]|]; [|done]
    end.
    unfold mbind at 1 in H. unfold sheet_bind in H.
    destruct (WorksheetWriter.write_rows self r2 None (record :: records) ws2)
      as [[o ws3]|] eqn:Hw; [|done].
    by apply write_rows_formats in Hw. }
  exists r, rows. split_and!; try done.
  rewrite (write_records_written _ _ _ _ rows _ r) in H by done.
  by injection H as <-.
Qed.

Lemma located_positive keyed first_date ws r :
  located keyed first_date ws r → (1 ≤ r)%nat.
Proof. intros [[-> _]|[[? _]|[? _]]]; lia. Qed.

Lemma date_keyed_locator self first_date ws r ws' :
  self ∈ [Selic; Cdi; Tr] →
  get_first_row self first_date ws = Ok (r, ws') →
  ws' = ws ∧ (1 ≤ r)%nat.
Proof.
  intros Hself. rewrite (date_keyed_first_row _ Hself).
  intros [-> H]%(locate_ok_iff date_key date_fault _ date_body date_body_fault
                   date_keyed_or_fault).
  split; [done|]. by apply located_positive in H.
Qed.

Lemma ipca_locator first_date ws r ws' :
  get_first_row Ipca first_date ws = Ok (r, ws') →
  ws' = ws ∧ (1 ≤ r)%nat.
Proof.
  intros [-> H]%(locate_ok_iff month_key month_fault _ month_body
                   month_body_fault month_keyed_or_fault).
  split; [done|]. by apply located_positive in H.
Qed.

(** X6.  Writing from a located row.  When the locator answers a row
    after the headers, the writer returns; the rows before the answered
    one are as they were, the formatted records stand on consecutive rows
    from the answered one, and every cell after the last written row, in
    any column from 1 on, reads [None]: what the sheet held there is
    gone. *)
Theorem write_truncates (empty_exn : exn) (self : writer)
    (record : IndicatorRecord) (records : list IndicatorRecord)
    (rows : list (list value)) (ws : worksheet) (first_row : nat) :
  get_first_row self (rec_date record) ws = Ok (first_row, ws) →
  (2 ≤ first_row)%nat →
  Forall2 (formats self) (record :: records) rows →
  ∃ ws' : worksheet,
    WorksheetWriter._write_records empty_exn self (record :: records) ws
    = Ok ((), ws')
    ∧ (∀ r c : nat, (r < first_row)%nat → ws' !! (r, c) = ws !! (r, c))
    ∧ (∀ (i j : nat) xs x, rows !! i = Some xs → xs !! j = Some x →
         ws' !! ((first_row + i)%nat, (1 + j)%nat) = Some x)
    ∧ (∀ r c : nat, (first_row + length rows ≤ r)%nat → (1 ≤ c)%nat →
         cellv ws' r c = VNone).
Proof.
  intros Hloc Hrow Hrows. exists (written self first_row rows ws).
  split; [apply write_records_written; (done || lia)|].
  unfold written. rewrite (proj2 (Nat.eqb_neq first_row 1)) by lia.
  split_and!.
  - intros r c Hr. rewrite lookup_erased_above by lia.
    by apply lookup_put_rows_above.
  - intros i j xs x Hi Hj. apply lookup_lt_Some in Hi as Hlt.
    rewrite lookup_erased_above by lia. by apply (lookup_put_rows_at _ _ _ _ _ xs).
  - intros r c Hr Hc. by apply cellv_erased.
Qed.

Lemma write_truncates_witness :
  ∃ ws' : worksheet,
    WorksheetWriter._write_records IndexError Selic
      [Build_IndicatorRecord (Date 2024 1 3) (Dec 65 (-3)) None] selic_sheet
    = Ok ((), ws')
    ∧ (∀ r c : nat, (r < 3)%nat → ws' !! (r, c) = selic_sheet !! (r, c))
    ∧ (∀ (i j : nat) xs x,
         [[VDate (Date 2024 1 3); VDec (Dec 65 (-3));
           VDec (Dec 100065000 (-8))]] !! i = Some xs →
         xs !! j = Some x →
         ws' !! ((3 + i)%nat, (1 + j)%nat) = Some x)
    ∧ (∀ r c : nat, (3 + 1 ≤ r)%nat → (1 ≤ c)%nat → cellv ws' r c = VNone).
Proof.
  apply (write_truncates IndexError Selic
           (Build_IndicatorRecord (Date 2024 1 3) (Dec 65 (-3)) None) []
           [[VDate (Date 2024 1 3); VDec (Dec 65 (-3));
             VDec (Dec 100065000 (-8))]] selic_sheet 3).
  - vm_compute. reflexivity.
  - lia.
  - repeat constructor; vm_compute; reflexivity.
Defined.

(** X7.  Writing from scratch.  When the locator answers 1, the writer
    returns; the header labels stand on row 1 from column 1, the
    formatted records on consecutive rows from row 2, and every cell after
    the last written row, in any column from 1 on, reads [None]. *)
Theorem write_from_scratch (empty_exn : exn) (self : writer)
    (record : IndicatorRecord) (records : list IndicatorRecord)
    (rows : list (list value)) (ws : worksheet) :
  get_first_row self (rec_date record) ws = Ok (1%nat, ws) →
  Forall2 (formats self) (record :: records) rows →
  ∃ ws' : worksheet,
    WorksheetWriter._write_records empty_exn self (record :: records) ws
    = Ok ((), ws')
    ∧ (∀ (j : nat) h, get_headers self !! j = Some h →
         ws' !! (1%nat, (1 + j)%nat) = Some (VStr h))
    ∧ (∀ c : nat, (length (get_headers self) < c)%nat →
         ws' !! (1%nat, c) = ws !! (1%nat, c))
    ∧ (∀ (i j : nat) xs x, rows !! i = Some xs → xs !! j = Some x →
         ws' !! ((2 + i)%nat, (1 + j)%nat) = Some x)
    ∧ (∀ r c : nat, (2 + length rows ≤ r)%nat → (1 ≤ c)%nat →
         cellv ws' r c = VNone).
Proof.
  intros Hloc Hrows. exists (written self 1 rows ws).
  split; [apply write_records_written; (done || lia)|].
  unfold written. change (1 =? 1)%nat with true. cbv iota.
  split_and!.
  - intros j h Hj. rewrite lookup_erased_above by lia.
    rewrite lookup_put_rows_above by lia. rewrite lookup_put_cells.
    apply lookup_lt_Some in Hj as Hlt.
    rewrite length_fmap, decide_True by lia.
    replace (1 + j - 1)%nat with j by lia. by rewrite list_lookup_fmap, Hj.
  - intros c Hc. rewrite lookup_erased_above by lia.
    rewrite lookup_put_rows_above by lia. rewrite lookup_put_cells.
    rewrite length_fmap. by rewrite decide_False by lia.
  - intros i j xs x Hi Hj. apply lookup_lt_Some in Hi as Hlt.
    rewrite lookup_erased_above by lia. by apply (lookup_put_rows_at _ _ _ _ _ xs).
  - intros r c Hr Hc. by apply cellv_erased.
Qed.

Lemma write_from_scratch_witness :
  ∃ ws' : worksheet,
    WorksheetWriter._write_records IndexError Selic
      [Build_IndicatorRecord (Date 2024 1 1) (Dec 65 (-3)) None] selic_sheet
    = Ok ((), ws')
    ∧ (∀ (j : nat) h, get_headers Selic !! j = Some h →
         ws' !! (1%nat, (1 + j)%nat) = Some (VStr h))
    ∧ (∀ c : nat, (length (get_headers Selic) < c)%nat →
         ws' !! (1%nat, c) = selic_sheet !! (1%nat, c))
    ∧ (∀ (i j : nat) xs x,
         [[VDate (Date 2024 1 1); VDec (Dec 65 (-3));
           VDec (Dec 100065000 (-8))]] !! i = Some xs →
         xs !! j = Some x →
         ws' !! ((2 + i)%nat, (1 + j)%nat) = Some x)
    ∧ (∀ r c : nat, (2 + 1 ≤ r)%nat → (1 ≤ c)%nat → cellv ws' r c = VNone).
Proof.
  apply (write_from_scratch IndexError Selic
           (Build_IndicatorRecord (Date 2024 1 1) (Dec 65 (-3)) None) []
           [[VDate (Date 2024 1 1); VDec (Dec 65 (-3));
             VDec (Dec 100065000 (-8))]] selic_sheet).
  - vm_compute. reflexivity.
  - repeat constructor; vm_compute; reflexivity.
Defined.

Lemma put_rows_is_Some (row : nat) (rows : list (list value))
    (ws : worksheet) (r c : nat) :
  is_Some (ws !! (r, c)) → is_Some (put_rows row rows ws !! (r, c)).
Proof.
  intros H. rewrite lookup_put_rows.
  destruct (rows !! (r - row)%nat) as [xs|]; [|done].
  case_decide; [|done]. apply lookup_lt_is_Some. lia.
Qed.

Lemma max_row_put_rows_within (row : nat) (rows : list (list value))
    (ws : worksheet) :
  (2 ≤ max_row ws)%nat → (row + length rows ≤ S (max_row ws))%nat →
  max_row (put_rows row rows ws) = max_row ws.
Proof.
  intros Htop Hrows. apply Nat.le_antisymm.
  - apply max_row_put_rows_le; lia.
  - assert (ws ≠ ∅) as He by (intros ->; rewrite max_row_empty in Htop; lia).
    destruct (max_row_attained ws He) as [c Hc].
    apply (max_row_ge _ _ c). by apply put_rows_is_Some.
Qed.

Lemma max_row_put_rows_beyond (row : nat) (rows : list (list value))
    (ws : worksheet) (xs : list value) :
  (1 ≤ row)%nat → (max_row ws < row + length rows)%nat →
  last rows = Some xs → xs ≠ [] →
  max_row (put_rows row rows ws) = (row + length rows - 1)%nat.
Proof.
  intros Hrow Htop Hlast Hxs.
  assert (rows !! (length rows - 1)%nat = Some xs) as Hi.
  { rewrite last_lookup in Hlast. by rewrite Nat.sub_1_r. }
  apply lookup_lt_Some in Hi as Hlt.
  destruct xs as [|x xs]; [done|].
  apply (max_row_eq _ _ 1%nat).
  - replace (row + length rows - 1)%nat with (row + (length rows - 1))%nat
      by lia.
    rewrite (lookup_put_rows_at _ _ _ _ 0 (x :: xs) x); done.
  - intros r c. rewrite lookup_put_rows.
    destruct (rows !! (r - row)%nat) as [ys|] eqn:E.
    + apply lookup_lt_Some in E. intros _. lia.
    + intros H'%max_row_ge. lia.
Qed.

Lemma writer_rows_three self record xs :
  self ∈ [Selic; Cdi; Ipca; Tr] → formats self record xs →
  ∃ a b c, xs = [a; b; c].
Proof.
  intros H Hx. set_unfold.
  destruct H as [->|[->|[->|[->|[]]]]].
  - destruct (date_keyed_formats Selic record xs) as (a & b & ->); [|done|eauto].
    set_solver.
  - destruct (date_keyed_formats Cdi record xs) as (a & b & ->); [|done|eauto].
    set_solver.
  - apply ipca_formats in Hx as ->. eauto.
  - destruct (date_keyed_formats Tr record xs) as (a & b & ->); [|done|eauto].
    set_solver.
Qed.

Lemma located_after_last (keyed : worksheet → nat → date → Prop)
    (first_date d : date) (ws : worksheet) :
  (2 ≤ max_row ws)%nat → keyed ws (max_row ws) d → date_lt d first_date →
  located keyed first_date ws (max_row ws + 1).
Proof.
  intros Htop Hk Hlt. right; right. split; [lia|].
  replace (max_row ws + 1 - 1)%nat with (max_row ws) by lia.
  split; [by exists d|]. intros r' Hr'. lia.
Qed.

Lemma get_first_row_located self first_date ws r :
  (self ∈ [Selic; Cdi; Tr] ∧ located date_key first_date ws r)
  ∨ (self = Ipca ∧ located month_key first_date ws r) →
  get_first_row self first_date ws = Ok (r, ws).
Proof.
  intros [[Hself H]|[-> H]].
  - rewrite (date_keyed_first_row _ Hself).
    by apply (locate_ok_iff date_key date_fault _ date_body date_body_fault
                date_keyed_or_fault).
  - by apply (locate_ok_iff month_key month_fault _ month_body
                month_body_fault month_keyed_or_fault).
Qed.

Lemma get_first_row_faulted self first_date ws e :
  (self ∈ [Selic; Cdi; Tr] ∧ faulted date_key date_fault first_date ws e)
  ∨ (self = Ipca ∧ faulted month_key month_fault first_date ws e) →
  get_first_row self first_date ws = Raise e.
Proof.
  intros [[Hself H]|[-> H]].
  - rewrite (date_keyed_first_row _ Hself).
    by apply (locate_raise_iff date_key date_fault _ date_body
                date_body_fault date_keyed_or_fault).
  - by apply (locate_raise_iff month_key month_fault _ month_body
                month_body_fault month_keyed_or_fault).
Qed.

Lemma write_records_faulted empty_exn self record records ws e :
  get_first_row self (rec_date record) ws = Raise e →
  WorksheetWriter._write_records empty_exn self (record :: records) ws
  = Raise e.
Proof.
  intros H. unfold WorksheetWriter._write_records.
  unfold mbind at 1. unfold sheet_bind. by rewrite H.
Qed.

Lemma faulted_last_row (keyed : worksheet → nat → date → Prop)
    (fault : worksheet → nat → exn → Prop) (first_date : date)
    (ws : worksheet) (e : exn) :
  (2 ≤ max_row ws)%nat → fault ws (max_row ws) e →
  faulted keyed fault first_date ws e.
Proof.
  intros Htop Hf. exists (max_row ws). split_and!; [lia|lia|done|].
  intros r' Hr'. lia.
Qed.

(** X8.  Appending.  When the last row of the sheet holds a date earlier
    than the first record's (for the IPCA: a year and month whose first
    day is earlier), the writer returns; every cell on the rows of the
    sheet is as it was and the formatted records follow the last row, so
    the sheet grows by as many rows as there are records. *)
Theorem write_appends (empty_exn : exn) (self : writer)
    (record : IndicatorRecord) (records : list IndicatorRecord)
    (rows : list (list value)) (ws : worksheet) (d : date) :
  (self ∈ [Selic; Cdi; Tr] ∧ date_key ws (max_row ws) d)
  ∨ (self = Ipca ∧ month_key ws (max_row ws) d) →
  (2 ≤ max_row ws)%nat →
  date_lt d (rec_date record) →
  Forall2 (formats self) (record :: records) rows →
  ∃ ws' : worksheet,
    WorksheetWriter._write_records empty_exn self (record :: records) ws
    = Ok ((), ws')
    ∧ (∀ r c : nat, (r ≤ max_row ws)%nat → ws' !! (r, c) = ws !! (r, c))
    ∧ (∀ (i j : nat) xs x, rows !! i = Some xs → xs !! j = Some x →
         ws' !! ((max_row ws + 1 + i)%nat, (1 + j)%nat) = Some x)
    ∧ max_row ws' = (max_row ws + length (record :: records))%nat
    ∧ (∀ r c : nat, (max_row ws + length (record :: records) < r)%nat →
         ws' !! (r, c) = None).
Proof.
  intros Hself Htop Hlt Hrows.
  assert (length rows = S (length records)) as Hlen.
  { apply Forall2_length in Hrows. simpl in Hrows. lia. }
  change (length (record :: records)) with (S (length records)).
  exists (put_rows (max_row ws + 1) rows ws).
  assert (max_row (put_rows (max_row ws + 1) rows ws)
          = (max_row ws + S (length records))%nat) as Hmax.
  { destruct (last rows) as [xs|] eqn:Hlast.
    2:{ apply last_None in Hlast. subst rows. done. }
    assert (∃ r, r ∈ record :: records ∧ formats self r xs) as (r0 & _ & Hx).
    { rewrite last_lookup in Hlast.
      destruct (Forall2_lookup_r _ _ _ _ _ Hrows Hlast) as (r0 & Hr0 & Hx).
      exists r0. split; [by eapply list_elem_of_lookup_2|done]. }
    assert (self ∈ [Selic; Cdi; Ipca; Tr]) as Hin.
    { destruct Hself as [[H _]|[-> _]]; [|by do 2 right; left].
      set_unfold. destruct H as [-> | [-> | [-> | [] ] ] ]; tauto. }
    destruct (writer_rows_three _ _ _ Hin Hx) as (a & b & c & ->).
    rewrite (max_row_put_rows_beyond _ _ _ [a; b; c]); (done || lia). }
  split_and!.
  - apply write_records_from; try (done || lia).
    apply get_first_row_located.
    destruct Hself as [[H Hk]|[-> Hk]]; [left|right]; (split; [done|]);
      by apply (located_after_last _ _ d).
  - intros r c Hr. apply lookup_put_rows_above. lia.
  - intros i j xs x Hi Hj. by apply (lookup_put_rows_at _ _ _ _ _ xs).
  - done.
  - intros r c Hr. apply lookup_beyond. left. lia.
Qed.

Lemma write_appends_witness :
  ∃ ws' : worksheet,
    WorksheetWriter._write_records IndexError Selic
      [Build_IndicatorRecord (Date 2024 1 7) (Dec 7 (-2)) None] selic_sheet
    = Ok ((), ws')
    ∧ (∀ r c : nat, (r ≤ max_row selic_sheet)%nat →
         ws' !! (r, c) = selic_sheet !! (r, c))
    ∧ (∀ (i j : nat) xs x,
         [[VDate (Date 2024 1 7); VDec (Dec 7 (-2));
           VDec (Dec 100070000 (-8))]] !! i = Some xs →
         xs !! j = Some x →
         ws' !! ((max_row selic_sheet + 1 + i)%nat, (1 + j)%nat) = Some x)
    ∧ max_row ws' = (max_row selic_sheet + 1)%nat
    ∧ (∀ r c : nat, (max_row selic_sheet + 1 < r)%nat → ws' !! (r, c) = None).
Proof.
  apply (write_appends IndexError Selic
           (Build_IndicatorRecord (Date 2024 1 7) (Dec 7 (-2)) None) []
           [[VDate (Date 2024 1 7); VDec (Dec 7 (-2));
             VDec (Dec 100070000 (-8))]] selic_sheet (Date 2024 1 6)).
  - left. split; [apply list_elem_of_here|]. exists midnight. vm_compute.
    reflexivity.
  - vm_compute. lia.
  - reflexivity.
  - repeat constructor; vm_compute; reflexivity.
Defined.

(** X9.  No records.  When indexing the empty record list raises
    [KeyError], the writer returns with the header labels on row 1 and
    every cell from row 2 on, in any column from 1 on, reading [None];
    when it raises anything else, the writer raises that and writes
    nothing. *)
Theorem write_no_records (empty_exn : exn) (self : writer) (ws : worksheet) :
  (empty_exn = KeyError →
   ∃ ws' : worksheet,
     WorksheetWriter._write_records empty_exn self [] ws = Ok ((), ws')
     ∧ (∀ (j : nat) h, get_headers self !! j = Some h →
          ws' !! (1%nat, (1 + j)%nat) = Some (VStr h))
     ∧ (∀ c : nat, (length (get_headers self) < c)%nat →
          ws' !! (1%nat, c) = ws !! (1%nat, c))
     ∧ (∀ r c : nat, (2 ≤ r)%nat → (1 ≤ c)%nat → cellv ws' r c = VNone))
  ∧ (empty_exn ≠ KeyError →
     WorksheetWriter._write_records empty_exn self [] ws = Raise empty_exn).
Proof.
  split.
  - intros ->. exists (erased 2 (put_cells 1 1 (VStr <$> get_headers self) ws)).
    split_and!.
    + unfold WorksheetWriter._write_records. rewrite decide_True by done.
      unfold mbind at 1. unfold sheet_bind. unfold mret at 1. unfold sheet_ret.
      unfold mbind at 1. unfold sheet_bind.
      change (1 =? 1)%nat with true. cbv iota.
      unfold mbind at 1. unfold sheet_bind. unfold WorksheetWriter._write_headers.
      rewrite write_cells_ok by lia.
      unfold mret at 1. unfold sheet_ret.
      unfold mbind at 1. unfold sheet_bind. simpl.
      apply erase_extra_records_ok. lia.
    + intros j h Hj. rewrite lookup_erased_above by lia.
      rewrite lookup_put_cells. apply lookup_lt_Some in Hj as Hlt.
      rewrite length_fmap, decide_True by lia.
      replace (1 + j - 1)%nat with j by lia. by rewrite list_lookup_fmap, Hj.
    + intros c Hc. rewrite lookup_erased_above by lia.
      rewrite lookup_put_cells, length_fmap. by rewrite decide_False by lia.
    + intros r c Hr Hc. by apply cellv_erased.
  - intros Hne. unfold WorksheetWriter._write_records.
    rewrite decide_False by done. done.
Qed.

Lemma write_unreadable_last_row_aux (empty_exn : exn) (self : writer)
    (record : IndicatorRecord) (records : list IndicatorRecord)
    (ws : worksheet) (e : exn) :
  (self ∈ [Selic; Cdi; Tr] ∧ date_fault ws (max_row ws) e)
  ∨ (self = Ipca ∧ month_fault ws (max_row ws) e) →
  (2 ≤ max_row ws)%nat →
  WorksheetWriter._write_records empty_exn self (record :: records) ws
  = Raise e.
Proof.
  intros Hself Htop. apply write_records_faulted, get_first_row_faulted.
  destruct Hself as [[H Hf]|[-> Hf]]; [left|right]; (split; [done|]);
    by apply faulted_last_row.
Qed.

(** X10.  A last row that cannot be read stops every write.  When the
    sheet has a data row and the key of its last row cannot be read (no
    [datetime] in column 1; for the IPCA no integers in columns 1 and 2,
    or integers that are no year and month), writing a non-empty record
    list raises, whatever the records are: [AttributeError], and for the
    IPCA [TypeError] or [ValueError]. *)
Theorem write_unreadable_last_row (empty_exn : exn) (self : writer)
    (record : IndicatorRecord) (records : list IndicatorRecord)
    (ws : worksheet) (e : exn) :
  (self ∈ [Selic; Cdi; Tr] ∧ date_fault ws (max_row ws) e)
  ∨ (self = Ipca ∧ month_fault ws (max_row ws) e) →
  (2 ≤ max_row ws)%nat →
  WorksheetWriter._write_records empty_exn self (record :: records) ws
  = Raise e.
Proof. apply write_unreadable_last_row_aux. Qed.

Lemma write_unreadable_last_row_witness :
  WorksheetWriter._write_records IndexError Selic
    [Build_IndicatorRecord (Date 2024 1 7) (Dec 7 (-2)) None]
    (<[(7%nat, 1%nat) := VNone]> selic_sheet)
  = Raise AttributeError.
Proof.
  apply (write_unreadable_last_row IndexError Selic _ [] _ AttributeError).
  - left. split; [apply list_elem_of_here|]. split; [reflexivity|].
    intros d t. vm_compute. discriminate.
  - vm_compute. lia.
Defined.

(** ** Writing again *)

Lemma max_row_reload (file : persistence) (ws : worksheet) (c : nat) :
  is_Some (reload file ws !! (max_row ws, c)) →
  max_row (reload file ws) = max_row ws.
Proof.
  intros H. apply (max_row_eq _ _ c); [done|].
  intros r c'. rewrite lookup_reload.
  destruct (ws !! (r, c')) as [v|] eqn:E; [|by intros []].
  intros _. apply (max_row_ge _ _ c'). by rewrite E.
Qed.

(** After a write that stops before the last row of the sheet, the last
    row is still the last one and its first cell is empty. *)
Lemma written_truncated (self : writer) (first_row : nat)
    (x : value) (xs : list value) (rows : list (list value))
    (ws : worksheet) :
  (2 ≤ first_row)%nat →
  (first_row + length ((x :: xs) :: rows) ≤ max_row ws)%nat →
  max_row (written self first_row ((x :: xs) :: rows) ws) = max_row ws
  ∧ written self first_row ((x :: xs) :: rows) ws !! (max_row ws, 1%nat)
    = Some VNone.
Proof.
  intros Hrow Htop. unfold written.
  rewrite (proj2 (Nat.eqb_neq first_row 1)) by lia.
  set (W := put_rows first_row ((x :: xs) :: rows) ws).
  assert (max_row W = max_row ws) as Hmax
    by (apply max_row_put_rows_within; lia).
  split.
  - rewrite max_row_erased by lia. done.
  - rewrite lookup_erased, Hmax. rewrite decide_True; [done|].
    split; [lia|]. split; [lia|].
    apply (max_column_ge W first_row). unfold W.
    pose proof (lookup_put_rows_first first_row ((x :: xs) :: rows) ws 0
                  x xs eq_refl) as H.
    rewrite Nat.add_0_r in H. by rewrite H.
Qed.

(** X11.  A write that ends before the last row of the sheet empties the
    rows after it but leaves them in the sheet, so the last row then has
    an empty key: the next write of a non-empty record list raises, in
    the same session and also on the saved and loaded sheet when the file
    keeps the emptied first cell of that row.  The exception is
    [AttributeError], and [TypeError] for the IPCA. *)
Theorem truncation_blocks_next_write (empty_exn : exn) (self : writer)
    (file : persistence) (record record' : IndicatorRecord)
    (records records' : list IndicatorRecord) (rows : list (list value))
    (ws : worksheet) (first_row : nat) (e : exn) :
  (self ∈ [Selic; Cdi; Tr] ∧ e = AttributeError)
  ∨ (self = Ipca ∧ e = TypeError) →
  get_first_row self (rec_date record) ws = Ok (first_row, ws) →
  (2 ≤ first_row)%nat →
  Forall2 (formats self) (record :: records) rows →
  (first_row + length (record :: records) ≤ max_row ws)%nat →
  ∃ ws' : worksheet,
    WorksheetWriter._write_records empty_exn self (record :: records) ws
    = Ok ((), ws')
    ∧ max_row ws' = max_row ws
    ∧ WorksheetWriter._write_records empty_exn self (record' :: records') ws'
      = Raise e
    ∧ (keeps_empty file (max_row ws, 1%nat) = true →
       WorksheetWriter._write_records empty_exn self (record' :: records')
         (reload file ws') = Raise e).
Proof.
  intros Hself Hloc Hrow Hrows Htop.
  assert (self ∈ [Selic; Cdi; Ipca; Tr]) as Hin.
  { destruct Hself as [[H _]|[-> _]]; [|by do 2 right; left].
    set_unfold. destruct H as [-> | [-> | [-> | [] ] ] ]; tauto. }
  assert (length rows = length (record :: records)) as Hlen
    by (symmetry; by eapply Forall2_length).
  destruct rows as [|xs rows]; [done|].
  assert (∃ a b c, xs = [a; b; c]) as (a & b & c & ->).
  { apply Forall2_cons_1 in Hrows as [Hx _].
    by apply (writer_rows_three self record). }
  destruct (written_truncated self first_row a [b; c] rows ws) as [Hmax Hcell];
    [lia|lia|].
  set (ws' := written self first_row ([a; b; c] :: rows) ws) in *.
  assert (∀ sheet : worksheet,
            max_row sheet = max_row ws →
            sheet !! (max_row ws, 1%nat) = Some VNone →
            WorksheetWriter._write_records empty_exn self (record' :: records')
              sheet = Raise e) as Hraise.
  { intros sheet Hm Hc.
    apply (write_unreadable_last_row_aux empty_exn self record' records' sheet e);
      [|simpl in Htop; lia].
    rewrite Hm.
    destruct Hself as [[H ->]|[-> ->]]; [left|right]; (split; [done|]).
    - split; [done|]. intros d t. by rewrite Hc.
    - unfold month_fault, cellv. by rewrite Hc. }
  exists ws'. split_and!.
  - apply write_records_written; (done || lia).
  - done.
  - by apply Hraise.
  - intros Hkeep.
    assert (reload file ws' !! (max_row ws, 1%nat) = Some VNone) as Hc.
    { rewrite lookup_reload, Hcell. simpl. by rewrite Hkeep. }
    apply Hraise; [|done].
    rewrite <- Hmax. apply (max_row_reload _ _ 1%nat). rewrite Hmax, Hc. done.
Qed.

Lemma truncation_blocks_next_write_witness :
  ∃ ws' : worksheet,
    WorksheetWriter._write_records IndexError Selic
      [Build_IndicatorRecord (Date 2024 1 3) (Dec 65 (-3)) None] selic_sheet
    = Ok ((), ws')
    ∧ max_row ws' = max_row selic_sheet
    ∧ WorksheetWriter._write_records IndexError Selic
        [Build_IndicatorRecord (Date 2024 1 4) (Dec 65 (-3)) None] ws'
      = Raise AttributeError
    ∧ (keeps_empty (Persistence (λ x, x) (λ n, inl n) (λ d, Some d) (λ _, true))
         (max_row selic_sheet, 1%nat) = true →
       WorksheetWriter._write_records IndexError Selic
         [Build_IndicatorRecord (Date 2024 1 4) (Dec 65 (-3)) None]
         (reload (Persistence (λ x, x) (λ n, inl n) (λ d, Some d) (λ _, true)) ws')
       = Raise AttributeError).
Proof.
  apply (truncation_blocks_next_write IndexError Selic
           (Persistence (λ x, x) (λ n, inl n) (λ d, Some d) (λ _, true))
           (Build_IndicatorRecord (Date 2024 1 3) (Dec 65 (-3)) None)
           (Build_IndicatorRecord (Date 2024 1 4) (Dec 65 (-3)) None) [] []
           [[VDate (Date 2024 1 3); VDec (Dec 65 (-3));
             VDec (Dec 100065000 (-8))]] selic_sheet 3 AttributeError).
  - left. split; [apply list_elem_of_here|reflexivity].
  - vm_compute. reflexivity.
  - lia.
  - repeat constructor; vm_compute; reflexivity.
  - vm_compute. lia.
Defined.

(** After a write by a date-keyed writer the sheet has a data row, and
    the first cell of its last row is empty or holds the [date] of a
    record: no [datetime]. *)
Lemma written_last_key (self : writer) (first_row : nat)
    (records : list IndicatorRecord) (rows : list (list value))
    (ws : worksheet) :
  self ∈ [Selic; Cdi; Tr] →
  (1 ≤ first_row)%nat →
  records ≠ [] →
  Forall2 (formats self) records rows →
  let ws' := written self first_row rows ws in
  (2 ≤ max_row ws')%nat ∧ date_fault ws' (max_row ws') AttributeError.
Proof.
  intros Hself Hrow Hne Hrows ws'. unfold ws', written.
  set (start := if (first_row =? 1)%nat then 2%nat else first_row).
  set (base := if (first_row =? 1)%nat then _ else ws).
  assert (2 ≤ start)%nat as Hstart.
  { unfold start. destruct (first_row =? 1)%nat eqn:E; [done|].
    apply Nat.eqb_neq in E. lia. }
  set (W := put_rows start rows base).
  assert (∀ i xs, rows !! i = Some xs →
            ∃ d, W !! ((start + i)%nat, 1%nat) = Some (VDate d)) as Hdates.
  { intros i xs Hi.
    destruct (Forall2_lookup_r _ _ _ _ _ Hrows Hi) as (r0 & _ & Hx).
    destruct (date_keyed_formats self r0 xs Hself Hx) as (a & b & ->).
    exists (rec_date r0). unfold W.
    by apply (lookup_put_rows_first start rows base i _ [a; b]). }
  destruct rows as [|xs0 rows0] eqn:Erows.
  { apply Forall2_nil_inv_r in Hrows. done. }
  rewrite <- Erows in *.
  destruct (Hdates 0%nat xs0) as [d0 Hd0]; [by rewrite Erows|].
  rewrite Nat.add_0_r in Hd0.
  assert (start ≤ max_row W)%nat as Htop.
  { apply (max_row_ge W start 1). by rewrite Hd0. }
  assert (1 ≤ max_column W)%nat as Hwidth.
  { apply (max_column_ge W start 1). by rewrite Hd0. }
  rewrite max_row_erased by lia. split; [lia|]. split; [done|].
  intros d t. rewrite lookup_erased. case_decide as Hin; [done|].
  destruct (rows !! (max_row W - start)%nat) as [xs|] eqn:E.
  - destruct (Hdates _ _ E) as [d' Hd'].
    replace (start + (max_row W - start))%nat with (max_row W) in Hd' by lia.
    by rewrite Hd'.
  - apply lookup_ge_None in E. lia.
Qed.

(** X12.  Two writes in one session.  After the Selic, CDI or TR writer
    has written a non-empty record list on a sheet, writing a non-empty
    record list on that sheet again, before it is saved and loaded,
    raises [AttributeError]: the first cell of the last row holds the
    [date] of a record, or nothing, and neither has the [date()] method
    the locator calls. *)
Theorem second_write_in_session (empty_exn : exn) (self : writer)
    (record record' : IndicatorRecord)
    (records records' : list IndicatorRecord) (ws ws' : worksheet) :
  self ∈ [Selic; Cdi; Tr] →
  WorksheetWriter._write_records empty_exn self (record :: records) ws
  = Ok ((), ws') →
  WorksheetWriter._write_records empty_exn self (record' :: records') ws'
  = Raise AttributeError.
Proof.
  intros Hself Hw.
  apply write_records_inv in Hw as (first_row & rows & _ & Hrow & Hrows & ->);
    [|intros ????; by apply date_keyed_locator].
  destruct (written_last_key self first_row (record :: records) rows ws)
    as [Htop Hf]; try done.
  apply write_unreadable_last_row_aux; [|done]. by left.
Qed.

Lemma second_write_in_session_witness :
  WorksheetWriter._write_records IndexError Selic selic_update
    (put_rows 1 ((VStr <$> get_headers Selic) :: selic_update_rows) ∅)
  = Raise AttributeError.
Proof.
  apply (second_write_in_session IndexError Selic
           (Build_IndicatorRecord (Date 2024 1 4) (Dec 65 (-3)) None)
           (Build_IndicatorRecord (Date 2024 1 4) (Dec 65 (-3)) None)
           [Build_IndicatorRecord (Date 2024 1 5) (Dec 65 (-3)) None;
            Build_IndicatorRecord (Date 2024 1 6) (Dec 7 (-2)) None;
            Build_IndicatorRecord (Date 2024 1 7) (Dec 7 (-2)) None]
           [Build_IndicatorRecord (Date 2024 1 5) (Dec 65 (-3)) None;
            Build_IndicatorRecord (Date 2024 1 6) (Dec 7 (-2)) None;
            Build_IndicatorRecord (Date 2024 1 7) (Dec 7 (-2)) None] ∅).
  - apply list_elem_of_here.
  - vm_compute. reflexivity.
Defined.

(** ** The metadata dictionary and the rows of its sheet *)

Lemma foldl_topmost (ws : worksheet) (k : Z) (top : nat)
    (acc : gmap Z (option date)) :
  foldl (λ acc r, add_entry (the_entry ws r) acc) acc (py_range_down top 1)
    !! k
  = match topmost_entry ws k top with
    | Some v => Some v
    | None => acc !! k
    end.
Proof.
  revert acc. induction top as [|n IH]; intros acc; [done|].
  destruct (decide (n = 0)%nat) as [->|Hn].
  { simpl. destruct (the_entry ws 1) as [[k' v]|]; [|done].
    by rewrite decide_False by lia. }
  rewrite py_range_down_cons by lia. cbn [foldl topmost_entry]. rewrite IH.
  destruct (topmost_entry ws k n) as [v|]; [done|].
  destruct (the_entry ws (S n)) as [[k' v]|]; [|done]. simpl.
  destruct (decide (k' = k)) as [->|Hne].
  - rewrite decide_True by (split; [done|lia]). apply lookup_insert_eq.
  - rewrite decide_False by tauto. by apply lookup_insert_ne.
Qed.

Lemma topmost_entry_None (ws : worksheet) (k : Z) (top : nat) :
  topmost_entry ws k top = None
  ↔ ∀ r v, (2 ≤ r ≤ top)%nat → the_entry ws r ≠ Some (k, v).
Proof.
  induction top as [|n IH]; simpl.
  - split; [|done]. intros _ r v Hr. lia.
  - destruct (topmost_entry ws k n) as [v0|].
    + split; [done|]. intros H. exfalso.
      assert (Some v0 ≠ None) as Hne by done. apply Hne, IH.
      intros r v Hr. apply H. lia.
    + pose proof (proj1 IH eq_refl) as Hbelow.
      destruct (the_entry ws (S n)) as [[k' v']|] eqn:E.
      * case_decide as Hd.
        -- split; [done|]. intros H. destruct Hd as [-> Hn].
           by destruct (H (S n) v' ltac:(lia)).
        -- split; [|done]. intros _ r v Hr.
           destruct (decide (r = S n)) as [->|Hne].
           ++ rewrite E. intros [= -> ->]. apply Hd. split; [done|lia].
           ++ apply Hbelow. lia.
      * split; [|done]. intros _ r v Hr.
        destruct (decide (r = S n)) as [->|Hne]; [by rewrite E|].
        apply Hbelow. lia.
Qed.

Lemma topmost_entry_Some (ws : worksheet) (k : Z) (top : nat)
    (v : option date) :
  topmost_entry ws k top = Some v
  ↔ ∃ r, (2 ≤ r ≤ top)%nat ∧ the_entry ws r = Some (k, v)
         ∧ ∀ r' v', (2 ≤ r' < r)%nat → the_entry ws r' ≠ Some (k, v').
Proof.
  revert v. induction top as [|n IH]; intros v; simpl.
  - split; [done|]. intros (r & Hr & _). lia.
  - destruct (topmost_entry ws k n) as [v0|] eqn:Et.
    + split.
      * intros [= <-]. destruct (proj1 (IH v0) eq_refl) as (r & Hr & He & Hb).
        exists r. split_and!; (done || lia).
      * intros (r & Hr & He & Hb).
        destruct (proj1 (IH v0) eq_refl) as (r0 & Hr0 & He0 & Hb0).
        destruct (decide (r0 < r)%nat) as [Hlt|Hge].
        { by destruct (Hb r0 v0 ltac:(lia)). }
        destruct (decide (r < r0)%nat) as [Hlt|Hge'].
        { by destruct (Hb0 r v ltac:(lia)). }
        assert (r = r0) as -> by lia. rewrite He in He0. by injection He0 as ->.
    + pose proof (proj1 (topmost_entry_None ws k n) Et) as Hbelow.
      destruct (the_entry ws (S n)) as [[k' v']|] eqn:E.
      * case_decide as Hd.
        -- destruct Hd as [-> Hn]. split.
           ++ intros [= <-]. exists (S n). split_and!; [lia|lia|done|].
              intros r' w Hr'. apply Hbelow. lia.
           ++ intros (r & Hr & He & Hb).
              destruct (decide (r = S n)) as [->|Hne].
              ** rewrite E in He. by injection He as ->.
              ** by destruct (Hbelow r v ltac:(lia)).
        -- split; [done|]. intros (r & Hr & He & Hb).
           destruct (decide (r = S n)) as [->|Hne].
           ++ rewrite E in He. injection He as -> ->. destruct Hd. split; [done|lia].
           ++ by destruct (Hbelow r v ltac:(lia)).
      * split; [done|]. intros (r & Hr & He & Hb).
        destruct (decide (r = S n)) as [->|Hne]; [by rewrite E in He|].
        by destruct (Hbelow r v ltac:(lia)).
Qed.

Lemma lookup_loaded (ws : worksheet) (k : Z) :
  loaded ws !! k = topmost_entry ws k (max_row ws).
Proof.
  unfold loaded. rewrite foldl_topmost, lookup_empty.
  by destruct (topmost_entry ws k (max_row ws)).
Qed.

Lemma the_entry_same (ws ws' : worksheet) (row : nat) :
  (∀ r c, cellv ws' r c = cellv ws r c) → the_entry ws' row = the_entry ws row.
Proof. intros H. unfold the_entry. by rewrite (row_entry_same ws ws'). Qed.

Lemma row_entry_the_entry (ws : worksheet) (row : nat) :
  py_int (cellv ws row 1) ≠ Raise ValueError →
  row_entry ws row = Ok (the_entry ws row).
Proof.
  intros H. apply row_entry_ok in H as [e He]. unfold the_entry. by rewrite He.
Qed.

Lemma row_entry_raises (ws : worksheet) (row : nat) (e : exn) :
  row_entry ws row = Raise e →
  e = ValueError ∧ py_int (cellv ws row 1) = Raise ValueError.
Proof.
  unfold row_entry. destruct (py_int (cellv ws row 1)) as [cod|e'] eqn:E; [done|].
  apply py_int_raises in E as [-> | ->]; [done|]. by intros [= <-].
Qed.

(** The load on a sheet whose identifier cells can all be read. *)
Lemma get_indicator_last_date_loaded (ws : worksheet) :
  (∀ r, (2 ≤ r ≤ max_row ws)%nat → py_int (cellv ws r 1) ≠ Raise ValueError) →
  ∃ ws' : worksheet,
    MetadataWriter._get_indicator_last_date ws = Ok (loaded ws, ws')
    ∧ ∀ r c, cellv ws' r c = cellv ws r c.
Proof.
  intros H.
  unfold MetadataWriter._get_indicator_last_date, mbind, sheet_bind, read.
  apply load_rows_ok. intros r Hr%elem_of_py_range_down.
  split; [lia|]. apply row_entry_the_entry, H. lia.
Qed.

Lemma load_rows_raises (rows : list nat) (ws : worksheet) acc (e : exn) :
  (∀ r, r ∈ rows → (1 ≤ r)%nat) →
  MetadataWriter.load_rows rows acc ws = Raise e →
  ∃ r, r ∈ rows ∧ row_entry ws r = Raise e.
Proof.
  revert ws acc. induction rows as [|row rows IH]; intros ws acc H Hl; [done|].
  pose proof (load_row_cases ws row acc (H row ltac:(left))) as Hc.
  simpl in Hl. unfold mbind, sheet_bind in Hl.
  destruct (row_entry ws row) as [e0|e0] eqn:He.
  - destruct Hc as (ws1 & Hl1 & Hv1). rewrite Hl1 in Hl.
    apply IH in Hl as (r & Hr & He'); [|intros r Hr; apply H; by right].
    exists r. split; [by right|]. by rewrite <- (row_entry_same ws ws1).
  - rewrite Hc in Hl. injection Hl as <-. exists row. split; [left|done].
Qed.

(** X13.  Loading the metadata sheet returns exactly when no identifier
    cell on the rows from 2 to the last is a string that [int] cannot
    parse; otherwise it raises, and what it raises is [ValueError].  It
    changes no value a cell reads as. *)
Theorem metadata_load_returns (ws : worksheet) :
  ((∃ dates ws', MetadataWriter._get_indicator_last_date ws = Ok (dates, ws'))
   ↔ ∀ r, (2 ≤ r ≤ max_row ws)%nat →
          py_int (cellv ws r 1) ≠ Raise ValueError)
  ∧ (∀ e, MetadataWriter._get_indicator_last_date ws = Raise e →
          e = ValueError)
  ∧ (∀ dates ws', MetadataWriter._get_indicator_last_date ws = Ok (dates, ws') →
                  ∀ r c, cellv ws' r c = cellv ws r c).
Proof.
  split_and!.
  - split.
    + intros (dates & ws' & H) r Hr.
      unfold MetadataWriter._get_indicator_last_date, mbind, sheet_bind, read
        in H.
      apply load_rows_inv in H as [He _];
        [|intros r' Hr'%elem_of_py_range_down; lia].
      apply row_entry_ok, He, elem_of_py_range_down. lia.
    + intros H. destruct (get_indicator_last_date_loaded ws H) as (ws' & Hl & _).
      by exists (loaded ws), ws'.
  - intros e H.
    unfold MetadataWriter._get_indicator_last_date, mbind, sheet_bind, read in H.
    apply load_rows_raises in H as (r & _ & Hr);
      [|intros r' Hr'%elem_of_py_range_down; lia].
    by apply row_entry_raises in Hr as [-> _].
  - intros dates ws' H.
    unfold MetadataWriter._get_indicator_last_date, mbind, sheet_bind, read in H.
    by apply load_rows_inv in H as [_ Hv];
      [|intros r' Hr'%elem_of_py_range_down; lia].
Qed.

Lemma get_indicator_last_date_inv (ws ws' : worksheet)
    (dates : gmap Z (option date)) :
  MetadataWriter._get_indicator_last_date ws = Ok (dates, ws') →
  dates = loaded ws
  ∧ (∀ r, (2 ≤ r)%nat → py_int (cellv ws r 1) ≠ Raise ValueError)
  ∧ ∀ r c, cellv ws' r c = cellv ws r c.
Proof.
  intros H.
  assert (∀ r, (2 ≤ r ≤ max_row ws)%nat →
               py_int (cellv ws r 1) ≠ Raise ValueError) as Hok.
  { intros r Hr.
    unfold MetadataWriter._get_indicator_last_date, mbind, sheet_bind, read
      in H.
    apply load_rows_inv in H as [He _];
      [|intros r' Hr'%elem_of_py_range_down; lia].
    apply row_entry_ok, He, elem_of_py_range_down. lia. }
  destruct (get_indicator_last_date_loaded ws Hok) as (ws1 & Hl & Hv).
  rewrite Hl in H. injection H as <- <-. split_and!; [done| |done].
  intros r Hr. destruct (decide (r ≤ max_row ws)%nat); [apply Hok; lia|].
  by rewrite cellv_beyond by lia.
Qed.

(** X14.  The topmost row wins.  When the load returns, the dictionary
    holds date [v] for identifier [k] exactly when some row from 2 to the
    last gives [k] with [v] and no row before it gives [k]: of several
    rows with one identifier the scan, which runs from the last row up,
    keeps the topmost. *)
Theorem metadata_topmost_row_wins (ws ws' : worksheet)
    (dates : gmap Z (option date)) (k : Z) (v : option date) :
  MetadataWriter._get_indicator_last_date ws = Ok (dates, ws') →
  (dates !! k = Some v
   ↔ ∃ r, (2 ≤ r ≤ max_row ws)%nat ∧ the_entry ws r = Some (k, v)
          ∧ ∀ r' v', (2 ≤ r' < r)%nat → the_entry ws r' ≠ Some (k, v')).
Proof.
  intros (-> & _ & _)%get_indicator_last_date_inv.
  rewrite lookup_loaded. apply topmost_entry_Some.
Qed.

Lemma metadata_topmost_row_wins_witness :
  let ws : worksheet :=
    list_to_map
      [((2, 1), VInt 11); ((2, 2), VDatetime (Date 2024 1 3) midnight);
       ((3, 1), VInt 11); ((3, 2), VDatetime (Date 2024 1 2) midnight)]%nat in
  ({[11 := Some (Date 2024 1 3)]} : gmap Z (option date)) !! 11
  = Some (Some (Date 2024 1 3))
  ↔ ∃ r, (2 ≤ r ≤ max_row ws)%nat
         ∧ the_entry ws r = Some (11, Some (Date 2024 1 3))
         ∧ ∀ r' v', (2 ≤ r' < r)%nat → the_entry ws r' ≠ Some (11, v').
Proof.
  intros ws.
  apply (metadata_topmost_row_wins ws ws {[11 := Some (Date 2024 1 3)]} 11
           (Some (Date 2024 1 3))).
  vm_compute. reflexivity.
Defined.

(** ** Flushing, then loading *)

Lemma put_rows_idemp (row : nat) (rows : list (list value)) (ws : worksheet) :
  put_rows row rows (put_rows row rows ws) = put_rows row rows ws.
Proof.
  apply map_eq. intros [r c]. rewrite !lookup_put_rows.
  destruct (rows !! (r - row)%nat); [|done]. by case_decide.
Qed.

(** X15.  Flushing is idempotent: flushing the same dictionary a second
    time returns and leaves the sheet as the first flush left it. *)
Theorem flush_idempotent (indicators_dates : gmap Z (option date))
    (ws : worksheet) :
  ∃ ws' : worksheet,
    MetadataWriter.write_indicators_last_date indicators_dates ws
    = Ok ((), ws')
    ∧ MetadataWriter.write_indicators_last_date indicators_dates ws'
      = Ok ((), ws').
Proof.
  exists (put_rows 2
            (item_row <$> MetadataWriter.sorted_items indicators_dates) ws).
  unfold MetadataWriter.write_indicators_last_date.
  rewrite !write_items_ok by lia. by rewrite put_rows_idemp.
Qed.

Lemma the_entry_beyond (ws : worksheet) (r : nat) :
  (max_row ws < r)%nat → the_entry ws r = None.
Proof.
  intros H. unfold the_entry, row_entry. by rewrite cellv_beyond by done.
Qed.

Lemma the_entry_in_loaded (ws : worksheet) (r : nat) (k : Z)
    (v : option date) :
  (2 ≤ r)%nat → the_entry ws r = Some (k, v) → is_Some (loaded ws !! k).
Proof.
  intros Hr He. rewrite lookup_loaded.
  destruct (topmost_entry ws k (max_row ws)) eqn:E; [done|].
  exfalso. apply (proj1 (topmost_entry_None ws k (max_row ws)) E r v); [|done].
  split; [done|]. destruct (decide (r ≤ max_row ws)%nat); [done|].
  by rewrite the_entry_beyond in He by lia.
Qed.

Lemma the_entry_row (ws ws' : worksheet) (row : nat) :
  cellv ws' row 1 = cellv ws row 1 → cellv ws' row 2 = cellv ws row 2 →
  the_entry ws' row = the_entry ws row.
Proof. intros H1 H2. unfold the_entry, row_entry. by rewrite H1, H2. Qed.

Lemma cellv_max_row (ws : worksheet) (r c : nat) :
  cellv ws r c ≠ VNone → (r ≤ max_row ws)%nat.
Proof.
  intros H. destruct (decide (r ≤ max_row ws)%nat); [done|].
  by rewrite cellv_beyond in H by lia.
Qed.

Lemma max_row_headers (hs : list value) (ws : worksheet) :
  hs ≠ [] → (1 ≤ max_row (put_cells 1 1 hs ws))%nat.
Proof.
  intros H. destruct hs as [|h hs]; [done|].
  apply (max_row_ge _ _ 1%nat). rewrite lookup_put_cells.
  by rewrite decide_True by (simpl; lia).
Qed.

Section flush_then_load.
Context (m : gmap Z (option date)) (g : option date → option date).
Context (sheet : worksheet).
Context (entry_of_item : ∀ i k v,
  MetadataWriter.sorted_items m !! i = Some (k, v) →
  the_entry sheet (2 + i) = Some (k, g v)).
Context (entry_after : ∀ r k v,
  (2 + length (MetadataWriter.sorted_items m) ≤ r)%nat →
  the_entry sheet r = Some (k, v) → is_Some (m !! k)).
Context (rows_present :
  (1 + length (MetadataWriter.sorted_items m) ≤ max_row sheet)%nat).

Lemma loaded_flushed : loaded sheet = g <$> m.
Proof.
  set (items := MetadataWriter.sorted_items m) in *.
  pose proof (sorted_items_nodup m) as Hnd. fold items in Hnd.
  apply map_eq. intros k. rewrite lookup_loaded, lookup_fmap.
  destruct (m !! k) as [v|] eqn:Hk; simpl.
  - assert ((k, v) ∈ items) as Hin
      by (unfold items; rewrite sorted_items_perm; by apply elem_of_map_to_list).
    apply list_elem_of_lookup in Hin as [i Hi].
    apply lookup_lt_Some in Hi as Hlt.
    apply topmost_entry_Some. exists (2 + i)%nat. split_and!; [lia|lia|eauto|].
    intros r' v' Hr' He.
    assert (is_Some (items !! (r' - 2)%nat)) as [[k' w] Hj]
      by (apply lookup_lt_is_Some; lia).
    pose proof (entry_of_item _ _ _ Hj) as He'.
    replace (2 + (r' - 2))%nat with r' in He' by lia.
    rewrite He in He'. injection He' as <- _.
    assert ((r' - 2)%nat = i); [|lia].
    eapply (NoDup_lookup _ _ _ k Hnd); rewrite list_lookup_fmap.
    + by rewrite Hj.
    + by rewrite Hi.
  - apply topmost_entry_None. intros r v Hr He.
    destruct (decide (r < 2 + length items)%nat) as [Hlt|Hge].
    + assert (is_Some (items !! (r - 2)%nat)) as [[k' w] Hj]
        by (apply lookup_lt_is_Some; lia).
      pose proof (entry_of_item _ _ _ Hj) as He'.
      replace (2 + (r - 2))%nat with r in He' by lia.
      rewrite He in He'. injection He' as <- _.
      assert ((k, w) ∈ map_to_list m) as Hin.
      { rewrite <- sorted_items_perm. by eapply list_elem_of_lookup_2. }
      apply elem_of_map_to_list in Hin. congruence.
    + destruct (entry_after r k v) as [w Hw]; [lia|done|]. congruence.
Qed.

End flush_then_load.

Lemma metadata_init_inv (ws0 ws1 : worksheet) (dates0 : gmap Z (option date)) :
  MetadataWriter.__init__ ws0 = Ok (dates0, ws1) →
  (∀ r, (2 ≤ r)%nat → py_int (cellv ws1 r 1) ≠ Raise ValueError)
  ∧ (∀ r c, (2 ≤ r)%nat → cellv ws1 r c = cellv ws0 r c)
  ∧ (∀ r k v, (2 ≤ r)%nat → the_entry ws1 r = Some (k, v) →
              is_Some (dates0 !! k)).
Proof.
  intros H0.
  unfold MetadataWriter.__init__, MetadataWriter._write_headers in H0.
  unfold mbind at 1 in H0. unfold sheet_bind in H0.
  rewrite write_cells_ok in H0 by lia.
  apply get_indicator_last_date_inv in H0 as (-> & Hok & Hv).
  split_and!.
  - intros r Hr. rewrite Hv. by apply Hok.
  - intros r c Hr. rewrite Hv. apply cellv_put_cells_below. lia.
  - intros r k v Hr He. rewrite (the_entry_same _ _ _ Hv) in He.
    by apply (the_entry_in_loaded _ r k v).
Qed.

Lemma metadata_init_loaded (ws : worksheet) :
  let sheet := put_cells 1 1 [VStr "indicator"; VStr "last date"] ws in
  (∀ r, (2 ≤ r)%nat → py_int (cellv sheet r 1) ≠ Raise ValueError) →
  ∃ ws', MetadataWriter.__init__ ws = Ok (loaded sheet, ws').
Proof.
  intros sheet Hok.
  unfold MetadataWriter.__init__, MetadataWriter._write_headers.
  unfold mbind at 1. unfold sheet_bind. rewrite write_cells_ok by lia.
  destruct (get_indicator_last_date_loaded sheet) as (ws' & Hl & _).
  { intros r Hr. apply Hok. lia. }
  by exists ws'.
Qed.

Lemma cellv_flushed (items : list (Z * option date)) (ws : worksheet)
    (r c : nat) :
  cellv (put_rows 2 (item_row <$> items) ws) r c
  = match items !! (r - 2)%nat with
    | Some item =>
        if decide (2 ≤ r)%nat
        then match c with
             | 1%nat => VInt item.1
             | 2%nat => opt_date_value item.2
             | _ => cellv ws r c
             end
        else cellv ws r c
    | None => cellv ws r c
    end.
Proof.
  unfold cellv. rewrite lookup_put_rows, list_lookup_fmap.
  destruct (items !! (r - 2)%nat) as [[k v]|]; simpl; [|done].
  destruct (decide (2 ≤ r)%nat).
  - destruct c as [|[|[|c]]]; simpl.
    + by rewrite decide_False by lia.
    + by rewrite decide_True by lia.
    + by rewrite decide_True by lia.
    + by rewrite decide_False by lia.
  - by rewrite decide_False by lia.
Qed.

(** X16.  Reading back in the same session loses the dates.  A store is
    made from a sheet and its dictionary grows to [m]; [m] is flushed and
    a new store is made from the sheet as it stands in memory.  Both
    return, and the new store has every identifier of [m] and no other,
    each with no date: the flushed cells hold [datetime.date]s, which have
    no [date()] method. *)
Theorem metadata_in_session (ws0 ws1 : worksheet)
    (dates0 m : gmap Z (option date)) :
  MetadataWriter.__init__ ws0 = Ok (dates0, ws1) →
  (∀ k, is_Some (dates0 !! k) → is_Some (m !! k)) →
  ∃ ws2 ws3 : worksheet,
    MetadataWriter.write_indicators_last_date m ws1 = Ok ((), ws2)
    ∧ MetadataWriter.__init__ ws2 = Ok ((λ _, None) <$> m, ws3).
Proof.
  intros (Hok & _ & Hin)%metadata_init_inv Hdom.
  set (items := MetadataWriter.sorted_items m).
  set (ws2 := put_rows 2 (item_row <$> items) ws1).
  set (sheet := put_cells 1 1 [VStr "indicator"; VStr "last date"] ws2).
  assert (∀ r c, (2 ≤ r)%nat → cellv sheet r c = cellv ws2 r c) as Hs.
  { intros r c Hr. unfold sheet. apply cellv_put_cells_below. lia. }
  assert (∀ r, (2 + length items ≤ r)%nat →
               ∀ c, cellv sheet r c = cellv ws1 r c) as Hafter.
  { intros r Hr c. rewrite Hs by lia. unfold ws2. rewrite cellv_flushed.
    by rewrite (proj2 (lookup_ge_None items (r - 2)%nat)) by lia. }
  assert (∀ i k v, items !! i = Some (k, v) →
            cellv sheet (2 + i) 1 = VInt k
            ∧ cellv sheet (2 + i) 2 = opt_date_value v) as Hcells.
  { intros i k v Hi. rewrite !Hs by lia. unfold ws2. rewrite !cellv_flushed.
    replace (2 + i - 2)%nat with i by lia. rewrite Hi.
    by rewrite decide_True by lia. }
  destruct (metadata_init_loaded ws2) as (ws3 & Hload).
  { fold sheet. intros r Hr.
    destruct (items !! (r - 2)%nat) as [[k v]|] eqn:E.
    - destruct (Hcells _ _ _ E) as [Hc _].
      replace (2 + (r - 2))%nat with r in Hc by lia. by rewrite Hc.
    - apply lookup_ge_None in E. rewrite Hafter by lia. by apply Hok. }
  exists ws2, ws3. split.
  { unfold MetadataWriter.write_indicators_last_date.
    by rewrite write_items_ok by lia. }
  rewrite Hload. fold sheet. do 2 f_equal.
  apply loaded_flushed; fold items.
  - intros i k v Hi. destruct (Hcells _ _ _ Hi) as [H1 H2].
    unfold the_entry, row_entry. rewrite H1, H2. simpl. by destruct v.
  - intros r k v Hr He. apply Hdom, (Hin r k v); [lia|].
    rewrite <- He. symmetry. by apply the_entry_row; apply Hafter.
  - destruct (decide (length items = 0)%nat) as [->|Hne].
    { by apply max_row_headers. }
    assert (is_Some (items !! (length items - 1)%nat)) as [[k v] Hi]
      by (apply lookup_lt_is_Some; lia).
    destruct (Hcells _ _ _ Hi) as [Hc _].
    replace (1 + length items)%nat with (2 + (length items - 1))%nat by lia.
    apply (cellv_max_row _ _ 1). by rewrite Hc.
Qed.

Lemma metadata_in_session_witness :
  ∃ ws2 ws3 : worksheet,
    MetadataWriter.write_indicators_last_date
      {[11 := Some (Date 2024 1 3); 433 := None]}
      (put_cells 1 1 [VStr "indicator"; VStr "last date"] ∅) = Ok ((), ws2)
    ∧ MetadataWriter.__init__ ws2
      = Ok ((λ _, None) <$> {[11 := Some (Date 2024 1 3); 433 := None]}, ws3).
Proof.
  apply (metadata_in_session ∅ _ ∅).
  - vm_compute. reflexivity.
  - intros k. rewrite lookup_empty. intros [? [=]].
Defined.

(** ** The dictionary across sessions *)

Lemma py_int_reloaded (file : persistence) (k : nat * nat) (v : value) :
  kept_identifier v →
  py_int (default VNone (reload_value file k v)) = py_int v.
Proof.
  destruct v; simpl; try done.
  - by destruct (keeps_empty file k).
  - intros H. by rewrite reload_int_exact.
  - intros _. unfold reload_date. by repeat case_match.
Qed.

Lemma reload_value_kept (file : persistence) (k : nat * nat) (v : value) :
  kept_identifier v → kept_identifier (default VNone (reload_value file k v)).
Proof.
  destruct v; simpl; try done.
  - by destruct (keeps_empty file k).
  - intros H. by rewrite reload_int_exact.
  - intros _. unfold reload_date. by repeat case_match.
Qed.

Lemma in_step_init (ws0 ws1 : worksheet) (dates0 : gmap Z (option date)) :
  MetadataWriter.__init__ ws0 = Ok (dates0, ws1) →
  (∀ r, (2 ≤ r)%nat → kept_identifier (cellv ws0 r 1)) →
  in_step ws1 dates0.
Proof.
  intros (Hok & Hsame & Hin)%metadata_init_inv Hnum. split_and!; [done| |done].
  intros r Hr. rewrite Hsame by lia. by apply Hnum.
Qed.

Lemma in_step_grows (ws : worksheet) (m m' : gmap Z (option date)) :
  in_step ws m → (∀ k, is_Some (m !! k) → is_Some (m' !! k)) → in_step ws m'.
Proof.
  intros (Hok & Hnum & Hin) Hdom. split_and!; [done|done|].
  intros r k v Hr He. by apply Hdom, (Hin r k v).
Qed.

(** Flushing a dictionary the file keeps on a sheet in step with it,
    saving, loading and making a store from the loaded sheet gives the
    dictionary back, on a sheet again in step with it. *)
Lemma in_step_round_trip (file : persistence) (ws1 : worksheet)
    (m : gmap Z (option date)) :
  in_step ws1 m → storable m →
  ∃ ws3 : worksheet,
    MetadataWriter.__init__
      (reload file (put_rows 2 (item_row <$> MetadataWriter.sorted_items m) ws1))
    = Ok (m, ws3)
    ∧ in_step ws3 m.
Proof.
  intros (Hok & Hnum & Hin) Hst.
  set (items := MetadataWriter.sorted_items m).
  set (ws2 := put_rows 2 (item_row <$> items) ws1).
  set (sheet := put_cells 1 1 [VStr "indicator"; VStr "last date"]
                  (reload file ws2)).
  assert (∀ i k v, items !! i = Some (k, v) →
            exact_int k ∧ from_option from_1900 True v) as Hitems.
  { intros i k v Hi. apply (Hst k v).
    apply elem_of_map_to_list. rewrite <- sorted_items_perm.
    by eapply list_elem_of_lookup_2. }
  assert (∀ r c, (2 ≤ r)%nat →
            cellv sheet r c
            = default VNone (reload_value file (r, c) (cellv ws2 r c))) as Hs.
  { intros r c Hr. unfold sheet. rewrite cellv_put_cells_below by lia.
    apply cellv_reload. }
  assert (∀ r, (2 + length items ≤ r)%nat →
               ∀ c, cellv ws2 r c = cellv ws1 r c) as Hafter.
  { intros r Hr c. unfold ws2. rewrite cellv_flushed.
    by rewrite (proj2 (lookup_ge_None items (r - 2)%nat)) by lia. }
  assert (∀ i k v, items !! i = Some (k, v) →
            cellv ws2 (2 + i) 1 = VInt k
            ∧ cellv sheet (2 + i) 1 = VInt k
            ∧ value_date (cellv sheet (2 + i) 2)
              = match v with Some d => Ok d | None => Raise AttributeError end)
    as Hcells.
  { intros i k v Hi. destruct (Hitems i k v Hi) as [Hk Hv].
    rewrite !Hs by lia. unfold ws2. rewrite !cellv_flushed.
    replace (2 + i - 2)%nat with i by lia. rewrite Hi.
    rewrite decide_True by lia. simpl. split_and!; [done| |].
    - by rewrite reload_int_exact.
    - destruct v as [d|]; simpl.
      + by rewrite reload_date_from_1900.
      + by destruct (keeps_empty file _). }
  assert (∀ r, (2 ≤ r)%nat → kept_identifier (cellv ws2 r 1)) as Hnum2.
  { intros r Hr. destruct (items !! (r - 2)%nat) as [[k v]|] eqn:E.
    - destruct (Hcells _ _ _ E) as [Hc _].
      replace (2 + (r - 2))%nat with r in Hc by lia. rewrite Hc.
      by apply (Hitems _ _ _ E).
    - apply lookup_ge_None in E. rewrite Hafter by lia. by apply Hnum. }
  assert (∀ r, (2 + length items ≤ r)%nat →
               py_int (cellv sheet r 1) = py_int (cellv ws1 r 1)) as Hid.
  { intros r Hr. rewrite Hs, Hafter by lia. apply py_int_reloaded.
    apply Hnum. lia. }
  assert (∀ r, (2 ≤ r)%nat → py_int (cellv sheet r 1) ≠ Raise ValueError)
    as Hok'.
  { intros r Hr. destruct (items !! (r - 2)%nat) as [[k v]|] eqn:E.
    - destruct (Hcells _ _ _ E) as (_ & Hc & _).
      replace (2 + (r - 2))%nat with r in Hc by lia. by rewrite Hc.
    - apply lookup_ge_None in E. rewrite Hid by lia. by apply Hok. }
  destruct (metadata_init_loaded (reload file ws2) Hok') as (ws3 & Hload).
  assert (loaded sheet = m) as Hm.
  { transitivity (id <$> m); [|apply map_fmap_id].
    apply loaded_flushed; fold items.
    - intros i k v Hi. destruct (Hcells _ _ _ Hi) as (_ & H1 & H2).
      unfold the_entry, row_entry. rewrite H1, H2. simpl. by destruct v.
    - intros r k v Hr He.
      assert (∃ v', the_entry ws1 r = Some (k, v')) as [v' He'].
      { unfold the_entry, row_entry in *. rewrite Hid in He by lia.
        destruct (py_int (cellv ws1 r 1)) as [cod|e]; [|by destruct e].
        injection He as -> _. eauto. }
      apply (Hin r k v'); [lia|done].
    - destruct (decide (length items = 0)%nat) as [->|Hne].
      { by apply max_row_headers. }
      assert (is_Some (items !! (length items - 1)%nat)) as [[k v] Hi]
        by (apply lookup_lt_is_Some; lia).
      destruct (Hcells _ _ _ Hi) as (_ & Hc & _).
      replace (1 + length items)%nat with (2 + (length items - 1))%nat by lia.
      apply (cellv_max_row _ _ 1). by rewrite Hc. }
  exists ws3. fold ws2. fold sheet in Hload. rewrite Hm in Hload.
  split; [done|].
  apply metadata_init_inv in Hload as Hinv. destruct Hinv as (_ & Hsame & Hin3).
  split_and!.
  - intros r Hr. rewrite Hsame by done.
    rewrite <- (cellv_put_cells_below 1 1 [VStr "indicator"; VStr "last date"])
      by lia. by apply Hok'.
  - intros r Hr. rewrite Hsame by done. rewrite cellv_reload.
    apply reload_value_kept. by apply Hnum2.
  - done.
Qed.

(** X17.  The whole dictionary survives the file.  A store is made from a
    sheet whose identifier cells hold no fractional number and no integer
    beyond 2^53, and its dictionary grows to [m], of identifiers up to
    2^53 in magnitude and dates from 1 January 1900 on; [m] is flushed,
    the workbook is saved and loaded, and a new store is made from the
    loaded sheet.  Both return, and the dictionary of the new store is
    [m]: every identifier with its date, and no identifier more, whatever
    rows an earlier, longer sheet left after the flushed ones. *)
Theorem metadata_dictionary_round_trip (file : persistence)
    (ws0 ws1 : worksheet) (dates0 m : gmap Z (option date)) :
  MetadataWriter.__init__ ws0 = Ok (dates0, ws1) →
  (∀ r, (2 ≤ r)%nat → kept_identifier (cellv ws0 r 1)) →
  (∀ k, is_Some (dates0 !! k) → is_Some (m !! k)) →
  storable m →
  ∃ ws2 ws3 : worksheet,
    MetadataWriter.write_indicators_last_date m ws1 = Ok ((), ws2)
    ∧ MetadataWriter.__init__ (reload file ws2) = Ok (m, ws3).
Proof.
  intros Hinit Hnum Hdom Hst.
  pose proof (in_step_grows _ _ m (in_step_init _ _ _ Hinit Hnum) Hdom) as Hstep.
  destruct (in_step_round_trip file ws1 m Hstep Hst) as (ws3 & Hload & _).
  eexists _, ws3. split; [|exact Hload].
  unfold MetadataWriter.write_indicators_last_date.
  by rewrite write_items_ok by lia.
Qed.

Lemma metadata_dictionary_round_trip_witness :
  ∃ ws2 ws3 : worksheet,
    MetadataWriter.write_indicators_last_date
      {[11 := Some (Date 2024 1 3); 433 := None]}
      (put_cells 1 1 [VStr "indicator"; VStr "last date"] ∅) = Ok ((), ws2)
    ∧ MetadataWriter.__init__ (reload plain_file ws2)
      = Ok ({[11 := Some (Date 2024 1 3); 433 := None]}, ws3).
Proof.
  apply (metadata_dictionary_round_trip _ ∅ _ ∅).
  - vm_compute. reflexivity.
  - intros r Hr. vm_compute. exact I.
  - intros k. rewrite lookup_empty. intros [? [=]].
  - intros k v [[<- <-]|[_ [<- <-]%lookup_singleton_Some]]%lookup_insert_Some.
    + split; [unfold exact_int; lia|reflexivity].
    + split; [unfold exact_int; lia|exact I].
Defined.
